(** * DNA Sample Manager: tube positions, volumes and import reconciliation

    A shallow embedding of the tube/box/usage part of
    [src/dna_sample_manager/app.py] and of the tube loop of
    [reimport_tubes_boxes.py], followed by the properties of the
    specification that concern them.

    Conventions of the embedding.
    - A Python [str] is a Rocq [string]; a non-ASCII character is the
      sequence of its UTF-8 bytes.  The helpers of [Py] follow the Python
      built-ins on ASCII text.
    - A volume or a concentration (Python [float], SQL [FLOAT]) is an exact
      rational of [Q]: comparisons and the product by [0.25] are the ones of
      the code.  The amount of a usage request may also be not-a-number,
      which is a case of its own.  The rounding of the one subtraction and
      infinite values are outside the model: of a difference the
      statements claim only the bounds that rounding keeps.
    - A nullable column or an absent JSON key is an [option].
    - A request handler takes the store and returns the store with its
      response, so that what a rejected request leaves behind is visible. *)

From Stdlib Require Import ZArith QArith Lqa Ascii.
From stdpp Require Import base gmap sets list strings pretty.

Local Open Scope Z_scope.

(** ** Python built-ins used by the code *)

Module Py.

(** [str.isspace] on one ASCII character: TAB to CR, FS to US, space. *)
Definition is_space (a : ascii) : bool :=
  let n := Z.of_N (N_of_ascii a) in
  ((9 <=? n) && (n <=? 13)) || ((28 <=? n) && (n <=? 32)).

Fixpoint lstrip (s : string) : string :=
  match s with
  | String a s' => if is_space a then lstrip s' else s
  | EmptyString => EmptyString
  end.

Definition rstrip (s : string) : string := String.rev (lstrip (String.rev s)).

(** [s.strip()] *)
Definition strip (s : string) : string := rstrip (lstrip s).

(** [s.lstrip(c)] for a one-character argument. *)
Fixpoint lstrip_char (c : ascii) (s : string) : string :=
  match s with
  | String a s' => if Ascii.eqb a c then lstrip_char c s' else s
  | EmptyString => EmptyString
  end.

(** [s.replace(c, d)] for one-character arguments. *)
Fixpoint replace_char (c d : ascii) (s : string) : string :=
  match s with
  | String a s' => String (if Ascii.eqb a c then d else a) (replace_char c d s')
  | EmptyString => EmptyString
  end.

(** The prefix test on strings. *)
Fixpoint starts_with (p s : string) : option string :=
  match p, s with
  | EmptyString, _ => Some s
  | String a p', String b s' => if Ascii.eqb a b then starts_with p' s' else None
  | String _ _, EmptyString => None
  end.

(** [s.rstrip(c)] for one character [c], given by its UTF-8 bytes [enc]:
    the trailing copies of [enc] are removed.  The recursion runs on the
    reversed string. *)
Fixpoint lstrip_seq (fuel : nat) (enc s : string) : string :=
  match fuel with
  | O => s
  | S fuel' =>
      match starts_with enc s with
      | Some rest => lstrip_seq fuel' enc rest
      | None => s
      end
  end.

Definition rstrip_seq (enc s : string) : string :=
  match enc with
  | EmptyString => s
  | _ => String.rev (lstrip_seq (String.length s) (String.rev enc) (String.rev s))
  end.

Definition upper_char (a : ascii) : ascii :=
  let n := N_of_ascii a in
  if ((97 <=? n) && (n <=? 122))%N then ascii_of_N (n - 32) else a.

(** [s.upper()] *)
Fixpoint upper (s : string) : string :=
  match s with
  | String a s' => String (upper_char a) (upper s')
  | EmptyString => EmptyString
  end.

(** [len(s)] *)
Definition len (s : string) : Z := Z.of_nat (String.length s).

(** [ord(s)], [None] for the [TypeError] on a string that is not one
    character. *)
Definition ord (s : string) : option Z :=
  match s with
  | String a EmptyString => Some (Z.of_N (N_of_ascii a))
  | _ => None
  end.

(** Truth value of a string, of an integer and of a float. *)
Definition truthy_str (s : string) : bool :=
  match s with EmptyString => false | _ => true end.
Definition truthy_Z (o : option Z) : bool :=
  match o with Some n => negb (n =? 0) | None => false end.
Definition truthy_Q (o : option Q) : bool :=
  match o with Some q => negb (Qeq_bool q 0) | None => false end.

Definition digit_of (a : ascii) : option Z :=
  let n := Z.of_N (N_of_ascii a) in
  if (48 <=? n) && (n <=? 57) then Some (n - 48) else None.

(** The digits of an integer literal: one or more digits, where single
    underscores may separate digits. *)
Fixpoint int_digits (s : string) (acc : Z) (after_digit : bool) : option Z :=
  match s with
  | EmptyString => if after_digit then Some acc else None
  | String a s' =>
      match digit_of a with
      | Some d => int_digits s' (10 * acc + d) true
      | None =>
          if Ascii.eqb a "_" && after_digit then int_digits s' acc false
          else None
      end
  end.

(** [int(s)] on a string, [None] for [ValueError]: surrounding white
    space, an optional sign, then the digits. *)
Definition int (s : string) : option Z :=
  match strip s with
  | String "+" s' => int_digits s' 0 false
  | String "-" s' => Z.opp <$> int_digits s' 0 false
  | s' => int_digits s' 0 false
  end.

(** [str(n)] on an integer of at most 4300 digits; CPython raises
    ValueError on a longer one.  The callers pass rows and columns of the
    tube table and numbers of the script, all within 64 bits. *)
Definition str (n : Z) : string := pretty n.

(** [chr(n)], [None] for [ValueError]; code points below 128 are one
    byte, which is all the callers below can reach. *)
Definition chr (n : Z) : option string :=
  if (0 <=? n) && (n <? 128)
  then Some (String (ascii_of_N (Z.to_N n)) EmptyString)
  else None.

End Py.

(** ** Database models (app.py, classes Box, Tube, Usage) *)

Record Box := mkBox {
  box_name : option string;
  box_type : option string;
  box_freezer : option string;
  box_notes : option string }.

Record Tube := mkTube {
  barcode : string;
  sample_id : option Z;
  box_id : option Z;
  position_row : option Z;
  position_col : option Z;
  concentration : option Q;
  quality : option string;
  initial_volume : option Q;
  current_volume : option Q;
  source : option string;
  tube_type : option string;
  notes : option string }.

(** A calendar date, as a day number. *)
Definition Date := Z.

Record Usage := mkUsage {
  usage_tube_id : option Z;
  user_name : option string;
  date_out : Date;
  volume_taken : option Q;
  purpose : option string;
  usage_notes : option string }.

(** The three tables; a row is found by its integer primary key. *)
Record Store := mkStore {
  tubes : gmap Z Tube;
  boxes : gmap Z Box;
  usages : gmap Z Usage }.

(** The key SQLite gives to a new row of a table whose key is an
    [INTEGER PRIMARY KEY]: one more than the largest key in use. *)
Definition next_id {A} (m : gmap Z A) : Z :=
  1 + foldr Z.max 0 ((map_to_list m).*1).

(** ** Tube methods *)

Inductive Display :=
  | NoPosition
  | Shown (s : string)
  | ChrValueError.

(** [Tube.get_position_display] *)
Definition get_position_display (t : Tube) : Display :=
  if Py.truthy_Z (position_row t) && Py.truthy_Z (position_col t) then
    match position_row t, position_col t with
    | Some r, Some c =>
        if r <=? 26 then
          match Py.chr (64 + r) with
          | Some row => Shown (row +:+ Py.str c)
          | None => ChrValueError
          end
        else Shown (Py.str r +:+ Py.str c)
    | _, _ => NoPosition
    end
  else NoPosition.

Inductive Status := Empty | Critical | Low | Available.

Definition Qlt_bool (x y : Q) : bool := negb (Qle_bool y x).

(** [Tube.get_status] *)
Definition get_status (t : Tube) : Status :=
  match current_volume t with
  | None => Empty
  | Some cv =>
      if Qle_bool cv 0 then Empty
      else if Qlt_bool cv 10 then Critical
      else if Py.truthy_Q (initial_volume t)
              && match initial_volume t with
                 | Some iv => Qlt_bool cv (iv * (1 # 4))
                 | None => false
                 end
      then Low
      else Available
  end.

(** ** SQL conditions: three-valued logic, NULL is [None] *)

Module Sql.

Definition and3 (a b : option bool) : option bool :=
  match a, b with
  | Some false, _ | _, Some false => Some false
  | Some true, Some true => Some true
  | _, _ => None
  end.

Definition or3 (a b : option bool) : option bool :=
  match a, b with
  | Some true, _ | _, Some true => Some true
  | Some false, Some false => Some false
  | _, _ => None
  end.

Definition cmp (f : Q → Q → bool) (x y : option Q) : option bool :=
  match x, y with
  | Some a, Some b => Some (f a b)
  | _, _ => None
  end.

Definition le := cmp Qle_bool.
Definition lt := cmp Qlt_bool.
Definition ge := cmp (λ a b, Qle_bool b a).
Definition gt := cmp (λ a b, Qlt_bool b a).

Definition mul (x y : option Q) : option Q :=
  match x, y with
  | Some a, Some b => Some (a * b)%Q
  | _, _ => None
  end.

Definition is_null {A} (x : option A) : option bool :=
  Some (match x with None => true | Some _ => false end).

Definition is_not_null {A} (x : option A) : option bool :=
  Some (match x with None => false | Some _ => true end).

(** A row is selected when the condition is true, not when it is false
    or NULL. *)
Definition selected (c : option bool) : bool :=
  match c with Some true => true | _ => false end.

End Sql.

(** The status branch of [_build_tubes_query]: the condition added to the
    query for the [status] argument.  An empty status adds none, and so
    does a status that is none of the four names. *)
Definition status_filter (status : string) (t : Tube) : bool :=
  let cv := current_volume t in
  let iv := initial_volume t in
  if Py.truthy_str status then
    if String.eqb status "Empty" then
      Sql.selected (Sql.or3 (Sql.is_null cv) (Sql.le cv (Some 0%Q)))
    else if String.eqb status "Critical" then
      Sql.selected (Sql.and3 (Sql.gt cv (Some 0%Q)) (Sql.lt cv (Some 10%Q)))
    else if String.eqb status "Low" then
      Sql.selected
        (Sql.and3 (Sql.ge cv (Some 10%Q))
           (Sql.and3 (Sql.is_not_null iv)
              (Sql.lt cv (Sql.mul iv (Some (1 # 4)%Q)))))
    else if String.eqb status "Available" then
      Sql.selected
        (Sql.and3 (Sql.ge cv (Some 10%Q))
           (Sql.or3 (Sql.is_null iv)
              (Sql.ge cv (Sql.mul iv (Some (1 # 4)%Q)))))
    else true
  else true.

(** The name under which a status is sent to the query and shown in the
    tube's dictionary. *)
Definition status_name (s : Status) : string :=
  match s with
  | Empty => "Empty"
  | Critical => "Critical"
  | Low => "Low"
  | Available => "Available"
  end.

(** ** Requests and responses *)

(** A key of a JSON object: absent, [null], or a value. *)
Definition Field (A : Type) := option (option A).

(** [data.get(key)] *)
Definition get {A} (f : Field A) : option A :=
  match f with Some v => v | None => None end.

(** [data.get(key, default)] *)
Definition get_default {A} (f : Field A) (d : A) : option A :=
  match f with Some v => v | None => Some d end.

(** [setattr(obj, key, data[key])] when [key in data]. *)
Definition set_if_present {A} (f : Field A) (old : option A) : option A :=
  match f with Some v => v | None => old end.

Record TubeData := mkTubeData {
  d_barcode : Field string;
  d_sample_id : Field Z;
  d_box_id : Field Z;
  d_position_row : Field Z;
  d_position_col : Field Z;
  d_concentration : Field Q;
  d_quality : Field string;
  d_initial_volume : Field Q;
  d_current_volume : Field Q;
  d_source : Field string;
  d_tube_type : Field string;
  d_notes : Field string }.

Record BoxData := mkBoxData {
  d_box_name : Field string;
  d_box_type : Field string;
  d_box_freezer : Field string;
  d_box_notes : Field string }.

(** The [volume_taken] key of a usage request: absent or [null]; a value
    that [float] converts to a finite number; a value that [float]
    converts to not-a-number (the text [nan], the JSON literal [NaN]); a
    value on which [float] raises.  An infinite amount is not among the
    requests of this model. *)
Inductive VolumeField :=
  | VolumeAbsent
  | VolumeNumber (q : Q)
  | VolumeNaN
  | VolumeNotNumber.

(** The [date_out] key of a usage request: absent, [null] or empty; a
    string that [strptime] reads with [%Y-%m-%d]; a string on which it
    raises. *)
Inductive DateField :=
  | DateAbsent
  | DateValid (d : Date)
  | DateMalformed.

Record UsageData := mkUsageData {
  u_tube_id : option Z;
  u_user_name : option string;
  u_date_out : DateField;
  u_volume_taken : VolumeField;
  u_purpose : option string;
  u_notes : option string }.

Inductive Error :=
  | BarcodeExists            (* 400, create_tube *)
  | TubeHasUsages            (* 400, delete_tube *)
  | BoxHasTubes              (* 400, delete_box *)
  | NotANumber               (* 400, volume_taken is no number *)
  | InvalidAmount            (* 400, volume_taken <= 0 *)
  | InsufficientVolume (available requested : Q)   (* 400 *)
  | InvalidDate              (* 400 *)
  | NotFound                 (* 404 *)
  | IntegrityError           (* NOT NULL or UNIQUE refused at commit *)
  | OverflowError            (* an integer that SQLite cannot hold, at commit *)
  | ValueError.              (* [chr] in [to_dict], after the commit *)

Inductive Response (A : Type) :=
  | Ok (body : A)
  | Fail (e : Error).
Arguments Ok {A} body.
Arguments Fail {A} e.

(** ** Handlers of app.py *)

(** [Tube.query.filter_by(barcode=b).first()] finds a row. *)
Definition barcode_in_use (m : gmap Z Tube) (b : string) : bool :=
  existsb (λ kt, String.eqb (barcode kt.2) b) (map_to_list m).

(** A row other than [id] holds the barcode: the UNIQUE index refuses it. *)
Definition barcode_taken_by_other (m : gmap Z Tube) (id : Z) (b : string) : bool :=
  existsb (λ kt, negb (kt.1 =? id) && String.eqb (barcode kt.2) b) (map_to_list m).

(** An integer that an INTEGER column can hold: 64 bits, signed.  Binding
    a larger one makes the commit raise, and nothing is stored. *)
Definition fits_int64 (o : option Z) : bool :=
  match o with
  | Some n => (-9223372036854775808 <=? n) && (n <=? 9223372036854775807)
  | None => true
  end.

(** The integers of a tube request. *)
Definition tube_data_fits (data : TubeData) : bool :=
  fits_int64 (get (d_sample_id data)) && fits_int64 (get (d_box_id data))
  && fits_int64 (get (d_position_row data)) && fits_int64 (get (d_position_col data)).

(** [jsonify(tube.to_dict())], the body of the answer of a tube request:
    the one key that can raise is [position_display]. *)
Definition tube_answer {A} (t : Tube) (body : A) : Response A :=
  match get_position_display t with
  | ChrValueError => Fail ValueError
  | _ => Ok body
  end.

(** [create_tube]: the only check before the insert is the one on the
    barcode.  The column is NOT NULL, so a request without barcode passes
    the check and fails at commit, as does an integer beyond 64 bits.
    Foreign keys are declared but SQLite does not enforce them unless
    asked to, and the code does not ask.  The answer is built after the
    commit: where [to_dict] raises, the row is stored all the same. *)
Definition create_tube (s : Store) (data : TubeData) : Store * Response (Z * Tube) :=
  if match get (d_barcode data) with
     | Some b => barcode_in_use (tubes s) b
     | None => false
     end
  then (s, Fail BarcodeExists)
  else if negb (tube_data_fits data) then (s, Fail OverflowError)
  else
    match get (d_barcode data) with
    | None => (s, Fail IntegrityError)
    | Some b =>
        let tube :=
          {| barcode := b;
             sample_id := get (d_sample_id data);
             box_id := get (d_box_id data);
             position_row := get (d_position_row data);
             position_col := get (d_position_col data);
             concentration := get (d_concentration data);
             quality := get (d_quality data);
             initial_volume := get (d_initial_volume data);
             current_volume := get (d_current_volume data);
             source := get (d_source data);
             tube_type := get_default (d_tube_type data) "stock";
             notes := get (d_notes data) |} in
        let id := next_id (tubes s) in
        ({| tubes := <[id := tube]> (tubes s);
            boxes := boxes s;
            usages := usages s |},
         tube_answer tube (id, tube))
    end.

(** The loop of [update_tube] over the twelve keys. *)
Definition apply_tube_data (t : Tube) (b : string) (data : TubeData) : Tube :=
  {| barcode := b;
     sample_id := set_if_present (d_sample_id data) (sample_id t);
     box_id := set_if_present (d_box_id data) (box_id t);
     position_row := set_if_present (d_position_row data) (position_row t);
     position_col := set_if_present (d_position_col data) (position_col t);
     concentration := set_if_present (d_concentration data) (concentration t);
     quality := set_if_present (d_quality data) (quality t);
     initial_volume := set_if_present (d_initial_volume data) (initial_volume t);
     current_volume := set_if_present (d_current_volume data) (current_volume t);
     source := set_if_present (d_source data) (source t);
     tube_type := set_if_present (d_tube_type data) (tube_type t);
     notes := set_if_present (d_notes data) (notes t) |}.

(** [update_tube]: every key present in the request is copied to the row;
    the commit fails on an integer beyond 64 bits, on a [null] barcode
    and, when the barcode changes, on the barcode of another tube.  The
    answer is built after the commit, as in [create_tube]. *)
Definition update_tube (s : Store) (id : Z) (data : TubeData) : Store * Response Tube :=
  match tubes s !! id with
  | None => (s, Fail NotFound)
  | Some t =>
      if negb (tube_data_fits data) then (s, Fail OverflowError)
      else
        match set_if_present (d_barcode data) (Some (barcode t)) with
        | None => (s, Fail IntegrityError)
        | Some b =>
            if negb (String.eqb b (barcode t)) && barcode_taken_by_other (tubes s) id b
            then (s, Fail IntegrityError)
            else
              let t' := apply_tube_data t b data in
              ({| tubes := <[id := t']> (tubes s);
                  boxes := boxes s;
                  usages := usages s |},
               tube_answer t' t')
        end
  end.

(** [tube.usages] is not empty. *)
Definition tube_has_usages (m : gmap Z Usage) (id : Z) : bool :=
  existsb (λ ku, bool_decide (usage_tube_id ku.2 = Some id)) (map_to_list m).

(** [delete_tube] *)
Definition delete_tube (s : Store) (id : Z) : Store * Response unit :=
  match tubes s !! id with
  | None => (s, Fail NotFound)
  | Some _ =>
      if tube_has_usages (usages s) id then (s, Fail TubeHasUsages)
      else
        ({| tubes := delete id (tubes s);
            boxes := boxes s;
            usages := usages s |},
         Ok ())
  end.

(** [create_box] *)
Definition create_box (s : Store) (data : BoxData) : Store * Response (Z * Box) :=
  let box :=
    {| box_name := get (d_box_name data);
       box_type := get_default (d_box_type data) "stock";
       box_freezer := get (d_box_freezer data);
       box_notes := get (d_box_notes data) |} in
  let id := next_id (boxes s) in
  ({| tubes := tubes s;
      boxes := <[id := box]> (boxes s);
      usages := usages s |},
   Ok (id, box)).

(** [update_box] *)
Definition update_box (s : Store) (id : Z) (data : BoxData) : Store * Response Box :=
  match boxes s !! id with
  | None => (s, Fail NotFound)
  | Some b =>
      let b' :=
        {| box_name := set_if_present (d_box_name data) (box_name b);
           box_type := set_if_present (d_box_type data) (box_type b);
           box_freezer := set_if_present (d_box_freezer data) (box_freezer b);
           box_notes := set_if_present (d_box_notes data) (box_notes b) |} in
      ({| tubes := tubes s;
          boxes := <[id := b']> (boxes s);
          usages := usages s |},
       Ok b')
  end.

(** [box.tubes] is not empty. *)
Definition box_has_tubes (m : gmap Z Tube) (id : Z) : bool :=
  existsb (λ kt, bool_decide (box_id kt.2 = Some id)) (map_to_list m).

(** [delete_box] *)
Definition delete_box (s : Store) (id : Z) : Store * Response unit :=
  match boxes s !! id with
  | None => (s, Fail NotFound)
  | Some _ =>
      if box_has_tubes (tubes s) id then (s, Fail BoxHasTubes)
      else
        ({| tubes := tubes s;
            boxes := delete id (boxes s);
            usages := usages s |},
         Ok ())
  end.

(** The tube row with a new current volume. *)
Definition set_current_volume (t : Tube) (v : option Q) : Tube :=
  {| barcode := barcode t;
     sample_id := sample_id t;
     box_id := box_id t;
     position_row := position_row t;
     position_col := position_col t;
     concentration := concentration t;
     quality := quality t;
     initial_volume := initial_volume t;
     current_volume := v;
     source := source t;
     tube_type := tube_type t;
     notes := notes t |}.

(** [create_usage]; [today] is [datetime.now().date()].  The amount
    [volume_taken] is [None] when the request has none, [Some None] when it
    is not-a-number and [Some (Some q)] for the number [q]: not-a-number is
    neither at most 0 nor above a volume, it is true, and SQLite stores it
    as NULL.  Volumes are exact rationals here; the code subtracts floats,
    so the difference it stores is the rounded one. *)
Definition create_usage (today : Date) (s : Store) (data : UsageData)
  : Store * Response (Z * Usage) :=
  (* Validate volume_taken *)
  match
    match u_volume_taken data with
    | VolumeAbsent => Ok None
    | VolumeNotNumber => Fail NotANumber
    | VolumeNaN => Ok (Some None)
    | VolumeNumber q => if Qle_bool q 0 then Fail InvalidAmount else Ok (Some (Some q))
    end
  with
  | Fail e => (s, Fail e)
  | Ok volume =>
      (* Validate tube exists if tube_id provided *)
      match
        if Py.truthy_Z (u_tube_id data) then
          match u_tube_id data ≫= (λ id, (λ t, (id, t)) <$> tubes s !! id) with
          | Some it => Ok (Some it)
          | None => Fail NotFound
          end
        else Ok None
      with
      | Fail e => (s, Fail e)
      | Ok tube =>
          (* Check sufficient volume *)
          match
            match tube, volume with
            | Some (_, t), Some (Some q) =>
                if Py.truthy_Q (Some q) then
                  match current_volume t with
                  | Some cv => if Qlt_bool cv q then Some (InsufficientVolume cv q) else None
                  | None => None
                  end
                else None
            | _, _ => None
            end
          with
          | Some e => (s, Fail e)
          | None =>
              (* Parse date safely *)
              match
                match u_date_out data with
                | DateAbsent => Some today
                | DateValid d => Some d
                | DateMalformed => None
                end
              with
              | None => (s, Fail InvalidDate)
              | Some date =>
                  let usage :=
                    {| usage_tube_id := u_tube_id data;
                       user_name := u_user_name data;
                       date_out := date;
                       volume_taken := match volume with Some v => v | None => None end;
                       purpose := u_purpose data;
                       usage_notes := u_notes data |} in
                  (* Update tube current volume *)
                  let tubes' :=
                    match tube, volume with
                    | Some (id, t), Some (Some q) =>
                        if Py.truthy_Q (Some q) then
                          match current_volume t with
                          | Some cv =>
                              <[id := set_current_volume t (Some (cv - q)%Q)]> (tubes s)
                          | None => tubes s
                          end
                        else tubes s
                    | Some (id, t), Some None =>
                        match current_volume t with
                        | Some cv => <[id := set_current_volume t None]> (tubes s)
                        | None => tubes s
                        end
                    | _, _ => tubes s
                    end in
                  let uid := next_id (usages s) in
                  ({| tubes := tubes';
                      boxes := boxes s;
                      usages := <[uid := usage]> (usages s) |},
                   Ok (uid, usage))
              end
          end
      end
  end.

(** ** reimport_tubes_boxes.py *)

Module Reimport.

(** The row of the [sample] table, as far as the script reads and
    writes it. *)
Record Sample := mkSample {
  sample_code : string;
  sample_individual : option Z;
  sample_type : option string;
  sample_notes : option string }.

Record BoxInfo := mkBoxInfo {
  info_freezer : option string;
  info_box_type : string;
  info_numero : string }.

Record Counters := mkCounters {
  created : Z;
  skipped_dup_barcode : Z;
  skipped_dup_position : Z;
  skipped_no_barcode : Z;
  linked_to_individual : Z;
  not_linked : Z;
  samples_created : Z;
  samples_reused : Z }.

(** The variables of the tube loop of [main]. *)
Record Loop := mkLoop {
  counters : Counters;
  seen_barcodes : gset string;
  seen_positions : gset (string * string * string);
  sample_by_individual : gmap Z Z;
  sample_by_code : gmap string Z;
  sample_table : list (Z * Sample);
  new_tubes : list Tube }.

(** [row[i] if len(row) > i else ''] *)
Definition col (row : list string) (i : nat) : string :=
  default EmptyString (row !! i).

(** [sep.join(parts) if parts else None] *)
Fixpoint join (sep : string) (parts : list string) : string :=
  match parts with
  | [] => EmptyString
  | [p] => p
  | p :: ps => p +:+ sep +:+ join sep ps
  end.

Definition join_or_none (sep : string) (parts : list string) : option string :=
  match parts with
  | [] => None
  | _ => Some (join sep parts)
  end.

(** [x if x else None] *)
Definition or_none (s : string) : option string :=
  if Py.truthy_str s then Some s else None.

Definition parse_position_v (letter : string) : option Z :=
  if negb (Py.truthy_str letter) || String.eqb (Py.strip letter) EmptyString then None
  else
    let letter := Py.upper (Py.strip letter) in
    if (Py.len letter =? 1) && String.leb "A" letter && String.leb letter "I"
    then
      match Py.ord letter, Py.ord "A" with
      | Some n, Some a => Some (n - a + 1)
      | _, _ => None
      end
    else None.

Definition parse_position_h (value : string) : option Z :=
  if negb (Py.truthy_str value) || String.eqb (Py.strip value) EmptyString then None
  else Py.int (Py.strip value).

Definition build_freezer_info (frigo etage : string) : option string :=
  join_or_none ", "
    ((if Py.truthy_str (Py.strip frigo) then ["Frigo " +:+ Py.strip frigo] else [])
     ++ (if Py.truthy_str (Py.strip etage) then ["Étage " +:+ Py.strip etage] else [])).

Definition build_notes (code_alias degrade wga : string) : option string :=
  join_or_none "; "
    ((if Py.truthy_str (Py.strip code_alias)
      then ["Alias: " +:+ Py.strip code_alias] else [])
     ++ (if Py.truthy_str (Py.strip degrade)
         then ["Dégradé: " +:+ Py.strip degrade] else [])
     ++ (if Py.truthy_str (Py.strip wga) then ["WGA: " +:+ Py.strip wga] else [])).

(** Step 3: the rows of the file with at least twelve columns. *)
Definition read_rows (lines : list (list string)) : list (list string) :=
  filter (λ row, 12 ≤ Z.of_nat (length row)) lines.

(** Step 4: the three dictionaries. *)
Definition load_individuals (individuals : list (Z * string)) : gmap string Z :=
  foldl (λ m r, <[r.2 := r.1]> m) ∅ individuals.

Definition load_sample_by_individual (table : list (Z * Sample)) : gmap Z Z :=
  foldl (λ m r,
           match sample_individual r.2 with
           | Some ind =>
               match m !! ind with
               | None => <[ind := r.1]> m
               | Some _ => m
               end
           | None => m
           end) ∅ table.

Definition load_sample_by_code (table : list (Z * Sample)) : gmap string Z :=
  let linked :=
    foldl (λ m r,
             match sample_individual r.2 with
             | Some _ =>
                 if Py.truthy_str (sample_code r.2)
                 then <[sample_code r.2 := r.1]> m else m
             | None => m
             end) ∅ table in
  foldl (λ m r,
           match sample_individual r.2 with
           | None =>
               if Py.truthy_str (sample_code r.2)
                  && bool_decide (m !! sample_code r.2 = None)
               then <[sample_code r.2 := r.1]> m else m
           | Some _ => m
           end) linked table.

(** Step 5: the boxes, one for each name, in the order of their first
    row; the dictionary [box_info] keeps that order. *)
Fixpoint collect_boxes (rows : list (list string))
    (box_info : list (string * BoxInfo)) : list (string * BoxInfo) :=
  match rows with
  | [] => box_info
  | row :: rows' =>
      let nom_boite := Py.strip (col row 9) in
      if negb (Py.truthy_str nom_boite) then collect_boxes rows' box_info
      else if bool_decide (nom_boite ∈ box_info.*1) then collect_boxes rows' box_info
      else
        let frigo := Py.strip (col row 6) in
        let etage := Py.strip (col row 7) in
        let numero := Py.strip (col row 8) in
        let box_type := Py.strip (col row 11) in
        collect_boxes rows'
          (box_info ++
             [(nom_boite,
               {| info_freezer := build_freezer_info frigo etage;
                  info_box_type := if Py.truthy_str box_type then box_type else "stock";
                  info_numero := numero |})])
  end.

(** The box table was emptied by step 2. *)
Definition create_boxes (box_info : list (string * BoxInfo))
  : gmap Z Box * gmap string Z :=
  foldl (λ acc ni,
           let box :=
             {| box_name := Some ni.1;
                box_type := Some (info_box_type ni.2);
                box_freezer := info_freezer ni.2;
                box_notes :=
                  if Py.truthy_str (info_numero ni.2)
                  then Some ("N° boîte: " +:+ info_numero ni.2) else None |} in
           let id := next_id acc.1 in
           (<[id := box]> acc.1, <[ni.1 := id]> acc.2))
    (∅, ∅) box_info.

(** The [while] loop that looks for a sample code not yet in use; it
    leaves the loop at the latest after [size sample_by_code + 1]
    candidates, which is the fuel given by the caller. *)
Fixpoint free_sample_code (fuel : nat) (codes : gmap string Z)
    (clean_code new_sample_id : string) (suffix : Z) : string :=
  match fuel with
  | O => new_sample_id
  | S fuel' =>
      if bool_decide (is_Some (codes !! new_sample_id))
      then free_sample_code fuel' codes clean_code
             (clean_code +:+ "_T" +:+ Py.str suffix) (suffix + 1)
      else new_sample_id
  end.

Definition bump_created (c : Counters) : Counters :=
  {| created := created c + 1;
     skipped_dup_barcode := skipped_dup_barcode c;
     skipped_dup_position := skipped_dup_position c;
     skipped_no_barcode := skipped_no_barcode c;
     linked_to_individual := linked_to_individual c;
     not_linked := not_linked c;
     samples_created := samples_created c;
     samples_reused := samples_reused c |}.

Definition bump_dup_barcode (c : Counters) : Counters :=
  {| created := created c;
     skipped_dup_barcode := skipped_dup_barcode c + 1;
     skipped_dup_position := skipped_dup_position c;
     skipped_no_barcode := skipped_no_barcode c;
     linked_to_individual := linked_to_individual c;
     not_linked := not_linked c;
     samples_created := samples_created c;
     samples_reused := samples_reused c |}.

Definition bump_dup_position (c : Counters) : Counters :=
  {| created := created c;
     skipped_dup_barcode := skipped_dup_barcode c;
     skipped_dup_position := skipped_dup_position c + 1;
     skipped_no_barcode := skipped_no_barcode c;
     linked_to_individual := linked_to_individual c;
     not_linked := not_linked c;
     samples_created := samples_created c;
     samples_reused := samples_reused c |}.

Definition bump_no_barcode (c : Counters) : Counters :=
  {| created := created c;
     skipped_dup_barcode := skipped_dup_barcode c;
     skipped_dup_position := skipped_dup_position c;
     skipped_no_barcode := skipped_no_barcode c + 1;
     linked_to_individual := linked_to_individual c;
     not_linked := not_linked c;
     samples_created := samples_created c;
     samples_reused := samples_reused c |}.

(** The three counters of the sample lookup, by how much each grows. *)
Definition bump_link (linked unlinked made reused : Z) (c : Counters) : Counters :=
  {| created := created c;
     skipped_dup_barcode := skipped_dup_barcode c;
     skipped_dup_position := skipped_dup_position c;
     skipped_no_barcode := skipped_no_barcode c;
     linked_to_individual := linked_to_individual c + linked;
     not_linked := not_linked c + unlinked;
     samples_created := samples_created c + made;
     samples_reused := samples_reused c + reused |}.

Section Main.

(** Python's [float] on a string, [None] for [ValueError]. *)
Variable py_float : string → option Q.

Definition parse_volume (value : string) : option Q :=
  if negb (Py.truthy_str value) || String.eqb (Py.strip value) EmptyString then None
  else py_float (Py.replace_char "," "." (Py.lstrip_char "<" (Py.strip value))).

Definition parse_concentration (value : string) : option Q :=
  if negb (Py.truthy_str value) || String.eqb (Py.strip value) EmptyString then None
  else py_float (Py.replace_char "," "." (Py.strip value)).

(** Lines 275 to 313: the sample of the tube, found through the
    individual named by [code_principal]; the result is the loop state
    and [sample_id]. *)
Definition link_sample (individual_map : gmap string Z) (st : Loop)
    (code_principal code_alias tissus : string) : Loop * option Z :=
  let count l u m r :=
    {| counters := bump_link l u m r (counters st);
       seen_barcodes := seen_barcodes st;
       seen_positions := seen_positions st;
       sample_by_individual := sample_by_individual st;
       sample_by_code := sample_by_code st;
       sample_table := sample_table st;
       new_tubes := new_tubes st |} in
  if Py.truthy_str code_principal then
    let clean_code := Py.strip (Py.rstrip_seq "†" code_principal) in
    let individual_db_id := individual_map !! clean_code in
    if Py.truthy_Z individual_db_id then
      match individual_db_id with
      | Some ind =>
          match sample_by_individual st !! ind with
          | Some sid => (count 1 0 0 1, Some sid)
          | None =>
              let new_sample_id :=
                free_sample_code (S (size (sample_by_code st)))
                  (sample_by_code st) clean_code clean_code 1 in
              let sample :=
                {| sample_code := new_sample_id;
                   sample_individual := Some ind;
                   sample_type := or_none tissus;
                   sample_notes :=
                     if Py.truthy_str code_alias
                     then Some ("Alias: " +:+ code_alias) else None |} in
              let sid := 1 + foldr Z.max 0 (sample_table st).*1 in
              ({| counters := bump_link 1 0 1 0 (counters st);
                  seen_barcodes := seen_barcodes st;
                  seen_positions := seen_positions st;
                  sample_by_individual := <[ind := sid]> (sample_by_individual st);
                  sample_by_code := <[new_sample_id := sid]> (sample_by_code st);
                  sample_table := sample_table st ++ [(sid, sample)];
                  new_tubes := new_tubes st |},
               Some sid)
          end
      | None => (count 0 1 0 0, None)
      end
    else (count 0 1 0 0, None)
  else (count 0 1 0 0, None).

(** One turn of the tube loop (lines 237 to 348). *)
Definition tube_step (individual_map : gmap string Z) (box_name_to_id : gmap string Z)
    (st : Loop) (row : list string) : Loop :=
  let barcode := Py.strip (col row 0) in
  let code_principal := Py.strip (col row 1) in
  let code_alias := Py.strip (col row 2) in
  let volume_str := col row 3 in
  let pos_h_str := col row 4 in
  let pos_v_str := col row 5 in
  let nom_boite := Py.strip (col row 9) in
  let concentration_str := col row 12 in
  let degrade := Py.strip (col row 13) in
  let tissus := Py.strip (col row 14) in
  let wga := Py.strip (col row 15) in
  let with_counters c s :=
    {| counters := c;
       seen_barcodes := seen_barcodes s;
       seen_positions := seen_positions s;
       sample_by_individual := sample_by_individual s;
       sample_by_code := sample_by_code s;
       sample_table := sample_table s;
       new_tubes := new_tubes s |} in
  (* Skip if no barcode *)
  if negb (Py.truthy_str barcode)
  then with_counters (bump_no_barcode (counters st)) st
  (* Skip duplicate barcodes (keep first occurrence) *)
  else if bool_decide (barcode ∈ seen_barcodes st)
  then with_counters (bump_dup_barcode (counters st)) st
  else
    let st1 :=
      {| counters := counters st;
         seen_barcodes := {[barcode]} ∪ seen_barcodes st;
         seen_positions := seen_positions st;
         sample_by_individual := sample_by_individual st;
         sample_by_code := sample_by_code st;
         sample_table := sample_table st;
         new_tubes := new_tubes st |} in
    (* Skip duplicate positions within the same box *)
    let keyed :=
      Py.truthy_str nom_boite && Py.truthy_str (Py.strip pos_h_str)
      && Py.truthy_str (Py.strip pos_v_str) in
    let pos_key := (nom_boite, Py.strip pos_h_str, Py.strip pos_v_str) in
    if keyed && bool_decide (pos_key ∈ seen_positions st1)
    then with_counters (bump_dup_position (counters st1)) st1
    else
      let st2 :=
        {| counters := counters st1;
           seen_barcodes := seen_barcodes st1;
           seen_positions :=
             if keyed then {[pos_key]} ∪ seen_positions st1 else seen_positions st1;
           sample_by_individual := sample_by_individual st1;
           sample_by_code := sample_by_code st1;
           sample_table := sample_table st1;
           new_tubes := new_tubes st1 |} in
      let box_id := box_name_to_id !! nom_boite in
      let '(st3, sample_id) :=
        link_sample individual_map st2 code_principal code_alias tissus in
      let current_volume := parse_volume volume_str in
      let tube :=
        {| barcode := barcode;
           sample_id := sample_id;
           box_id := box_id;
           position_row := parse_position_v pos_v_str;
           position_col := parse_position_h pos_h_str;
           concentration := parse_concentration concentration_str;
           quality := or_none degrade;
           initial_volume := current_volume;
           current_volume := current_volume;
           source := or_none tissus;
           tube_type := Some "stock";
           notes := build_notes code_alias degrade wga |} in
      {| counters := bump_created (counters st3);
         seen_barcodes := seen_barcodes st3;
         seen_positions := seen_positions st3;
         sample_by_individual := sample_by_individual st3;
         sample_by_code := sample_by_code st3;
         sample_table := sample_table st3;
         new_tubes := new_tubes st3 ++ [tube] |}.

Record Imported := mkImported {
  imported_boxes : gmap Z Box;
  imported_loop : Loop }.

(** The variables of the tube loop before its first turn. *)
Definition initial_loop (samples : list (Z * Sample)) : Loop :=
  {| counters := mkCounters 0 0 0 0 0 0 0 0;
     seen_barcodes := ∅;
     seen_positions := ∅;
     sample_by_individual := load_sample_by_individual samples;
     sample_by_code := load_sample_by_code samples;
     sample_table := samples;
     new_tubes := [] |}.

(** The tube loop over some rows. *)
Definition tube_loop (individual_map : gmap string Z) (box_name_to_id : gmap string Z)
    (st : Loop) (rows : list (list string)) : Loop :=
  foldl (tube_step individual_map box_name_to_id) st rows.

(** [main], steps 3 to 6, on the individuals and the samples found in
    the database and on the lines of the file.  The tubes come out in
    the order of their creation; the tube, box and usage tables were
    emptied by step 2. *)
Definition main (individuals : list (Z * string)) (samples : list (Z * Sample))
    (lines : list (list string)) : Imported :=
  let rows := read_rows lines in
  let individual_map := load_individuals individuals in
  let made := create_boxes (collect_boxes rows []) in
  {| imported_boxes := made.1;
     imported_loop := tube_loop individual_map made.2 (initial_loop samples) rows |}.

(** The store after the run. *)
Definition store_of (r : Imported) : Store :=
  {| tubes := list_to_map (zip (seqZ 1 (Z.of_nat (length (new_tubes (imported_loop r)))))
                               (new_tubes (imported_loop r)));
     boxes := imported_boxes r;
     usages := ∅ |}.

End Main.

End Reimport.

(** ** The operations on the store, as one type *)

Inductive Op :=
  | CreateTube (data : TubeData)
  | UpdateTube (id : Z) (data : TubeData)
  | DeleteTube (id : Z)
  | CreateBox (data : BoxData)
  | UpdateBox (id : Z) (data : BoxData)
  | DeleteBox (id : Z)
  | CreateUsage (today : Date) (data : UsageData).

(** The store that a request leaves behind. *)
Definition run (op : Op) (s : Store) : Store :=
  match op with
  | CreateTube data => (create_tube s data).1
  | UpdateTube id data => (update_tube s id data).1
  | DeleteTube id => (delete_tube s id).1
  | CreateBox data => (create_box s data).1
  | UpdateBox id data => (update_box s id data).1
  | DeleteBox id => (delete_box s id).1
  | CreateUsage today data => (create_usage today s data).1
  end.

(** The requests that may write [current_volume] on a row that exists:
    a usage, and a tube update that carries the key. *)
Definition writes_volume (op : Op) : bool :=
  match op with
  | CreateUsage _ _ => true
  | UpdateTube _ data =>
      match d_current_volume data with Some _ => true | None => false end
  | _ => false
  end.

Definition is_usage (op : Op) : bool :=
  match op with CreateUsage _ _ => true | _ => false end.

(** The request leaves the current volume of every tube that exists before
    and after it as it was. *)
Definition volume_untouched (op : Op) : Prop :=
  ∀ s id t t',
    tubes s !! id = Some t → tubes (run op s) !! id = Some t' →
    current_volume t' = current_volume t.

(** The volume invariant of a tube and of a store. *)
Definition volumes_ok (t : Tube) : Prop :=
  match initial_volume t, current_volume t with
  | Some iv, Some cv => (0 <= cv)%Q ∧ (cv <= iv)%Q
  | _, _ => True
  end.

Definition store_ok (s : Store) : Prop :=
  ∀ id t, tubes s !! id = Some t → volumes_ok t.

Definition empty_store : Store := {| tubes := ∅; boxes := ∅; usages := ∅ |}.

(** The stores that requests and import runs produce from the empty one. *)
Inductive reachable : Store → Prop :=
  | reach_empty : reachable empty_store
  | reach_run op s : reachable s → reachable (run op s)
  | reach_import py_float individuals samples lines s :
      reachable s →
      reachable (Reimport.store_of (Reimport.main py_float individuals samples lines)).

(** ** Reading a displayed position back *)

(** The two parsers of the import, applied to the letter and to the
    number of a position. *)
Definition parse_position (letter number_text : string) : option (Z * Z) :=
  match Reimport.parse_position_v letter, Reimport.parse_position_h number_text with
  | Some r, Some c => Some (r, c)
  | _, _ => None
  end.

(** A displayed position is a row letter followed by the column. *)
Definition split_display (s : string) : string * string :=
  match s with
  | String a rest => (String a EmptyString, rest)
  | EmptyString => (EmptyString, EmptyString)
  end.

Definition parse_display (d : Display) : option (Z * Z) :=
  match d with
  | Shown s => parse_position (split_display s).1 (split_display s).2
  | _ => None
  end.

(** ** Import runs: what the statements speak about *)

(** The barcode of a row, as the loop reads it. *)
Definition row_barcode (row : list string) : string := Py.strip (Reimport.col row 0).

(** The key under which the loop remembers the position of a row, when the
    row has one. *)
Definition row_position_key (row : list string) : option (string * string * string) :=
  let nom_boite := Py.strip (Reimport.col row 9) in
  let h := Py.strip (Reimport.col row 4) in
  let v := Py.strip (Reimport.col row 5) in
  if Py.truthy_str nom_boite && Py.truthy_str h && Py.truthy_str v
  then Some (nom_boite, h, v) else None.

(** The barcodes of the rows that have one. *)
Definition barcodes_of (rows : list (list string)) : list string :=
  filter (λ b, b ≠ EmptyString) (row_barcode <$> rows).

(** The number of tubes with a given barcode. *)
Definition tubes_with_barcode (b : string) (l : list Tube) : nat :=
  length (filter (λ t, barcode t = b) l).

(** Two tubes of one box at one position. *)
Definition same_place (t1 t2 : Tube) : Prop :=
  ∃ b r c,
    box_id t1 = Some b ∧ box_id t2 = Some b
    ∧ position_row t1 = Some r ∧ position_row t2 = Some r
    ∧ position_col t1 = Some c ∧ position_col t2 = Some c.

(** ** Data of the examples *)

Definition tube_of_volumes (iv cv : option Q) : Tube :=
  {| barcode := "T1"; sample_id := None; box_id := Some 1;
     position_row := Some 1; position_col := Some 1; concentration := None;
     quality := None; initial_volume := iv; current_volume := cv;
     source := None; tube_type := Some "stock"; notes := None |}.

Definition store_of_tube (t : Tube) : Store :=
  {| tubes := {[ 1 := t ]};
     boxes := {[ 1 := mkBox (Some "B1") (Some "stock") None None ]};
     usages := ∅ |}.

Definition usage_request (amount : Q) : UsageData :=
  {| u_tube_id := Some 1; u_user_name := Some "lab"; u_date_out := DateAbsent;
     u_volume_taken := VolumeNumber amount; u_purpose := None; u_notes := None |}.


(** A request for a tube with barcode [b] in box 1 at [(r, c)]. *)
Definition placement (b : option string) (r c : Z) : TubeData :=
  {| d_barcode := Some <$> b; d_sample_id := None; d_box_id := Some (Some 1);
     d_position_row := Some (Some r); d_position_col := Some (Some c);
     d_concentration := None; d_quality := None; d_initial_volume := None;
     d_current_volume := None; d_source := None; d_tube_type := None;
     d_notes := None |}.

(** A request that carries the two volumes only. *)
Definition volumes_data (iv cv : Field Q) : TubeData :=
  {| d_barcode := None; d_sample_id := None; d_box_id := None;
     d_position_row := None; d_position_col := None;
     d_concentration := None; d_quality := None; d_initial_volume := iv;
     d_current_volume := cv; d_source := None; d_tube_type := None;
     d_notes := None |}.

(** A line of the import file: barcode, column, row letter and box name;
    the other twelve columns are empty. *)
Definition line (code pos_h pos_v nom_boite : string) : list string :=
  let e := EmptyString in
  [code; e; e; e; pos_h; pos_v; e; e; e; nom_boite; e; e; e; e; e; e].

(** A request for a new tube that holds more than it ever had. *)
Definition overfull_tube_data : TubeData :=
  {| d_barcode := Some (Some "T1"); d_sample_id := None; d_box_id := None;
     d_position_row := None; d_position_col := None;
     d_concentration := None; d_quality := None;
     d_initial_volume := Some (Some 10%Q); d_current_volume := Some (Some 50%Q);
     d_source := None; d_tube_type := None; d_notes := None |}.

(** A stand-in for [float] in the examples, whose lines have an empty
    volume and an empty concentration: the two parsers return before they
    call it. *)
Definition no_float : string → option Q := λ _, None.

(** The four counters of the deduplication. *)
Definition dedup_counts (st : Reimport.Loop) : Z * Z * Z * Z :=
  (Reimport.created (Reimport.counters st),
   Reimport.skipped_dup_barcode (Reimport.counters st),
   Reimport.skipped_dup_position (Reimport.counters st),
   Reimport.skipped_no_barcode (Reimport.counters st)).

(** What the deduplication keeps true after the rows [rows], from a loop
    that starts with empty sets and counters at zero. *)
Definition dedup_inv (rows : list (list string)) (st : Reimport.Loop) : Prop :=
  Reimport.seen_barcodes st = list_to_set (barcodes_of rows)
  ∧ NoDup (barcode <$> Reimport.new_tubes st)
  ∧ (∀ t, t ∈ Reimport.new_tubes st → barcode t ∈ Reimport.seen_barcodes st)
  ∧ Forall (λ t, initial_volume t = current_volume t) (Reimport.new_tubes st)
  ∧ (let '(c, db, dp, nb) := dedup_counts st in
     c = Z.of_nat (length (Reimport.new_tubes st))
     ∧ c + dp = Z.of_nat (size (Reimport.seen_barcodes st))
     ∧ db + Z.of_nat (size (Reimport.seen_barcodes st))
       = Z.of_nat (length (barcodes_of rows))
     ∧ nb + Z.of_nat (length (barcodes_of rows)) = Z.of_nat (length rows)).

(** Two lines with different barcodes at position A1 of box B1. *)
Definition two_tubes_one_position : list (list string) :=
  [line "X1" "1" "A" "B1"; line "X2" "1" "A" "B1"].

(** The same position, written once with a capital and once with a small
    letter. *)
Definition case_variant_lines : list (list string) :=
  [line "X1" "1" "A" "B1"; line "X2" "1" "a" "B1"].

(** A barcode that comes twice, the second time at position B2, and then
    another tube at B2. *)
Definition repeated_barcode_lines : list (list string) :=
  [line "X1" "1" "A" "B1"; line "X1" "2" "B" "B1"; line "X3" "2" "B" "B1"].

(** A tube of box 1 at row [r], column [c]. *)
Definition tube_at (r c : Z) : Tube :=
  {| barcode := "T1"; sample_id := None; box_id := Some 1;
     position_row := Some r; position_col := Some c; concentration := None;
     quality := None; initial_volume := None; current_volume := None;
     source := None; tube_type := Some "stock"; notes := None |}.

(** The displayed position of [tube_at r c] reads back as [(r, c)]. *)
Definition reads_back (r c : Z) : bool :=
  match parse_display (get_position_display (tube_at r c)) with
  | Some (r', c') => (r' =? r) && (c' =? c)
  | None => false
  end.

(** The volumes of a request for a new tube respect the invariant. *)
Definition data_volumes_ok (data : TubeData) : Prop :=
  match get (d_initial_volume data), get (d_current_volume data) with
  | Some iv, Some cv => (0 <= cv)%Q ∧ (cv <= iv)%Q
  | _, _ => True
  end.

(** The first row with barcode [b] was refused for its position: when the
    loop reached it, the key of its position was among the seen ones.
    [after_rows] gives the variables of the loop after some rows. *)
Definition first_row_refused (after_rows : list (list string) → Reimport.Loop)
    (rows : list (list string)) (b : string) : Prop :=
  ∃ before row after,
    rows = before ++ row :: after
    ∧ row_barcode row = b
    ∧ (b ∉ row_barcode <$> before)
    ∧ ∃ k, row_position_key row = Some k
           ∧ k ∈ Reimport.seen_positions (after_rows before).

(** ** Further code of app.py *)

(** What a handler passes to [safe_int]: a query argument is a string,
    its default may be an integer or [None]. *)
Inductive PyValue :=
  | ValNone
  | ValInt (n : Z)
  | ValStr (s : string).

(** [int(value)], [None] for [ValueError] and [TypeError]. *)
Definition int_of_value (value : PyValue) : option Z :=
  match value with
  | ValNone => None
  | ValInt n => Some n
  | ValStr s => Py.int s
  end.

(** [safe_int]; the default of a caller may be [None]. *)
Definition safe_int (value : PyValue) (default : option Z)
    (min_val max_val : option Z) : option Z :=
  match int_of_value value with
  | None => default
  | Some result =>
      let result :=
        match min_val with Some m => Z.max result m | None => result end in
      let result :=
        match max_val with Some m => Z.min result m | None => result end in
      Some result
  end.

(** [lo <= r <= hi], for the bounds that are given. *)
Definition within (r : Z) (min_val max_val : option Z) : Prop :=
  (∀ m, min_val = Some m → m ≤ r) ∧ (∀ m, max_val = Some m → r ≤ m).

(** ** What the further statements speak about *)

(** Every usage that names a tube (the key 0 counts as naming none) names
    a row of the tube table. *)
Definition usages_refer_to_tubes (s : Store) : Prop :=
  ∀ uid u id,
    usages s !! uid = Some u → usage_tube_id u = Some id → id ≠ 0 →
    is_Some (tubes s !! id).

(** No two rows of the tube table carry the same barcode. *)
Definition barcodes_unique (s : Store) : Prop :=
  ∀ i j t1 t2,
    tubes s !! i = Some t1 → tubes s !! j = Some t2 →
    barcode t1 = barcode t2 → i = j.

(** The statuses, from the emptiest. *)
Definition status_rank (st : Status) : Z :=
  match st with
  | Empty => 0
  | Critical => 1
  | Low => 2
  | Available => 3
  end.

(** ** Data of the further examples *)

(** A store with one tube that holds 10 of 100. *)
Definition ten_of_hundred : Store :=
  store_of_tube (tube_of_volumes (Some 100%Q) (Some 10%Q)).

(** A request that carries no volume and no other key. *)
Definition no_volumes : TubeData := volumes_data None None.

(** ** Import runs: what the further statements speak about *)

(** The four counters of the sample lookup. *)
Definition link_counts (st : Reimport.Loop) : Z * Z * Z * Z :=
  (Reimport.linked_to_individual (Reimport.counters st),
   Reimport.not_linked (Reimport.counters st),
   Reimport.samples_created (Reimport.counters st),
   Reimport.samples_reused (Reimport.counters st)).

(** The tube [t] was made from the row [row], with the boxes of
    [box_name_to_id]. *)
Definition tube_comes_from (box_name_to_id : gmap string Z)
    (row : list string) (t : Tube) : Prop :=
  barcode t = row_barcode row
  ∧ box_id t = box_name_to_id !! Py.strip (Reimport.col row 9)
  ∧ position_row t = Reimport.parse_position_v (Reimport.col row 5)
  ∧ position_col t = Reimport.parse_position_h (Reimport.col row 4).

(** What the counters and the tubes keep true after the rows [rows], from
    a loop that starts with counters at zero and no tube. *)
Definition accounts_inv (box_name_to_id : gmap string Z) (base : nat)
    (rows : list (list string)) (st : Reimport.Loop) : Prop :=
  (let '(c, db, dp, nb) := dedup_counts st in
   let '(linked, unlinked, made, reused) := link_counts st in
   c + db + dp + nb = Z.of_nat (length rows)
   ∧ linked + unlinked = c
   ∧ made + reused = linked
   ∧ Z.of_nat (length (Reimport.sample_table st)) = Z.of_nat base + made)
  ∧ ∀ t, t ∈ Reimport.new_tubes st →
         ∃ row, row ∈ rows ∧ tube_comes_from box_name_to_id row t.

(** The individual that a row names: the key that [individual_map] holds
    for the principal code of the row, the dagger at its end left out,
    when the code is not empty and the key is true. *)
Definition row_individual (individual_map : gmap string Z) (row : list string)
  : option Z :=
  let code_principal := Py.strip (Reimport.col row 1) in
  if Py.truthy_str code_principal then
    let clean_code := Py.strip (Py.rstrip_seq "†" code_principal) in
    if Py.truthy_Z (individual_map !! clean_code)
    then individual_map !! clean_code else None
  else None.

(** The tube [t] was made from the row [row] and carries the sample that
    the dictionary [by_individual] holds for the individual of the row,
    and no sample when the row names no individual. *)
Definition sample_comes_from (individual_map : gmap string Z) (by_individual : gmap Z Z)
    (row : list string) (t : Tube) : Prop :=
  barcode t = row_barcode row
  ∧ match row_individual individual_map row with
    | Some ind => is_Some (sample_id t) ∧ sample_id t = by_individual !! ind
    | None => sample_id t = None
    end.


(** The box name of a row, as the script reads it. *)
Definition row_box_name (row : list string) : string := Py.strip (Reimport.col row 9).


(** One step of [create_boxes]. *)
Definition add_box (acc : gmap Z Box * gmap string Z) (ni : string * Reimport.BoxInfo)
  : gmap Z Box * gmap string Z :=
  (<[next_id acc.1 :=
       {| box_name := Some ni.1;
          box_type := Some (Reimport.info_box_type ni.2);
          box_freezer := Reimport.info_freezer ni.2;
          box_notes :=
            if Py.truthy_str (Reimport.info_numero ni.2)
            then Some ("N° boîte: " +:+ Reimport.info_numero ni.2) else None |}]> acc.1,
   <[ni.1 := next_id acc.1]> acc.2).


(** A line of the import file with a barcode, a box name, a freezer and a
    box type; the other columns are empty. *)
Definition boxed_line (code nom_boite frigo box_type : string) : list string :=
  let e := EmptyString in
  [code; e; e; e; e; e; frigo; e; e; nom_boite; e; box_type; e; e; e; e].

(** Two rows of box B1 that disagree on the freezer and on the type. *)
Definition two_rows_of_a_box : list (list string) :=
  [boxed_line "X1" "B1" "2" "working"; boxed_line "X2" "B1" "3" "stock"].

(** The tube that the import makes from the first of these rows. *)
Definition first_boxed_tube : Tube :=
  {| barcode := "X1"; sample_id := None; box_id := Some 1;
     position_row := None; position_col := None; concentration := None;
     quality := None; initial_volume := None; current_volume := None;
     source := None; tube_type := Some "stock"; notes := None |}.

(** Sample codes in use: C1 and its first suffix. *)
Definition taken_codes : gmap string Z := {[ "C1" := 1; "C1_T1" := 2 ]}.

(** A line of the import file for a tube of an individual: barcode,
    principal code, alias and tissue; the other columns are empty. *)
Definition sampled_line (code code_principal code_alias tissus : string) : list string :=
  let e := EmptyString in
  [code; code_principal; code_alias; e; e; e; e; e; e; e; e; e; e; e; tissus; e].

(** Three lines: two tubes of the individual C1, with a tube of no
    individual between them. *)
Definition lines_of_c1 : list (list string) :=
  [sampled_line "X1" "C1" "a" "blood"; sampled_line "X2" EmptyString EmptyString EmptyString;
   sampled_line "X3" "C1" "b" "saliva"].


(** The store after a tube was created and a usage of 4 recorded for it. *)
Definition used_store : Store :=
  run (CreateUsage 0 (usage_request 4%Q)) (run (CreateTube overfull_tube_data) empty_store).

(** ** Individuals and samples (app.py) *)

Record Individual := mkIndividual {
  individual_id : string;
  aliases : option string;
  family_id : option string;
  sex : option Z;
  phenotype : option string;
  projects : option string;
  other_family_codes : option string;
  individual_notes : option string }.

(** A row of the [sample] table: its code (the column [sample_id]), the
    key of its individual, its type, its arrival date and its notes. *)
Record SampleRow := mkSampleRow {
  row_sample_id : string;
  row_individual_id : option Z;
  row_sample_type : option string;
  row_arrival_date : option Date;
  row_notes : option string }.

(** The five tables. *)
Record Registry := mkRegistry {
  individuals : gmap Z Individual;
  samples : gmap Z SampleRow;
  lab : Store }.

Record IndividualData := mkIndividualData {
  d_individual_id : Field string;
  d_aliases : Field string;
  d_family_id : Field string;
  d_sex : Field Z;
  d_phenotype : Field string;
  d_projects : Field string;
  d_other_family_codes : Field string;
  d_individual_notes : Field string }.

Record SampleData := mkSampleData {
  d_sample_code : Field string;
  d_sample_sample_id : Field string;
  d_sample_individual_id : Field Z;
  d_sample_type : Field string;
  d_arrival_date : DateField;
  d_sample_notes : Field string }.

Inductive Refusal :=
  | IndividualExists       (* 400, create_individual and create_sujet *)
  | SampleExists           (* 400, create_sample and add_sample_to_sujet *)
  | IndividualHasSamples   (* 400, delete_individual and delete_sujet *)
  | SampleHasTubes         (* 400, delete_sample *)
  | BadArrivalDate         (* 400, create_sample and update_sample *)
  | Missing                (* 404 *)
  | CommitRefused.         (* NOT NULL or UNIQUE refused at commit *)

Inductive Answer (A : Type) :=
  | Done (body : A)
  | Refused (e : Refusal).
Arguments Done {A} body.
Arguments Refused {A} e.

(** [a or b] on two values that are strings or [None]. *)
Definition py_or (a b : option string) : option string :=
  match a with
  | Some s => if Py.truthy_str s then a else b
  | None => b
  end.

(** [Individual.query.filter_by(individual_id=code).first()] finds a row. *)
Definition individual_id_in_use (m : gmap Z Individual) (code : string) : bool :=
  existsb (λ ki, String.eqb (individual_id ki.2) code) (map_to_list m).

(** [Sample.query.filter_by(sample_id=code).first()] finds a row. *)
Definition sample_id_in_use (m : gmap Z SampleRow) (code : string) : bool :=
  existsb (λ ks, String.eqb (row_sample_id ks.2) code) (map_to_list m).

(** [individual.samples] is not empty. *)
Definition individual_has_samples (m : gmap Z SampleRow) (id : Z) : bool :=
  existsb (λ ks, bool_decide (row_individual_id ks.2 = Some id)) (map_to_list m).

(** [sample.tubes] is not empty. *)
Definition sample_has_tubes (m : gmap Z Tube) (id : Z) : bool :=
  existsb (λ kt, bool_decide (sample_id kt.2 = Some id)) (map_to_list m).

(** [create_individual], and [create_sujet], which has the same body. *)
Definition create_individual (reg : Registry) (data : IndividualData)
  : Registry * Answer (Z * Individual) :=
  if match get (d_individual_id data) with
     | Some code => individual_id_in_use (individuals reg) code
     | None => false
     end
  then (reg, Refused IndividualExists)
  else
    match get (d_individual_id data) with
    | None => (reg, Refused CommitRefused)
    | Some code =>
        let individual :=
          {| individual_id := code;
             aliases := get (d_aliases data);
             family_id := get (d_family_id data);
             sex := get (d_sex data);
             phenotype := get (d_phenotype data);
             projects := get (d_projects data);
             other_family_codes := get (d_other_family_codes data);
             individual_notes := get (d_individual_notes data) |} in
        let id := next_id (individuals reg) in
        ({| individuals := <[id := individual]> (individuals reg);
            samples := samples reg;
            lab := lab reg |},
         Done (id, individual))
    end.

(** [delete_individual], and [delete_sujet], which has the same body. *)
Definition delete_individual (reg : Registry) (id : Z) : Registry * Answer unit :=
  match individuals reg !! id with
  | None => (reg, Refused Missing)
  | Some _ =>
      if individual_has_samples (samples reg) id
      then (reg, Refused IndividualHasSamples)
      else
        ({| individuals := delete id (individuals reg);
            samples := samples reg;
            lab := lab reg |},
         Done ())
  end.

(** [create_sample] *)
Definition create_sample (reg : Registry) (data : SampleData)
  : Registry * Answer (Z * SampleRow) :=
  let sample_code := py_or (get (d_sample_code data)) (get (d_sample_sample_id data)) in
  if match sample_code with
     | Some code => sample_id_in_use (samples reg) code
     | None => false
     end
  then (reg, Refused SampleExists)
  else
    match
      match d_arrival_date data with
      | DateAbsent => Some None
      | DateValid d => Some (Some d)
      | DateMalformed => None
      end
    with
    | None => (reg, Refused BadArrivalDate)
    | Some arrival =>
        match sample_code with
        | None => (reg, Refused CommitRefused)
        | Some code =>
            let sample :=
              {| row_sample_id := code;
                 row_individual_id := get (d_sample_individual_id data);
                 row_sample_type := get (d_sample_type data);
                 row_arrival_date := arrival;
                 row_notes := get (d_sample_notes data) |} in
            let id := next_id (samples reg) in
            ({| individuals := individuals reg;
                samples := <[id := sample]> (samples reg);
                lab := lab reg |},
             Done (id, sample))
        end
    end.

(** [add_sample_to_sujet] *)
Definition add_sample_to_sujet (reg : Registry) (id : Z) (data : SampleData)
  : Registry * Answer (Z * SampleRow) :=
  match individuals reg !! id with
  | None => (reg, Refused Missing)
  | Some _ =>
      let sample_code := get (d_sample_sample_id data) in
      if match sample_code with
         | Some code => sample_id_in_use (samples reg) code
         | None => false
         end
      then (reg, Refused SampleExists)
      else
        match sample_code with
        | None => (reg, Refused CommitRefused)
        | Some code =>
            let sample :=
              {| row_sample_id := code;
                 row_individual_id := Some id;
                 row_sample_type := get (d_sample_type data);
                 row_arrival_date := None;
                 row_notes := get (d_sample_notes data) |} in
            let sid := next_id (samples reg) in
            ({| individuals := individuals reg;
                samples := <[sid := sample]> (samples reg);
                lab := lab reg |},
             Done (sid, sample))
        end
  end.

(** [delete_sample] *)
Definition delete_sample (reg : Registry) (id : Z) : Registry * Answer unit :=
  match samples reg !! id with
  | None => (reg, Refused Missing)
  | Some _ =>
      if sample_has_tubes (tubes (lab reg)) id
      then (reg, Refused SampleHasTubes)
      else
        ({| individuals := individuals reg;
            samples := delete id (samples reg);
            lab := lab reg |},
         Done ())
  end.

(** A row other than [id] holds the code: the UNIQUE index refuses it. *)
Definition individual_id_taken_by_other (m : gmap Z Individual) (id : Z) (code : string)
  : bool :=
  existsb (λ ki, negb (ki.1 =? id) && String.eqb (individual_id ki.2) code)
    (map_to_list m).

Definition sample_id_taken_by_other (m : gmap Z SampleRow) (id : Z) (code : string)
  : bool :=
  existsb (λ ks, negb (ks.1 =? id) && String.eqb (row_sample_id ks.2) code)
    (map_to_list m).

(** The loop of [update_individual] over the keys of the request. *)
Definition apply_individual_data (i : Individual) (code : string) (data : IndividualData)
  : Individual :=
  {| individual_id := code;
     aliases := set_if_present (d_aliases data) (aliases i);
     family_id := set_if_present (d_family_id data) (family_id i);
     sex := set_if_present (d_sex data) (sex i);
     phenotype := set_if_present (d_phenotype data) (phenotype i);
     projects := set_if_present (d_projects data) (projects i);
     other_family_codes := set_if_present (d_other_family_codes data) (other_family_codes i);
     individual_notes := set_if_present (d_individual_notes data) (individual_notes i) |}.

(** [update_individual], and [update_sujet], which has the same body: the
    commit fails on a [null] code and, when the code changes, on the code
    of another individual. *)
Definition update_individual (reg : Registry) (id : Z) (data : IndividualData)
  : Registry * Answer Individual :=
  match individuals reg !! id with
  | None => (reg, Refused Missing)
  | Some i =>
      match set_if_present (d_individual_id data) (Some (individual_id i)) with
      | None => (reg, Refused CommitRefused)
      | Some code =>
          if negb (String.eqb code (individual_id i))
             && individual_id_taken_by_other (individuals reg) id code
          then (reg, Refused CommitRefused)
          else
            let i' := apply_individual_data i code data in
            ({| individuals := <[id := i']> (individuals reg);
                samples := samples reg;
                lab := lab reg |},
             Done i')
      end
  end.

(** [update_sample]: the key [sample_code] is copied first, then the keys
    of the loop, [sample_id] among them; a date that is absent or falsy
    leaves the column as it is, a malformed one ends the request before
    the commit. *)
Definition update_sample (reg : Registry) (id : Z) (data : SampleData)
  : Registry * Answer SampleRow :=
  match samples reg !! id with
  | None => (reg, Refused Missing)
  | Some s =>
      let code :=
        set_if_present (d_sample_sample_id data)
          (set_if_present (d_sample_code data) (Some (row_sample_id s))) in
      match
        match d_arrival_date data with
        | DateAbsent => Some (row_arrival_date s)
        | DateValid d => Some (Some d)
        | DateMalformed => None
        end
      with
      | None => (reg, Refused BadArrivalDate)
      | Some arrival =>
          match code with
          | None => (reg, Refused CommitRefused)
          | Some code =>
              if negb (String.eqb code (row_sample_id s))
                 && sample_id_taken_by_other (samples reg) id code
              then (reg, Refused CommitRefused)
              else
                let s' :=
                  {| row_sample_id := code;
                     row_individual_id :=
                       set_if_present (d_sample_individual_id data) (row_individual_id s);
                     row_sample_type :=
                       set_if_present (d_sample_type data) (row_sample_type s);
                     row_arrival_date := arrival;
                     row_notes := set_if_present (d_sample_notes data) (row_notes s) |} in
                ({| individuals := individuals reg;
                    samples := <[id := s']> (samples reg);
                    lab := lab reg |},
                 Done s')
          end
      end
  end.

(** The requests on individuals and samples, and those on the tubes, the
    boxes and the usages. *)
Inductive RegOp :=
  | CreateIndividual (data : IndividualData)
  | UpdateIndividual (id : Z) (data : IndividualData)
  | DeleteIndividual (id : Z)
  | CreateSample (data : SampleData)
  | UpdateSample (id : Z) (data : SampleData)
  | DeleteSample (id : Z)
  | AddSampleToSujet (id : Z) (data : SampleData)
  | LabOp (op : Op).

(** The registry that a request leaves behind. *)
Definition reg_run (op : RegOp) (reg : Registry) : Registry :=
  match op with
  | CreateIndividual data => (create_individual reg data).1
  | UpdateIndividual id data => (update_individual reg id data).1
  | DeleteIndividual id => (delete_individual reg id).1
  | CreateSample data => (create_sample reg data).1
  | UpdateSample id data => (update_sample reg id data).1
  | DeleteSample id => (delete_sample reg id).1
  | AddSampleToSujet id data => (add_sample_to_sujet reg id data).1
  | LabOp op =>
      {| individuals := individuals reg; samples := samples reg;
         lab := run op (lab reg) |}
  end.

(** The requests that may write [current_volume] on a row that exists:
    those of the tube, box and usage requests that may. *)
Definition reg_writes_volume (op : RegOp) : bool :=
  match op with
  | LabOp op => writes_volume op
  | _ => false
  end.

(** The request [op] leaves the current volume of every tube that exists
    before and after it as it was. *)
Definition reg_volume_untouched (op : RegOp) : Prop :=
  ∀ reg id t t',
    tubes (lab reg) !! id = Some t → tubes (lab (reg_run op reg)) !! id = Some t' →
    current_volume t' = current_volume t.

(** The requests that check the row they refer to: all but the two that
    copy [individual_id] from the request to a sample, and, on the side of
    the tubes, only the requests on boxes and usages and the deletion of
    a tube. *)
Definition checks_references (op : RegOp) : bool :=
  match op with
  | CreateSample _ | UpdateSample _ _ => false
  | LabOp (CreateTube _) | LabOp (UpdateTube _ _) => false
  | _ => true
  end.

(** No two individuals share a code, and no two samples do. *)
Definition codes_unique (reg : Registry) : Prop :=
  (∀ i j a b,
     individuals reg !! i = Some a → individuals reg !! j = Some b →
     individual_id a = individual_id b → i = j)
  ∧ (∀ i j a b,
       samples reg !! i = Some a → samples reg !! j = Some b →
       row_sample_id a = row_sample_id b → i = j).

(** Every sample that names an individual names a row of the table, and
    every tube that names a sample names a row of the table. *)
Definition references_hold (reg : Registry) : Prop :=
  (∀ k s id, samples reg !! k = Some s → row_individual_id s = Some id →
             is_Some (individuals reg !! id))
  ∧ (∀ k t id, tubes (lab reg) !! k = Some t → sample_id t = Some id →
               is_Some (samples reg !! id)).

(** A request for a sample with the code [code]. *)
Definition sample_request (code : string) : SampleData :=
  {| d_sample_code := None; d_sample_sample_id := Some (Some code);
     d_sample_individual_id := None; d_sample_type := None;
     d_arrival_date := DateAbsent; d_sample_notes := None |}.

(** A registry with one individual, C1, no sample and no tube. *)
Definition one_individual : Registry :=
  {| individuals := {[ 1 := mkIndividual "C1" None None None None None None None ]};
     samples := ∅;
     lab := empty_store |}.

(** A request for a sample that gives both keys of the code. *)
Definition two_codes_request (code1 code2 : string) : SampleData :=
  {| d_sample_code := Some (Some code1); d_sample_sample_id := Some (Some code2);
     d_sample_individual_id := None; d_sample_type := None;
     d_arrival_date := DateAbsent; d_sample_notes := None |}.

(** A request for a sample of the individual [id]. *)
Definition sample_of_request (code : string) (id : Z) : SampleData :=
  {| d_sample_code := None; d_sample_sample_id := Some (Some code);
     d_sample_individual_id := Some (Some id); d_sample_type := None;
     d_arrival_date := DateAbsent; d_sample_notes := None |}.

(** A registry with one individual and one sample of theirs, S1, which
    arrived on the day [d]. *)
Definition one_sample (d : Date) : Registry :=
  {| individuals := {[ 1 := mkIndividual "C1" None None None None None None None ]};
     samples := {[ 1 := mkSampleRow "S1" (Some 1) None (Some d) None ]};
     lab := empty_store |}.

(** A request that carries [null] as the arrival date and as the notes. *)
Definition clear_date_request : SampleData :=
  {| d_sample_code := None; d_sample_sample_id := None;
     d_sample_individual_id := None; d_sample_type := None;
     d_arrival_date := DateAbsent; d_sample_notes := Some None |}.

(** The requests of a short session: an individual C2, a sample S2 of
    theirs, a tube of that sample, and the deletion of the individual. *)
Definition individual_request (code : string) : IndividualData :=
  {| d_individual_id := Some (Some code); d_aliases := None; d_family_id := None;
     d_sex := None; d_phenotype := None; d_projects := None;
     d_other_family_codes := None; d_individual_notes := None |}.

Definition checked_session : list RegOp :=
  [ CreateIndividual (individual_request "C2");
    AddSampleToSujet 2 (sample_request "S2");
    DeleteIndividual 2;
    DeleteSample 1;
    DeleteIndividual 2 ].

(** ** Views of the registry (app.py) *)

(** The position of a tube in the details of an individual, built in
    [get_sujet]; [None] stands for the [ValueError] of [chr]. *)
Definition sujet_position_display (t : Tube) : option string :=
  if Py.truthy_Z (position_row t) && Py.truthy_Z (position_col t) then
    match position_row t, position_col t with
    | Some r, Some c =>
        if (1 <=? r) && (r <=? 26) then
          match Py.ord "A" with
          | Some a =>
              match Py.chr (a + r - 1) with
              | Some row_letter => Some (row_letter +:+ Py.str c)
              | None => None
              end
          | None => None
          end
        else Some (Py.str r +:+ Py.str c)
    | _, _ => Some EmptyString
    end
  else Some EmptyString.

(** The number that [get_sujets] shows as [sample_count] for an
    individual: the rows of the join of the samples of the individual with
    the tubes of these samples. *)
Definition sujets_sample_count (reg : Registry) (id : Z) : nat :=
  length
    (filter (λ p : (Z * SampleRow) * (Z * Tube),
               row_individual_id p.1.2 = Some id ∧ sample_id p.2.2 = Some p.1.1)
       (list_prod (map_to_list (samples reg)) (map_to_list (tubes (lab reg))))).

(** The rows that [get_sujet] selects: the samples of an individual, and
    the tubes of a sample.  The counts below do not depend on the order
    of the rows. *)
Definition sujet_sample_rows (reg : Registry) (id : Z) : list (Z * SampleRow) :=
  filter (λ ks : Z * SampleRow, row_individual_id ks.2 = Some id)
    (map_to_list (samples reg)).

Definition sujet_tube_rows (reg : Registry) (sid : Z) : list (Z * Tube) :=
  filter (λ kt : Z * Tube, sample_id kt.2 = Some sid) (map_to_list (tubes (lab reg))).

(** [sample_count] and [tube_count] of [get_sujet]. *)
Definition sujet_sample_count (reg : Registry) (id : Z) : nat :=
  length (sujet_sample_rows reg id).

Definition sujet_tube_count (reg : Registry) (id : Z) : nat :=
  sum_list ((λ ks : Z * SampleRow, length (sujet_tube_rows reg ks.1))
              <$> sujet_sample_rows reg id).

(** [per_page] and [total_pages] of [get_sujets], from the argument of the
    query string and the number of rows; [None] where Python raises. *)
Definition sujets_per_page (arg : PyValue) : option Z :=
  safe_int arg (Some 25) (Some 1) (Some 100).

Definition sujets_total_pages (arg : PyValue) (total : Z) : option Z :=
  match sujets_per_page arg with
  | Some per_page =>
      if per_page =? 0 then None
      else Some (Z.max 1 ((total + per_page - 1) / per_page))
  | None => None
  end.

(** A tube of a sample, in a box. *)
Definition tube_of (b : string) (sid bid : Z) : Tube :=
  mkTube b (Some sid) (Some bid) None None None None None None None None None.

(** A registry with one individual, one sample of theirs, one box, and two
    tubes of the sample. *)
Definition small_registry : Registry :=
  {| individuals := {[ 1 := mkIndividual "C1" None None None None None None None ]};
     samples := {[ 1 := mkSampleRow "S1" (Some 1) None None None ]};
     lab := {| tubes := {[ 1 := tube_of "T1" 1 1; 2 := tube_of "T2" 1 1 ]};
               boxes := {[ 1 := mkBox (Some "B1") None (Some "F1") None ]};
               usages := ∅ |} |}.

(** * Properties *)

(** ** Fresh keys and barcode look-ups *)

Lemma foldr_max_ge (l : list Z) (k : Z) : k ∈ l → k ≤ foldr Z.max 0 l.
Proof.
  induction l as [|x l IH]; intros Hin.
  - by apply elem_of_nil in Hin.
  - apply elem_of_cons in Hin as [-> | Hin]; simpl; [lia|].
    specialize (IH Hin). lia.
Qed.

Lemma next_id_fresh {A} (m : gmap Z A) : m !! next_id m = None.
Proof.
  destruct (m !! next_id m) as [x|] eqn:E; [|reflexivity].
  exfalso.
  assert (next_id m ∈ (map_to_list m).*1) as Hin.
  { apply list_elem_of_fmap. exists (next_id m, x). split; [reflexivity|].
    by apply elem_of_map_to_list. }
  apply foldr_max_ge in Hin. unfold next_id in Hin at 1. lia.
Qed.

Lemma barcode_in_use_false (m : gmap Z Tube) (b : string) :
  (∀ i t, m !! i = Some t → barcode t ≠ b) → barcode_in_use m b = false.
Proof.
  intros Hfresh. unfold barcode_in_use.
  apply not_true_is_false. intros Hex.
  apply existsb_exists in Hex as ([i t] & Hin & Heq).
  apply list_elem_of_In, elem_of_map_to_list in Hin.
  apply String.eqb_eq in Heq. by eapply Hfresh.
Qed.

Lemma barcode_taken_by_other_false (m : gmap Z Tube) (id : Z) (b : string) :
  (∀ i t, m !! i = Some t → i ≠ id → barcode t ≠ b) →
  barcode_taken_by_other m id b = false.
Proof.
  intros Hfresh. unfold barcode_taken_by_other.
  apply not_true_is_false. intros Hex.
  apply existsb_exists in Hex as ([i t] & Hin & Heq).
  apply list_elem_of_In, elem_of_map_to_list in Hin.
  apply andb_true_iff in Heq as [Hne Heq]. simpl in *.
  apply String.eqb_eq in Heq. apply negb_true_iff, Z.eqb_neq in Hne.
  by eapply Hfresh.
Qed.

(** ** Comparisons on rationals *)

Lemma Qlt_bool_iff (x y : Q) : Qlt_bool x y = true ↔ (x < y)%Q.
Proof.
  unfold Qlt_bool. rewrite negb_true_iff.
  split.
  - intros H. apply Qnot_le_lt. intros Hle.
    apply Qle_bool_iff in Hle. congruence.
  - intros H. destruct (Qle_bool y x) eqn:E; [|reflexivity].
    apply Qle_bool_iff in E. exfalso. eapply Qlt_not_le; eauto.
Qed.

Lemma Qle_bool_false_iff (x y : Q) : Qle_bool x y = false ↔ (y < x)%Q.
Proof.
  rewrite <- Qlt_bool_iff. unfold Qlt_bool. symmetry. apply negb_true_iff.
Qed.

Lemma Qlt_bool_false_iff (x y : Q) : Qlt_bool x y = false ↔ (y <= x)%Q.
Proof.
  unfold Qlt_bool. rewrite negb_false_iff. apply Qle_bool_iff.
Qed.

Lemma Qeq_bool_false_iff (x y : Q) : Qeq_bool x y = false ↔ ¬ (x == y)%Q.
Proof.
  split.
  - apply Qeq_bool_neq.
  - intros H. destruct (Qeq_bool x y) eqn:E; [|reflexivity].
    apply Qeq_bool_iff in E. contradiction.
Qed.

(** Turns the boolean tests of the code, once named by [destruct ... eqn],
    into the inequalities they decide. *)
Ltac reflect_Q :=
  repeat match goal with
    | H : Qle_bool _ _ = true |- _ => apply Qle_bool_iff in H
    | H : Qle_bool _ _ = false |- _ => apply Qle_bool_false_iff in H
    | H : Qlt_bool _ _ = true |- _ => apply Qlt_bool_iff in H
    | H : Qlt_bool _ _ = false |- _ => apply Qlt_bool_false_iff in H
    | H : Qeq_bool _ _ = true |- _ => apply Qeq_bool_iff in H
    | H : Qeq_bool _ _ = false |- _ => apply Qeq_bool_false_iff in H
    end.

(** ** Status thresholds *)

(** C2. The status of a tube is Empty when the current volume is unset or
    at most 0, Critical when it lies strictly between 0 and 10, Low when it
    is at least 10, the initial volume is known and the current volume is
    below a quarter of it, and Available in the remaining cases; a tube
    with volumes 5 of 100 is Critical and one with 20 of 100 is Low. *)
Theorem get_status_thresholds (t : Tube) :
  (current_volume t = None → get_status t = Empty)
  ∧ (∀ cv, current_volume t = Some cv → (cv <= 0)%Q → get_status t = Empty)
  ∧ (∀ cv, current_volume t = Some cv → (0 < cv)%Q → (cv < 10)%Q →
       get_status t = Critical)
  ∧ (∀ cv iv, current_volume t = Some cv → initial_volume t = Some iv →
       (10 <= cv)%Q → (cv < (25 # 100) * iv)%Q → get_status t = Low)
  ∧ (∀ cv, current_volume t = Some cv → (10 <= cv)%Q →
       (initial_volume t = None
        ∨ ∃ iv, initial_volume t = Some iv ∧ ((25 # 100) * iv <= cv)%Q) →
       get_status t = Available)
  ∧ (current_volume t = Some 5%Q → initial_volume t = Some 100%Q →
       get_status t = Critical)
  ∧ (current_volume t = Some 20%Q → initial_volume t = Some 100%Q →
       get_status t = Low).
Proof.
  unfold get_status, Py.truthy_Q.
  repeat split.
  - intros ->. reflexivity.
  - intros cv -> H. apply Qle_bool_iff in H. rewrite H. reflexivity.
  - intros cv -> H0 H10.
    apply Qle_bool_false_iff in H0. apply Qlt_bool_iff in H10.
    rewrite H0, H10. reflexivity.
  - intros cv iv -> -> H10 Hq.
    destruct (Qle_bool cv 0) eqn:E0; reflect_Q; [lra|].
    destruct (Qlt_bool cv 10) eqn:E10; reflect_Q; [lra|].
    destruct (Qeq_bool iv 0) eqn:Ez; reflect_Q; [lra|]. simpl.
    destruct (Qlt_bool cv (iv * (1 # 4))) eqn:El; reflect_Q; [reflexivity|lra].
  - intros cv -> H10 Hiv.
    destruct (Qle_bool cv 0) eqn:E0; reflect_Q; [lra|].
    destruct (Qlt_bool cv 10) eqn:E10; reflect_Q; [lra|].
    destruct Hiv as [-> | (iv & -> & Hq)]; [reflexivity|].
    destruct (Qeq_bool iv 0) eqn:Ez; [reflexivity|]. simpl.
    destruct (Qlt_bool cv (iv * (1 # 4))) eqn:El; reflect_Q; [lra|reflexivity].
  - intros -> ->. reflexivity.
  - intros -> ->. reflexivity.
Qed.

Lemma get_status_thresholds_witness :
  get_status (tube_of_volumes (Some 100%Q) (Some 5%Q)) = Critical
  ∧ get_status (tube_of_volumes (Some 100%Q) (Some 20%Q)) = Low
  ∧ get_status (tube_of_volumes None (Some 20%Q)) = Available
  ∧ get_status (tube_of_volumes (Some 100%Q) (Some 0%Q)) = Empty.
Proof.
  split; [|split; [|split]].
  - apply (get_status_thresholds (tube_of_volumes (Some 100%Q) (Some 5%Q)));
      reflexivity.
  - apply (get_status_thresholds (tube_of_volumes (Some 100%Q) (Some 20%Q)));
      reflexivity.
  - apply (get_status_thresholds (tube_of_volumes None (Some 20%Q))) with (cv := 20%Q);
      [reflexivity | discriminate | left; reflexivity].
  - apply (get_status_thresholds (tube_of_volumes (Some 100%Q) (Some 0%Q))) with (cv := 0%Q);
      [reflexivity | discriminate].
Defined.

(** ** The status filter of the tube query *)

(** C7. For each of the four status values the condition that the tube
    query adds selects a tube exactly when the status computed from its
    two volumes is that value, whatever the initial volume is (unset and
    zero included). *)
Theorem status_filter_agrees (S : Status) (t : Tube) :
  status_filter (status_name S) t = true ↔ get_status t = S.
Proof.
  unfold status_filter, get_status, Py.truthy_Q.
  destruct (current_volume t) as [cv|], (initial_volume t) as [iv|];
    destruct S; simpl;
    unfold Sql.selected, Sql.and3, Sql.or3, Sql.le, Sql.lt, Sql.ge, Sql.gt,
      Sql.cmp, Sql.mul, Sql.is_null, Sql.is_not_null, Qlt_bool;
    try destruct (Qle_bool cv 0) eqn:E0;
    try destruct (Qle_bool 10 cv) eqn:E10;
    try destruct (Qeq_bool iv 0) eqn:Ez;
    try destruct (Qle_bool (iv * (1 # 4)) cv) eqn:El;
    simpl; try (split; congruence);
    reflect_Q; exfalso; lra.
Qed.

(** ** Recording a usage *)


Lemma truthy_Q_pos (a : Q) : (0 < a)%Q → Py.truthy_Q (Some a) = true.
Proof.
  intros H. simpl. apply negb_true_iff, Qeq_bool_false_iff. lra.
Qed.






(** ** Creating and moving tubes *)

Lemma tube_answer_ok {A} (t : Tube) (body : A) :
  (∀ r, position_row t = Some r → -64 ≤ r) → tube_answer t body = Ok body.
Proof.
  intros Hrow. unfold tube_answer, get_position_display, Py.chr.
  destruct (position_row t) as [r|]; [|done].
  specialize (Hrow r eq_refl).
  destruct (position_col t) as [c|]; [|by rewrite andb_false_r].
  destruct (Py.truthy_Z (Some r) && Py.truthy_Z (Some c)); [|done].
  destruct (r <=? 26) eqn:H26; [|done].
  assert ((0 <=? 64 + r) && (64 + r <? 128) = true) as -> by lia. done.
Qed.

(** Two placement requests with a fresh barcode that do not succeed: a
    row beyond 64 bits is refused at the commit and nothing is stored; a
    row of -65 is stored, and the request fails when it builds its
    answer. *)
Lemma placement_request_fails :
  create_tube empty_store (placement (Some "T2") 9223372036854775808 1)
  = (empty_store, Fail OverflowError)
  ∧ (create_tube empty_store (placement (Some "T2") (-65) 1)).2 = Fail ValueError
  ∧ is_Some (tubes (create_tube empty_store (placement (Some "T2") (-65) 1)).1 !! 1).
Proof. split_and!; [reflexivity|reflexivity|by eexists]. Qed.

(** C9, amended. Tube creation checks the barcode and nothing else, and
    tube update checks nothing before the commit: with integers that fit
    in 64 bits and a barcode that no (other) tube carries, the row is
    stored in every store and holds the box and the coordinates of the
    request as they were sent, whether or not another tube of that box is
    at these coordinates and whether or not they lie in the 9 by 9 grid.
    The answer is built from the stored row, and it is the success
    whenever the row is not below -64. *)
Theorem tube_placement_unchecked (s : Store) (data : TubeData) :
  tube_data_fits data = true →
  (∀ b, get (d_barcode data) = Some b →
        (∀ i t, tubes s !! i = Some t → barcode t ≠ b) →
        ∃ id tube,
          create_tube s data =
            ({| tubes := <[id := tube]> (tubes s);
                boxes := boxes s; usages := usages s |}, tube_answer tube (id, tube))
          ∧ tubes s !! id = None
          ∧ barcode tube = b
          ∧ box_id tube = get (d_box_id data)
          ∧ position_row tube = get (d_position_row data)
          ∧ position_col tube = get (d_position_col data)
          ∧ ((∀ r, get (d_position_row data) = Some r → -64 ≤ r) →
             tube_answer tube (id, tube) = Ok (id, tube)))
  ∧ (∀ id t, tubes s !! id = Some t →
        (d_barcode data = None
         ∨ ∃ b, d_barcode data = Some (Some b)
                ∧ ∀ i t', tubes s !! i = Some t' → i ≠ id → barcode t' ≠ b) →
        ∃ tube,
          update_tube s id data =
            ({| tubes := <[id := tube]> (tubes s);
                boxes := boxes s; usages := usages s |}, tube_answer tube tube)
          ∧ box_id tube = set_if_present (d_box_id data) (box_id t)
          ∧ position_row tube = set_if_present (d_position_row data) (position_row t)
          ∧ position_col tube = set_if_present (d_position_col data) (position_col t)
          ∧ ((∀ r, set_if_present (d_position_row data) (position_row t) = Some r →
                   -64 ≤ r) →
             tube_answer tube tube = Ok tube)).
Proof.
  intros Hfits. split.
  - intros b Hb Hfresh. unfold create_tube. rewrite Hb, Hfits.
    rewrite (barcode_in_use_false _ _ Hfresh). simpl.
    eexists _, _. split; [reflexivity|]. simpl.
    split_and!; try reflexivity; [apply next_id_fresh|].
    intros Hrow. by apply tube_answer_ok.
  - intros id t Ht Hbar. unfold update_tube. rewrite Ht, Hfits. simpl.
    destruct Hbar as [-> | (b & -> & Hfresh)]; simpl.
    + rewrite String.eqb_refl. simpl.
      eexists. split; [reflexivity|]. split_and!; try reflexivity.
      intros Hrow. by apply tube_answer_ok.
    + rewrite (barcode_taken_by_other_false _ _ _ Hfresh), andb_false_r.
      eexists. split; [reflexivity|]. split_and!; try reflexivity.
      intros Hrow. by apply tube_answer_ok.
Qed.

Lemma tube_placement_unchecked_witness :
  (∃ id tube,
     create_tube (store_of_tube (tube_of_volumes None None)) (placement (Some "T2") 1 1)
     = ({| tubes := <[id := tube]> (tubes (store_of_tube (tube_of_volumes None None)));
           boxes := boxes (store_of_tube (tube_of_volumes None None));
           usages := usages (store_of_tube (tube_of_volumes None None)) |},
        Ok (id, tube))
     ∧ tubes (store_of_tube (tube_of_volumes None None)) !! id = None
     ∧ barcode tube = "T2"
     ∧ box_id tube = box_id (tube_of_volumes None None)
     ∧ position_row tube = position_row (tube_of_volumes None None)
     ∧ position_col tube = position_col (tube_of_volumes None None))
  ∧ (∃ tube,
       update_tube (store_of_tube (tube_of_volumes None None)) 1 (placement None 12 40)
       = ({| tubes := <[1 := tube]> (tubes (store_of_tube (tube_of_volumes None None)));
             boxes := boxes (store_of_tube (tube_of_volumes None None));
             usages := usages (store_of_tube (tube_of_volumes None None)) |},
          Ok tube)
       ∧ box_id tube = Some 1
       ∧ position_row tube = Some 12
       ∧ position_col tube = Some 40).
Proof.
  split.
  - destruct (proj1 (tube_placement_unchecked (store_of_tube (tube_of_volumes None None))
                       (placement (Some "T2") 1 1) eq_refl) "T2" eq_refl)
      as (id & tube & Heq & Hnew & Hb & Hbox & Hrow & Hcol & Hok).
    { simpl. intros i t [_ <-]%lookup_singleton_Some. discriminate. }
    exists id, tube. rewrite Heq, Hok.
    + split_and!; done.
    + simpl. intros r Hr. simplify_eq. lia.
  - destruct (proj2 (tube_placement_unchecked (store_of_tube (tube_of_volumes None None))
                       (placement None 12 40) eq_refl) 1 (tube_of_volumes None None)
                eq_refl (or_introl eq_refl))
      as (tube & Heq & Hbox & Hrow & Hcol & Hok).
    exists tube. rewrite Heq, Hok.
    + split_and!; done.
    + simpl. intros r Hr. simplify_eq. lia.
Defined.

(** ** Who writes the current volume *)

Lemma update_tube_sets_volume :
  is_usage (UpdateTube 1 (volumes_data None (Some (Some 50%Q)))) = false
  ∧ ¬ volume_untouched (UpdateTube 1 (volumes_data None (Some (Some 50%Q)))).
Proof.
  split; [reflexivity|].
  intros H.
  specialize (H (store_of_tube (tube_of_volumes (Some 100%Q) (Some 10%Q))) 1
                (tube_of_volumes (Some 100%Q) (Some 10%Q))
                (tube_of_volumes (Some 100%Q) (Some 50%Q))
                eq_refl eq_refl).
  discriminate H.
Qed.

(** The tube, box and usage requests that do not write the current
    volume leave it as it was on every tube that is still there. *)
Lemma lab_volume_untouched (op : Op) :
  writes_volume op = false → volume_untouched op.
Proof.
  intros Hw s id t t' Ht Ht'.
  destruct op as [data|id' data|id'|data|id' data|id'|today data];
    simpl in Hw, Ht'; try discriminate.
  - (* create_tube *)
    unfold create_tube in Ht'.
    repeat case_match; simpl in Ht'; simplify_eq; try congruence.
    destruct (decide (id = next_id (tubes s))) as [->|Hne].
    + rewrite next_id_fresh in Ht. discriminate.
    + rewrite lookup_insert_ne in Ht' by done. congruence.
  - (* update_tube without the key *)
    unfold update_tube in Ht'.
    destruct (d_current_volume data) eqn:Hkey; [discriminate|].
    repeat case_match; simpl in Ht'; simplify_eq; try congruence.
    destruct (decide (id = id')) as [->|Hne].
    + rewrite lookup_insert_eq in Ht'. simplify_eq. simpl.
      rewrite Hkey. simpl. congruence.
    + rewrite lookup_insert_ne in Ht' by done. congruence.
  - (* delete_tube *)
    unfold delete_tube in Ht'.
    repeat case_match; simpl in Ht'; simplify_eq; try congruence.
    apply lookup_delete_Some in Ht' as [_ Ht']. congruence.
  - (* create_box *)
    congruence.
  - (* update_box *)
    unfold update_box in Ht'. repeat case_match; simpl in Ht'; congruence.
  - (* delete_box *)
    unfold delete_box in Ht'. repeat case_match; simpl in Ht'; congruence.
Qed.


(** The requests on individuals and on samples leave the tubes, the
    boxes and the usages alone. *)
Lemma reg_run_lab (op : RegOp) (reg : Registry) :
  match op with LabOp _ => True | _ => lab (reg_run op reg) = lab reg end.
Proof.
  destruct op as [data|id data|id|data|id data|id|id data|op]; simpl; [..|done].
  - unfold create_individual. by repeat case_match.
  - unfold update_individual. by repeat case_match.
  - unfold delete_individual. by repeat case_match.
  - unfold create_sample. by repeat case_match.
  - unfold update_sample. by repeat case_match.
  - unfold delete_sample. by repeat case_match.
  - unfold add_sample_to_sujet. by repeat case_match.
Qed.

(** C6, amended. A usage and a tube update whose request carries the key
    [current_volume] are the only requests that write the current volume
    of a tube that exists: the requests on individuals and on samples,
    tube creation, a tube update without that key, tube deletion and the
    three box requests leave the current volume of every tube that is
    still there as it was. *)
Theorem volume_written_by_usage_or_update (op : RegOp) :
  reg_writes_volume op = false → reg_volume_untouched op.
Proof.
  intros Hw reg id t t' Ht Ht'.
  pose proof (reg_run_lab op reg) as Hlab.
  destruct op as [data|id' data|id'|data|id' data|id'|id' data|op].
  1-7: rewrite Hlab in Ht'; congruence.
  by apply (lab_volume_untouched op Hw (lab reg) id t t').
Qed.

Lemma volume_written_by_usage_or_update_witness :
  reg_volume_untouched (LabOp (UpdateTube 1 (placement None 12 40)))
  ∧ reg_volume_untouched (UpdateSample 1 (sample_request "S2")).
Proof.
  split.
  - apply (volume_written_by_usage_or_update (LabOp (UpdateTube 1 (placement None 12 40)))).
    reflexivity.
  - apply (volume_written_by_usage_or_update (UpdateSample 1 (sample_request "S2"))).
    reflexivity.
Defined.

(** ** The tube loop of the import *)

Lemma truthy_str_false (s : string) : Py.truthy_str s = false ↔ s = EmptyString.
Proof. destruct s; simpl; split; congruence. Qed.

Lemma truthy_str_true (s : string) : Py.truthy_str s = true ↔ s ≠ EmptyString.
Proof. destruct s; simpl; split; congruence. Qed.

Lemma tubes_with_barcode_absent (b : string) (l : list Tube) :
  b ∉ barcode <$> l → tubes_with_barcode b l = 0%nat.
Proof.
  unfold tubes_with_barcode.
  induction l as [|t l IH]; intros Hnotin; [reflexivity|].
  rewrite fmap_cons in Hnotin. apply not_elem_of_cons in Hnotin as [Hne Hnotin].
  rewrite filter_cons_False by congruence. by apply IH.
Qed.

Section TubeLoop.

Variable py_float : string → option Q.
Variables individual_map box_name_to_id : gmap string Z.

Local Abbreviation step := (Reimport.tube_step py_float individual_map box_name_to_id).
Local Abbreviation loop := (Reimport.tube_loop py_float individual_map box_name_to_id).

(** The sample lookup touches neither the two sets, nor the tubes, nor
    these counters. *)
Lemma link_sample_frame st code_principal code_alias tissus :
  let st' := (Reimport.link_sample individual_map st code_principal code_alias tissus).1 in
  Reimport.seen_barcodes st' = Reimport.seen_barcodes st
  ∧ Reimport.seen_positions st' = Reimport.seen_positions st
  ∧ Reimport.new_tubes st' = Reimport.new_tubes st
  ∧ dedup_counts st' = dedup_counts st.
Proof.
  unfold Reimport.link_sample, dedup_counts.
  repeat case_match; simpl; done.
Qed.

(** The four ways a turn of the loop can end. *)
Lemma tube_step_cases st row :
  let b := row_barcode row in
  let st' := step st row in
  (b = EmptyString
   ∧ Reimport.seen_barcodes st' = Reimport.seen_barcodes st
   ∧ Reimport.seen_positions st' = Reimport.seen_positions st
   ∧ Reimport.new_tubes st' = Reimport.new_tubes st
   ∧ dedup_counts st' =
       (let '(c, db, dp, nb) := dedup_counts st in (c, db, dp, nb + 1)))
  ∨ (b ≠ EmptyString ∧ (b ∈ Reimport.seen_barcodes st)
     ∧ Reimport.seen_barcodes st' = Reimport.seen_barcodes st
     ∧ Reimport.seen_positions st' = Reimport.seen_positions st
     ∧ Reimport.new_tubes st' = Reimport.new_tubes st
     ∧ dedup_counts st' =
         (let '(c, db, dp, nb) := dedup_counts st in (c, db + 1, dp, nb)))
  ∨ (b ≠ EmptyString ∧ (b ∉ Reimport.seen_barcodes st)
     ∧ (∃ k, row_position_key row = Some k ∧ k ∈ Reimport.seen_positions st)
     ∧ Reimport.seen_barcodes st' = ({[b]} ∪ Reimport.seen_barcodes st)
     ∧ Reimport.seen_positions st' = Reimport.seen_positions st
     ∧ Reimport.new_tubes st' = Reimport.new_tubes st
     ∧ dedup_counts st' =
         (let '(c, db, dp, nb) := dedup_counts st in (c, db, dp + 1, nb)))
  ∨ (b ≠ EmptyString ∧ (b ∉ Reimport.seen_barcodes st)
     ∧ (∀ k, row_position_key row = Some k → k ∉ Reimport.seen_positions st)
     ∧ Reimport.seen_barcodes st' = ({[b]} ∪ Reimport.seen_barcodes st)
     ∧ Reimport.seen_positions st' =
         match row_position_key row with
         | Some k => {[k]} ∪ Reimport.seen_positions st
         | None => Reimport.seen_positions st
         end
     ∧ (∃ t, Reimport.new_tubes st' = Reimport.new_tubes st ++ [t]
             ∧ barcode t = b
             ∧ initial_volume t = current_volume t
             ∧ box_id t = box_name_to_id !! Py.strip (Reimport.col row 9)
             ∧ position_row t = Reimport.parse_position_v (Reimport.col row 5)
             ∧ position_col t = Reimport.parse_position_h (Reimport.col row 4))
     ∧ dedup_counts st' =
         (let '(c, db, dp, nb) := dedup_counts st in (c + 1, db, dp, nb))).
Proof.
  intros b st'. subst b st'.
  unfold Reimport.tube_step, row_barcode, row_position_key.
  destruct (Py.truthy_str (Py.strip (Reimport.col row 0))) eqn:Hb; simpl.
  2:{ left. apply truthy_str_false in Hb. done. }
  apply truthy_str_true in Hb.
  case_bool_decide as Hseen; simpl.
  { right; left. done. }
  right; right.
  destruct (Py.truthy_str (Py.strip (Reimport.col row 9))
            && Py.truthy_str (Py.strip (Reimport.col row 4))
            && Py.truthy_str (Py.strip (Reimport.col row 5))) eqn:Hkey; simpl.
  - case_bool_decide as Hpos; simpl.
    + left. repeat split; eauto.
    + right.
      match goal with
      | |- context [Reimport.link_sample ?m ?s ?a ?b ?c] =>
          pose proof (link_sample_frame s a b c) as (F1 & F2 & F3 & F4);
          destruct (Reimport.link_sample m s a b c) as [st3 sid] eqn:Hlink
      end.
      simpl in *. unfold dedup_counts in *. simpl in *.
      rewrite F1, F2, F3. simplify_eq.
      split_and!; try done.
      * intros k ?; by simplify_eq.
      * eexists. split_and!; reflexivity.
      * congruence.
  - right.
    match goal with
    | |- context [Reimport.link_sample ?m ?s ?a ?b ?c] =>
        pose proof (link_sample_frame s a b c) as (F1 & F2 & F3 & F4);
        destruct (Reimport.link_sample m s a b c) as [st3 sid] eqn:Hlink
    end.
    simpl in *. unfold dedup_counts in *. simpl in *.
    rewrite F1, F2, F3. simplify_eq.
    split_and!; try done.
    * eexists. split_and!; reflexivity.
    * congruence.
Qed.

(** A row with a new barcode whose position key was seen is refused and
    counted as a duplicate position. *)
Lemma seen_key_refused st row k :
  row_barcode row ≠ EmptyString →
  row_barcode row ∉ Reimport.seen_barcodes st →
  row_position_key row = Some k → k ∈ Reimport.seen_positions st →
  Reimport.new_tubes (step st row) = Reimport.new_tubes st
  ∧ dedup_counts (step st row) =
      (let '(c, db, dp, nb) := dedup_counts st in (c, db, dp + 1, nb)).
Proof.
  intros Hb Hnew Hk Hseen.
  destruct (tube_step_cases st row)
    as [(Hb' & _)
       |[(_ & Hin & _)
        |[(_ & _ & _ & _ & _ & E3 & E4)
         |(_ & _ & Hfree & _)]]]; try done.
  by destruct (Hfree k Hk).
Qed.

(** A turn of the loop never removes or replaces a tube. *)
Lemma tubes_only_added st row :
  Reimport.new_tubes st `prefix_of` Reimport.new_tubes (step st row).
Proof.
  destruct (tube_step_cases st row)
    as [(_ & _ & _ & E3 & _)
       |[(_ & _ & _ & _ & E3 & _)
        |[(_ & _ & _ & _ & _ & E3 & _)
         |(_ & _ & _ & _ & _ & (t & E3 & _) & _)]]]; rewrite E3.
  1-3: done.
  by apply prefix_app_r.
Qed.

Lemma tube_loop_snoc st rows row :
  loop st (rows ++ [row]) = step (loop st rows) row.
Proof. unfold Reimport.tube_loop. apply foldl_snoc. Qed.

Lemma barcodes_of_snoc rows row :
  barcodes_of (rows ++ [row]) =
    barcodes_of rows
    ++ (if decide (row_barcode row = EmptyString) then [] else [row_barcode row]).
Proof.
  unfold barcodes_of. rewrite fmap_app, filter_app. f_equal.
  simpl. unfold filter at 1. simpl.
  destruct (decide (row_barcode row = EmptyString)) as [->|Hne].
  - rewrite decide_False by auto. reflexivity.
  - rewrite decide_True by auto. reflexivity.
Qed.

Lemma elem_of_barcodes_of rows b :
  b ∈ barcodes_of rows ↔ b ≠ EmptyString ∧ b ∈ row_barcode <$> rows.
Proof. unfold barcodes_of. rewrite list_elem_of_filter. reflexivity. Qed.

(** One turn keeps the invariant of the deduplication. *)
Lemma dedup_inv_step rows st row :
  dedup_inv rows st → dedup_inv (rows ++ [row]) (step st row).
Proof.
  unfold dedup_inv.
  destruct (dedup_counts st) as [[[c db] dp] nb] eqn:Hc.
  intros (Hseen & Hnd & Hsub & Hvol & Hcr & Hsz & Hdb & Hnb).
  rewrite barcodes_of_snoc, !length_app, list_to_set_app_L.
  assert (row_barcode row ∉ Reimport.seen_barcodes st →
          size ({[row_barcode row]} ∪ Reimport.seen_barcodes st)
          = S (size (Reimport.seen_barcodes st))) as Hsize.
  { intros Hnew. rewrite size_union by (by apply disjoint_singleton_l).
    by rewrite size_singleton. }
  destruct (tube_step_cases st row)
    as [(Hb & E1 & _ & E3 & E4)
       |[(Hb & Hin & E1 & _ & E3 & E4)
        |[(Hb & Hin & _ & E1 & _ & E3 & E4)
         |(Hb & Hin & _ & E1 & _ & (t & E3 & Ht & Htv & _) & E4)]]];
    rewrite E1, E3, E4, Hc; clear E1 E3 E4.
  - rewrite decide_True by done. simpl.
    rewrite union_empty_r_L. split_and!; try done; lia.
  - rewrite decide_False by done. simpl.
    rewrite union_empty_r_L, <- Hseen.
    split_and!; try done; try lia.
    symmetry. rewrite union_comm_L.
    apply subseteq_union_1_L. by apply singleton_subseteq_l.
  - rewrite decide_False by done. simpl.
    rewrite union_empty_r_L, <- Hseen, (Hsize Hin).
    split_and!; try done; try lia.
    + apply union_comm_L.
    + intros t Ht. by apply elem_of_union_r, Hsub.
  - rewrite decide_False by done. simpl.
    rewrite union_empty_r_L, <- Hseen, (Hsize Hin), length_app. simpl.
    split_and!; try done; try lia.
    + apply union_comm_L.
    + rewrite fmap_app. simpl. apply NoDup_app.
      split_and!; [done| |apply NoDup_singleton].
      intros x Hx Hx'. apply list_elem_of_singleton in Hx'. subst x.
      apply list_elem_of_fmap in Hx as (t' & Heq & Ht').
      specialize (Hsub t' Ht'). rewrite <- Heq, Ht in Hsub. done.
    + intros t' Ht'. apply elem_of_app in Ht' as [Ht'|Ht'].
      * by apply elem_of_union_r, Hsub.
      * apply list_elem_of_singleton in Ht'. subst t'. rewrite Ht.
        by apply elem_of_union_l, elem_of_singleton.
    + apply Forall_app. split; [done|]. by apply Forall_singleton.
Qed.

(** The invariant holds after every prefix of the rows. *)
Lemma dedup_inv_loop samples rows :
  dedup_inv rows (loop (Reimport.initial_loop samples) rows).
Proof.
  induction rows as [|row rows IH] using rev_ind.
  - unfold dedup_inv. simpl. split_and!; try done.
    + apply NoDup_nil_2.
    + intros t Ht. by apply elem_of_nil in Ht.
  - rewrite tube_loop_snoc. by apply dedup_inv_step.
Qed.

Lemma first_row_refused_snoc samples rows row b :
  first_row_refused (loop (Reimport.initial_loop samples)) rows b →
  first_row_refused (loop (Reimport.initial_loop samples)) (rows ++ [row]) b.
Proof.
  intros (before & r & after & -> & Hb & Hfirst & Hkey).
  exists before, r, (after ++ [row]). split_and!; try done.
  by rewrite <- app_assoc.
Qed.

Lemma tubes_with_barcode_snoc b l t :
  tubes_with_barcode b (l ++ [t])
  = (tubes_with_barcode b l + (if decide (barcode t = b) then 1 else 0))%nat.
Proof.
  unfold tubes_with_barcode. rewrite filter_app, length_app. f_equal.
  rewrite filter_cons, filter_nil. by case_decide.
Qed.

(** Every barcode of the file has one tube, or none when its first row was
    refused for its position. *)
Lemma one_tube_or_refused samples rows b :
  b ∈ barcodes_of rows →
  let final := loop (Reimport.initial_loop samples) rows in
  tubes_with_barcode b (Reimport.new_tubes final) = 1%nat
  ∨ (tubes_with_barcode b (Reimport.new_tubes final) = 0%nat
     ∧ first_row_refused (loop (Reimport.initial_loop samples)) rows b).
Proof.
  induction rows as [|row rows IH] using rev_ind; intros Hb final.
  { by apply elem_of_nil in Hb. }
  subst final. rewrite tube_loop_snoc.
  pose proof (dedup_inv_loop samples rows) as (Hseen & _ & Hsub & _).
  set (st := loop (Reimport.initial_loop samples) rows) in *.
  assert (b ∈ barcodes_of rows → b ∈ Reimport.seen_barcodes st) as Hold
    by (intros H; rewrite Hseen; by apply elem_of_list_to_set).
  assert (b ∉ Reimport.seen_barcodes st →
          tubes_with_barcode b (Reimport.new_tubes st) = 0%nat) as Hnone.
  { intros Hnew. apply tubes_with_barcode_absent.
    intros (t & -> & Ht)%list_elem_of_fmap. by apply Hnew, Hsub. }
  assert (b ∈ barcodes_of rows →
          tubes_with_barcode b (Reimport.new_tubes st) = 1%nat
          ∨ (tubes_with_barcode b (Reimport.new_tubes st) = 0%nat
             ∧ first_row_refused (loop (Reimport.initial_loop samples))
                 (rows ++ [row]) b)) as IH'.
  { intros H. destruct (IH H) as [H1|[H0 Href]]; [by left|right].
    split; [done|]. by apply first_row_refused_snoc. }
  rewrite barcodes_of_snoc, elem_of_app in Hb.
  assert (b ∈ barcodes_of rows
          ∨ ((b ∉ barcodes_of rows) ∧ b = row_barcode row ∧ b ≠ EmptyString))
    as Hcases.
  { destruct (decide (b ∈ barcodes_of rows)) as [?|Hnot]; [by left|right].
    destruct Hb as [?|Hb]; [done|].
    case_decide; [by apply elem_of_nil in Hb|].
    apply list_elem_of_singleton in Hb. by subst. }
  clear Hb.
  destruct (tube_step_cases st row)
    as [(Hrb & _ & _ & E3 & _)
       |[(Hrb & Hin & _ & _ & E3 & _)
        |[(Hrb & Hin & (k & Hk & Hkseen) & _ & _ & E3 & _)
         |(Hrb & Hin & _ & _ & _ & (t & E3 & Ht & _) & _)]]];
    rewrite E3; clear E3.
  - destruct Hcases as [H|(_ & -> & Hne)]; [by apply IH'|done].
  - destruct Hcases as [H|(Hnot & -> & Hne)]; [by apply IH'|].
    exfalso. apply Hnot. rewrite Hseen in Hin. by apply elem_of_list_to_set in Hin.
  - destruct Hcases as [H|(Hnot & -> & Hne)]; [by apply IH'|].
    right. split; [by apply Hnone|].
    exists rows, row, []. split_and!; try done; [|by exists k].
    intros Hfirst. apply Hnot, elem_of_barcodes_of. done.
  - rewrite tubes_with_barcode_snoc, Ht.
    destruct Hcases as [H|(Hnot & -> & Hne)].
    + rewrite decide_False; [rewrite Nat.add_0_r; by apply IH'|].
      intros <-. by apply Hin, Hold.
    + rewrite decide_True by done. left. rewrite (Hnone Hin). reflexivity.
Qed.

End TubeLoop.

Lemma tubes_with_barcode_le_1 (b : string) (l : list Tube) :
  NoDup (barcode <$> l) → (tubes_with_barcode b l ≤ 1)%nat.
Proof.
  induction l as [|t l IH]; intros Hnd; [unfold tubes_with_barcode; simpl; lia|].
  rewrite fmap_cons in Hnd. apply NoDup_cons in Hnd as [Hnotin Hnd].
  specialize (IH Hnd). unfold tubes_with_barcode in *.
  rewrite filter_cons. case_decide as Hb; simpl; [|lia].
  subst b. pose proof (tubes_with_barcode_absent _ _ Hnotin) as H0.
  unfold tubes_with_barcode in H0. lia.
Qed.

(** ** The search for a free sample code ends *)

Lemma suffixed_code_inj (clean : string) (j k : Z) :
  clean +:+ "_T" +:+ Py.str j = clean +:+ "_T" +:+ Py.str k → j = k.
Proof.
  intros H. apply (inj (String.append clean)) in H.
  apply (inj (String.append "_T")) in H.
  by apply (inj pretty) in H.
Qed.

Lemma suffixed_code_longer (clean : string) (j : Z) :
  clean +:+ "_T" +:+ Py.str j ≠ clean.
Proof.
  induction clean as [|a clean IH]; [discriminate|].
  intros H. apply IH. by injection H.
Qed.

Lemma free_sample_code_ends (fuel : nat) (codes : gmap string Z)
    (clean cand : string) (k : Z) (tried : gset string) :
  tried ⊆ dom codes → cand ∉ tried →
  (∀ j, k ≤ j → clean +:+ "_T" +:+ Py.str j ∉ tried) →
  (∀ j, k ≤ j → clean +:+ "_T" +:+ Py.str j ≠ cand) →
  (size codes < size tried + fuel)%nat →
  codes !! Reimport.free_sample_code fuel codes clean cand k = None.
Proof.
  revert cand k tried.
  induction fuel as [|fuel IH]; intros cand k tried Hsub Hcand Hnext Hne Hsize.
  - apply subseteq_size in Hsub. rewrite size_dom in Hsub. lia.
  - simpl. case_bool_decide as Hin; [|by apply eq_None_not_Some].
    apply (IH _ _ ({[cand]} ∪ tried)).
    + apply union_least; [|done].
      apply singleton_subseteq_l, elem_of_dom, Hin.
    + apply not_elem_of_union. split.
      * apply not_elem_of_singleton, Hne. lia.
      * apply Hnext. lia.
    + intros j Hj. apply not_elem_of_union. split.
      * apply not_elem_of_singleton, Hne. lia.
      * apply Hnext. lia.
    + intros j Hj Heq. apply suffixed_code_inj in Heq. lia.
    + rewrite size_union by (apply disjoint_singleton_l, Hcand).
      rewrite size_singleton. lia.
Qed.

(** The fuel that [link_sample] gives to the search is enough: the code it
    returns is in use by no sample of [sample_by_code]. *)
Lemma free_sample_code_is_free (codes : gmap string Z) (clean : string) :
  codes !! Reimport.free_sample_code (S (size codes)) codes clean clean 1 = None.
Proof.
  apply (free_sample_code_ends _ _ _ _ _ ∅).
  - apply empty_subseteq.
  - apply not_elem_of_empty.
  - intros j _. apply not_elem_of_empty.
  - intros j _. apply suffixed_code_longer.
  - rewrite size_empty. lia.
Qed.

(** ** Import: barcodes *)

Lemma one_tube_per_barcode_fails :
  "X2" ∈ barcodes_of (Reimport.read_rows two_tubes_one_position)
  ∧ tubes_with_barcode "X2"
      (Reimport.new_tubes
         (Reimport.imported_loop
            (Reimport.main no_float [] [] two_tubes_one_position))) ≠ 1%nat.
Proof.
  split.
  - vm_compute. right. left.
  - vm_compute. discriminate.
Qed.

(** C8, amended. A row whose barcode, not empty, stands in an earlier row
    of the run creates no tube, adds one to the count of duplicate
    barcodes and changes nothing else that the deduplication reads: its
    position does not enter the set of seen positions.  The run creates
    exactly one tube for each distinct barcode of the file, except that a
    barcode whose first row is refused for its position gets none (the
    row has recorded its barcode, so the later rows with it are dropped as
    duplicates); so the number of tubes is the number of distinct barcodes
    less the number of rows refused for their position. *)
Theorem import_keeps_first_barcode py_float individuals samples lines :
  let rows := Reimport.read_rows lines in
  let individual_map := Reimport.load_individuals individuals in
  let box_name_to_id := (Reimport.create_boxes (Reimport.collect_boxes rows [])).2 in
  let after_rows :=
    Reimport.tube_loop py_float individual_map box_name_to_id
      (Reimport.initial_loop samples) in
  let final := Reimport.imported_loop (Reimport.main py_float individuals samples lines) in
  (∀ before row after,
     rows = before ++ row :: after →
     row_barcode row ≠ EmptyString →
     row_barcode row ∈ row_barcode <$> before →
     Reimport.new_tubes (after_rows (before ++ [row]))
       = Reimport.new_tubes (after_rows before)
     ∧ Reimport.seen_positions (after_rows (before ++ [row]))
       = Reimport.seen_positions (after_rows before)
     ∧ dedup_counts (after_rows (before ++ [row]))
       = (let '(c, db, dp, nb) := dedup_counts (after_rows before) in
          (c, db + 1, dp, nb)))
  ∧ (∀ b, b ∈ barcodes_of rows →
       tubes_with_barcode b (Reimport.new_tubes final) = 1%nat
       ∨ (tubes_with_barcode b (Reimport.new_tubes final) = 0%nat
          ∧ first_row_refused after_rows rows b))
  ∧ (∀ b, (tubes_with_barcode b (Reimport.new_tubes final) ≤ 1)%nat)
  ∧ (∀ t, t ∈ Reimport.new_tubes final → barcode t ∈ barcodes_of rows)
  ∧ Reimport.created (Reimport.counters final)
    = Z.of_nat (length (Reimport.new_tubes final))
  ∧ Reimport.created (Reimport.counters final)
    + Reimport.skipped_dup_position (Reimport.counters final)
    = Z.of_nat (size (list_to_set (barcodes_of rows) : gset string))
  ∧ Reimport.skipped_dup_barcode (Reimport.counters final)
    + Z.of_nat (size (list_to_set (barcodes_of rows) : gset string))
    = Z.of_nat (length (barcodes_of rows)).
Proof.
  intros rows individual_map box_name_to_id after_rows final.
  split.
  - intros before row after Hrows Hne Hin.
    subst after_rows. cbv beta.
    rewrite tube_loop_snoc.
    pose proof (dedup_inv_loop py_float individual_map box_name_to_id samples before)
      as (Hseen & _).
    set (st := Reimport.tube_loop py_float individual_map box_name_to_id
                 (Reimport.initial_loop samples) before) in *.
    assert (row_barcode row ∈ Reimport.seen_barcodes st) as Hseen'.
    { rewrite Hseen. apply elem_of_list_to_set, elem_of_barcodes_of. done. }
    destruct (tube_step_cases py_float individual_map box_name_to_id st row)
      as [(Hb & _)
         |[(_ & _ & _ & E2 & E3 & E4)
          |[(_ & Hnotin & _)
           |(_ & Hnotin & _)]]]; try done.
  - pose proof (dedup_inv_loop py_float individual_map box_name_to_id samples rows)
      as (Hseen & Hnd & Hsub & _ & Hcount).
    fold after_rows in Hseen, Hnd, Hsub, Hcount.
    assert (final = after_rows rows) as -> by reflexivity.
    unfold dedup_counts in Hcount. destruct Hcount as (Hc & Hsz & Hdb & _).
    rewrite Hseen in Hsz, Hdb.
    split_and!; try done.
    + intros b Hb.
      apply (one_tube_or_refused py_float individual_map box_name_to_id samples rows b Hb).
    + intros b. by apply tubes_with_barcode_le_1.
    + intros t Ht. specialize (Hsub t Ht). rewrite Hseen in Hsub.
      by apply elem_of_list_to_set in Hsub.
Qed.

Lemma import_keeps_first_barcode_witness :
  Reimport.new_tubes
    (Reimport.tube_loop no_float (Reimport.load_individuals [])
       (Reimport.create_boxes
          (Reimport.collect_boxes (Reimport.read_rows repeated_barcode_lines) [])).2
       (Reimport.initial_loop [])
       ([line "X1" "1" "A" "B1"] ++ [line "X1" "2" "B" "B1"]))
  = Reimport.new_tubes
      (Reimport.tube_loop no_float (Reimport.load_individuals [])
         (Reimport.create_boxes
            (Reimport.collect_boxes (Reimport.read_rows repeated_barcode_lines) [])).2
         (Reimport.initial_loop [])
         [line "X1" "1" "A" "B1"])
  ∧ barcode <$> Reimport.new_tubes
                  (Reimport.imported_loop
                     (Reimport.main no_float [] [] repeated_barcode_lines))
    = ["X1"; "X3"].
Proof.
  split; [|vm_compute; reflexivity].
  apply (proj1 (import_keeps_first_barcode no_float [] [] repeated_barcode_lines)
           [line "X1" "1" "A" "B1"] (line "X1" "2" "B" "B1")
           [line "X3" "2" "B" "B1"]).
  - vm_compute. reflexivity.
  - vm_compute. discriminate.
  - vm_compute. left.
Defined.

(** ** Import: positions *)

(** C3. The run compares the positions of a box as they are written and
    stores them as they are parsed: the two lines of [case_variant_lines]
    have different keys, so none is counted as a duplicate position, and
    they put two tubes of box B1 at row 1, column 1. *)
Theorem import_case_variants_share_position (py_float : string → option Q) :
  ∃ t1 t2,
    Reimport.new_tubes
      (Reimport.imported_loop (Reimport.main py_float [] [] case_variant_lines))
    = [t1; t2]
    ∧ barcode t1 = "X1" ∧ barcode t2 = "X2"
    ∧ same_place t1 t2
    ∧ box_id t1 = Some 1 ∧ position_row t1 = Some 1 ∧ position_col t1 = Some 1
    ∧ row_position_key <$> case_variant_lines
      = [Some ("B1", "1", "A"); Some ("B1", "1", "a")]
    ∧ Reimport.skipped_dup_position
        (Reimport.counters
           (Reimport.imported_loop (Reimport.main py_float [] [] case_variant_lines)))
      = 0.
Proof.
  eexists _, _. split; [vm_compute; reflexivity|]. simpl.
  split_and!; try reflexivity.
  exists 1, 1, 1. split_and!; reflexivity.
Qed.

(** ** Displayed positions *)

Lemma display_depends_on_position (t : Tube) (r c : Z) :
  position_row t = Some r → position_col t = Some c →
  get_position_display t = get_position_display (tube_at r c).
Proof.
  intros Hr Hc. unfold get_position_display. rewrite Hr, Hc. reflexivity.
Qed.

Lemma reads_back_table :
  forallb (λ r, forallb (reads_back r) (seqZ 1 99)) (seqZ 1 9) = true.
Proof. vm_compute. reflexivity. Qed.

Lemma row_ten_is_not_read_back :
  get_position_display (tube_at 10 1) = Shown "J1"
  ∧ parse_display (get_position_display (tube_at 10 1)) ≠ Some (10, 1).
Proof. split; [reflexivity|]. vm_compute. discriminate. Qed.

(** C5, amended. For every row from 1 to 9 and every column from 1 to 99
    the displayed position, the row letter followed by the column number,
    is read back by the two parsers of the import as the same pair.  The
    display writes a letter for every row up to 26 ('A' for 1, 'Z' for
    26). *)
Theorem position_round_trip (t : Tube) (r c : Z) :
  position_row t = Some r → position_col t = Some c →
  1 ≤ c ≤ 99 →
  (1 ≤ r ≤ 9 → parse_display (get_position_display t) = Some (r, c))
  ∧ (1 ≤ r ≤ 26 →
     get_position_display t
     = Shown (String (ascii_of_N (Z.to_N (64 + r))) EmptyString +:+ Py.str c))
  ∧ (r = 1 → get_position_display t = Shown ("A" +:+ Py.str c))
  ∧ (r = 26 → get_position_display t = Shown ("Z" +:+ Py.str c)).
Proof.
  intros Hr Hc Hcol.
  assert (1 ≤ r ≤ 26 →
          get_position_display t
          = Shown (String (ascii_of_N (Z.to_N (64 + r))) EmptyString +:+ Py.str c))
    as Hletter.
  { intros Hrow. unfold get_position_display, Py.chr. rewrite Hr, Hc. simpl.
    assert ((r =? 0) = false) as -> by lia.
    assert ((c =? 0) = false) as -> by lia.
    assert ((r <=? 26) = true) as -> by lia.
    assert ((0 <=? 64 + r) = true) as -> by lia.
    assert ((64 + r <? 128) = true) as -> by lia.
    reflexivity. }
  split_and!.
  - intros Hrow.
    rewrite (display_depends_on_position t r c Hr Hc).
    pose proof reads_back_table as Htable.
    rewrite forallb_forall in Htable.
    assert (In r (seqZ 1 9)) as Hin_r by (apply list_elem_of_In, elem_of_seqZ; lia).
    specialize (Htable r Hin_r). rewrite forallb_forall in Htable.
    assert (In c (seqZ 1 99)) as Hin_c by (apply list_elem_of_In, elem_of_seqZ; lia).
    specialize (Htable c Hin_c). unfold reads_back in Htable.
    destruct (parse_display (get_position_display (tube_at r c))) as [[r' c']|];
      [|discriminate].
    apply andb_true_iff in Htable as [Hr' Hc']. f_equal. f_equal; lia.
  - exact Hletter.
  - intros ->. apply Hletter. lia.
  - intros ->. apply Hletter. lia.
Qed.

Lemma position_round_trip_witness :
  parse_display (get_position_display (tube_at 9 99)) = Some (9, 99).
Proof.
  apply (position_round_trip (tube_at 9 99) 9 99); [reflexivity | reflexivity | lia | lia].
Defined.

(** ** The volume invariant *)

Lemma overfull_tube_is_reachable :
  reachable (run (CreateTube overfull_tube_data) empty_store)
  ∧ ¬ store_ok (run (CreateTube overfull_tube_data) empty_store).
Proof.
  split.
  - apply reach_run, reach_empty.
  - intros Hok.
    specialize (Hok 1 _ eq_refl). unfold volumes_ok in Hok. simpl in Hok.
    destruct Hok as [_ Hle]. revert Hle. apply Qlt_not_le. reflexivity.
Qed.

Lemma create_usage_keeps_volumes today s data :
  store_ok s → store_ok (create_usage today s data).1.
Proof.
  intros Hok id t Ht. unfold create_usage in Ht.
  repeat case_match; simpl in Ht; simplify_eq; try (by eapply Hok).
  all: match type of Ht with
       | <[?i := _]> _ !! _ = _ => destruct (decide (i = id)) as [->|Hne]
       end;
       [|rewrite lookup_insert_ne in Ht by done; by eapply Hok].
  all: rewrite lookup_insert_eq in Ht; simplify_eq.
  all: match goal with
       | H : _ ≫= _ = Some (_, ?t0) |- _ =>
           apply bind_Some in H as (i & Hi & Hlook);
           apply fmap_Some in Hlook as (t1 & Hlook & Heq); simplify_eq;
           pose proof (Hok _ _ Hlook) as Hold
       end.
  all: unfold volumes_ok in *; simpl.
  all: match goal with
       | Hcv : current_volume ?t0 = Some _ |- _ =>
           rewrite Hcv in Hold; destruct (initial_volume t0) as [iv|]; [|done]
       end.
  all: reflect_Q; lra.
Qed.

Lemma create_tube_keeps_volumes s data :
  store_ok s → data_volumes_ok data → store_ok (create_tube s data).1.
Proof.
  intros Hok Hdata id t Ht. unfold create_tube in Ht.
  repeat case_match; simpl in Ht; simplify_eq; try (by eapply Hok).
  destruct (decide (next_id (tubes s) = id)) as [<-|Hne].
  - rewrite lookup_insert_eq in Ht. simplify_eq. exact Hdata.
  - rewrite lookup_insert_ne in Ht by done. by eapply Hok.
Qed.

(** C4, amended. Recording a usage keeps the invariant: when every tube
    with both volumes set has a current volume between 0 and its initial
    volume, this is so after the request, accepted or refused.  Tube
    creation stores the two volumes of the request as they are, so it
    keeps the invariant when the request respects it, and the import of
    the TSV file gives every tube it creates an initial volume equal to
    its current volume. *)
Theorem volume_invariant_kept py_float today s :
  store_ok s →
  (∀ data, store_ok (run (CreateUsage today data) s))
  ∧ (∀ data, data_volumes_ok data → store_ok (run (CreateTube data) s))
  ∧ (∀ individuals samples lines t,
       t ∈ Reimport.new_tubes
             (Reimport.imported_loop
                (Reimport.main py_float individuals samples lines)) →
       initial_volume t = current_volume t).
Proof.
  intros Hok. split_and!.
  - intros data. by apply create_usage_keeps_volumes.
  - intros data Hdata. by apply create_tube_keeps_volumes.
  - intros individuals samples lines t Ht.
    pose proof (dedup_inv_loop py_float (Reimport.load_individuals individuals)
                  (Reimport.create_boxes
                     (Reimport.collect_boxes (Reimport.read_rows lines) [])).2
                  samples (Reimport.read_rows lines)) as (_ & _ & _ & Hvol & _).
    rewrite Forall_forall in Hvol. by apply Hvol.
Qed.

Lemma volume_invariant_kept_witness :
  store_ok
    (run (CreateUsage 0 (usage_request 4%Q))
       (store_of_tube (tube_of_volumes (Some 100%Q) (Some 10%Q)))).
Proof.
  apply (volume_invariant_kept no_float 0
           (store_of_tube (tube_of_volumes (Some 100%Q) (Some 10%Q)))).
  intros id t Ht. simpl in Ht.
  apply lookup_singleton_Some in Ht as [_ <-].
  unfold volumes_ok. simpl. split; discriminate.
Defined.

(** * Further properties of the handlers *)

(** ** Bounded integers of the query string *)

(** With a default inside the bounds, [safe_int] always returns an integer
    inside the bounds, whatever the argument is: text that is no number,
    a missing argument and a number outside the bounds included. *)
Theorem safe_int_within (value : PyValue) (d : Z) (min_val max_val : option Z) :
  within d min_val max_val →
  ∃ r, safe_int value (Some d) min_val max_val = Some r ∧ within r min_val max_val.
Proof.
  intros [Hlo Hhi]. unfold safe_int.
  destruct (int_of_value value) as [n|]; [|by exists d].
  eexists. split; [reflexivity|].
  destruct min_val as [lo|], max_val as [hi|]; split; intros m Hm; simplify_eq.
  - specialize (Hlo _ eq_refl). specialize (Hhi _ eq_refl). lia.
  - lia.
  - lia.
  - lia.
Qed.

Lemma safe_int_within_witness :
  ∃ r, safe_int (ValStr "100000") (Some 200) (Some 1) (Some 5000) = Some r
       ∧ within r (Some 1) (Some 5000).
Proof.
  apply (safe_int_within (ValStr "100000") 200 (Some 1) (Some 5000)).
  split; intros m Hm; simplify_eq; lia.
Defined.

(** ** Deleting tubes and boxes *)

Lemma tube_has_usages_false (m : gmap Z Usage) (id : Z) :
  tube_has_usages m id = false ↔ ∀ uid u, m !! uid = Some u → usage_tube_id u ≠ Some id.
Proof.
  unfold tube_has_usages. split.
  - intros Hnone uid u Hu Hid.
    assert (existsb (λ ku : Z * Usage, bool_decide (usage_tube_id ku.2 = Some id))
              (map_to_list m) = true) as Hex; [|congruence].
    apply existsb_exists. exists (uid, u). split.
    + by apply list_elem_of_In, elem_of_map_to_list.
    + by apply bool_decide_eq_true.
  - intros Hnone. apply not_true_is_false. intros Hex.
    apply existsb_exists in Hex as ([uid u] & Hin & Hid).
    apply list_elem_of_In, elem_of_map_to_list in Hin.
    apply bool_decide_eq_true in Hid. by eapply Hnone.
Qed.

Lemma box_has_tubes_false (m : gmap Z Tube) (id : Z) :
  box_has_tubes m id = false ↔ ∀ i t, m !! i = Some t → box_id t ≠ Some id.
Proof.
  unfold box_has_tubes. split.
  - intros Hnone i t Ht Hid.
    assert (existsb (λ kt : Z * Tube, bool_decide (box_id kt.2 = Some id))
              (map_to_list m) = true) as Hex; [|congruence].
    apply existsb_exists. exists (i, t). split.
    + by apply list_elem_of_In, elem_of_map_to_list.
    + by apply bool_decide_eq_true.
  - intros Hnone. apply not_true_is_false. intros Hex.
    apply existsb_exists in Hex as ([i t] & Hin & Hid).
    apply list_elem_of_In, elem_of_map_to_list in Hin.
    apply bool_decide_eq_true in Hid. by eapply Hnone.
Qed.

(** [delete_tube] answers in one of three ways.  An unknown key is not
    found and a tube named by a usage is refused, both with the store as
    it was; otherwise no usage names the tube, and the store loses this
    row of the tube table and nothing else. *)
Theorem delete_tube_outcomes (s : Store) (id : Z) :
  (tubes s !! id = None ∧ delete_tube s id = (s, Fail NotFound))
  ∨ (is_Some (tubes s !! id)
     ∧ (∃ uid u, usages s !! uid = Some u ∧ usage_tube_id u = Some id)
     ∧ delete_tube s id = (s, Fail TubeHasUsages))
  ∨ (is_Some (tubes s !! id)
     ∧ (∀ uid u, usages s !! uid = Some u → usage_tube_id u ≠ Some id)
     ∧ delete_tube s id =
         ({| tubes := delete id (tubes s); boxes := boxes s; usages := usages s |},
          Ok ())
     ∧ tubes (delete_tube s id).1 !! id = None
     ∧ ∀ j, j ≠ id → tubes (delete_tube s id).1 !! j = tubes s !! j).
Proof.
  unfold delete_tube.
  destruct (tubes s !! id) as [t|] eqn:Ht; [right|by left].
  destruct (tube_has_usages (usages s) id) eqn:Hu.
  - left. split; [by eexists|]. split; [|done].
    unfold tube_has_usages in Hu.
    apply existsb_exists in Hu as ([uid u] & Hin & Hid).
    apply list_elem_of_In, elem_of_map_to_list in Hin.
    apply bool_decide_eq_true in Hid. by exists uid, u.
  - right. split; [by eexists|]. split; [by apply tube_has_usages_false|].
    split; [done|]. simpl. split.
    + apply lookup_delete_eq.
    + intros j Hj. by apply lookup_delete_ne.
Qed.

(** [delete_box] answers in one of three ways.  An unknown key is not
    found and a box that holds a tube is refused, both with the store as
    it was; otherwise no tube is in the box, and the store loses this row
    of the box table and nothing else. *)
Theorem delete_box_outcomes (s : Store) (id : Z) :
  (boxes s !! id = None ∧ delete_box s id = (s, Fail NotFound))
  ∨ (is_Some (boxes s !! id)
     ∧ (∃ i t, tubes s !! i = Some t ∧ box_id t = Some id)
     ∧ delete_box s id = (s, Fail BoxHasTubes))
  ∨ (is_Some (boxes s !! id)
     ∧ (∀ i t, tubes s !! i = Some t → box_id t ≠ Some id)
     ∧ delete_box s id =
         ({| tubes := tubes s; boxes := delete id (boxes s); usages := usages s |},
          Ok ())
     ∧ boxes (delete_box s id).1 !! id = None
     ∧ ∀ j, j ≠ id → boxes (delete_box s id).1 !! j = boxes s !! j).
Proof.
  unfold delete_box.
  destruct (boxes s !! id) as [b|] eqn:Hb; [right|by left].
  destruct (box_has_tubes (tubes s) id) eqn:Ht.
  - left. split; [by eexists|]. split; [|done].
    unfold box_has_tubes in Ht.
    apply existsb_exists in Ht as ([i t] & Hin & Hid).
    apply list_elem_of_In, elem_of_map_to_list in Hin.
    apply bool_decide_eq_true in Hid. by exists i, t.
  - right. split; [by eexists|]. split; [by apply box_has_tubes_false|].
    split; [done|]. simpl. split.
    + apply lookup_delete_eq.
    + intros j Hj. by apply lookup_delete_ne.
Qed.

(** ** Usages name tubes that exist *)

Lemma create_usage_tubes_dom today s data id :
  is_Some (tubes s !! id) → is_Some (tubes (create_usage today s data).1 !! id).
Proof.
  intros Hid. unfold create_usage.
  repeat case_match; simpl; try done.
  all: by apply lookup_insert_is_Some'; right.
Qed.

Lemma create_usage_names_tube today s data s' uid u id :
  create_usage today s data = (s', Ok (uid, u)) →
  usage_tube_id u = Some id → id ≠ 0 → is_Some (tubes s !! id).
Proof.
  intros Hrun Hu Hnz. unfold create_usage in Hrun.
  repeat case_match; simplify_eq; simpl in *.
  all: try match goal with
           | H : _ ≫= _ = Some _ |- _ =>
               apply bind_Some in H as (i & Hi & Hlook);
               apply fmap_Some in Hlook as (t1 & Hlook & Heq); simplify_eq;
               by eexists
           end.
  all: match goal with
       | H : Py.truthy_Z (u_tube_id _) = false, Hid : u_tube_id _ = Some _ |- _ =>
           rewrite Hid in H; simpl in H;
           apply negb_false_iff, Z.eqb_eq in H; done
       end.
Qed.

Lemma create_usage_usages today s data :
  usages (create_usage today s data).1 = usages s
  ∨ ∃ uid u, create_usage today s data = ((create_usage today s data).1, Ok (uid, u))
             ∧ usages (create_usage today s data).1 = <[uid := u]> (usages s).
Proof.
  unfold create_usage.
  repeat case_match; simpl; try (by left).
  all: right; eexists _, _; split; reflexivity.
Qed.

(** Every request keeps the usage table pointing at tubes that exist: a
    usage is only recorded for a tube that is found, and a tube is only
    deleted when no usage names it. *)
Lemma run_keeps_usage_references (op : Op) (s : Store) :
  usages_refer_to_tubes s → usages_refer_to_tubes (run op s).
Proof.
  intros Hok uid u id Hu Hid Hnz.
  destruct op as [data|id' data|id'|data|id' data|id'|today data]; simpl in *.
  - unfold create_tube in *. repeat case_match; simpl in *; try (by eapply Hok).
    apply lookup_insert_is_Some'. right. by eapply Hok.
  - unfold update_tube in *. repeat case_match; simpl in *; try (by eapply Hok).
    apply lookup_insert_is_Some'. right. by eapply Hok.
  - unfold delete_tube in *.
    destruct (tubes s !! id') as [t'|]; simpl in *; [|by eapply Hok].
    destruct (tube_has_usages (usages s) id') eqn:Hused; simpl in *;
      [by eapply Hok|].
    rewrite lookup_delete_ne; [by eapply Hok|].
    intros ->. by eapply (proj1 (tube_has_usages_false _ _) Hused).
  - by eapply Hok.
  - unfold update_box in *. repeat case_match; simpl in *; by eapply Hok.
  - unfold delete_box in *. repeat case_match; simpl in *; by eapply Hok.
  - destruct (create_usage_usages today s data) as [E|(uid' & u' & Erun & E)].
    + rewrite E in Hu. apply create_usage_tubes_dom. by eapply Hok.
    + rewrite E in Hu. apply create_usage_tubes_dom.
      destruct (decide (uid' = uid)) as [->|Hne].
      * rewrite lookup_insert_eq in Hu. simplify_eq.
        by eapply create_usage_names_tube.
      * rewrite lookup_insert_ne in Hu by done. by eapply Hok.
Qed.

(** In every store that the requests and the import produce from the
    empty one, a usage that names a tube names one that exists. *)
Theorem usages_always_refer_to_tubes (s : Store) :
  reachable s → usages_refer_to_tubes s.
Proof.
  induction 1 as [|op s _ IH|py_float individuals samples lines s _ _].
  - intros uid u id Hu. unfold empty_store in Hu. simpl in Hu.
    by rewrite lookup_empty in Hu.
  - by apply run_keeps_usage_references.
  - intros uid u id Hu. unfold Reimport.store_of in Hu. simpl in Hu.
    by rewrite lookup_empty in Hu.
Qed.

(** ** Barcodes stay unique *)

Lemma barcode_in_use_free (m : gmap Z Tube) (b : string) :
  barcode_in_use m b = false → ∀ i t, m !! i = Some t → barcode t ≠ b.
Proof.
  unfold barcode_in_use. intros Hnone i t Ht Hb.
  assert (existsb (λ kt : Z * Tube, String.eqb (barcode kt.2) b) (map_to_list m) = true)
    as Hex; [|congruence].
  apply existsb_exists. exists (i, t). split.
  - by apply list_elem_of_In, elem_of_map_to_list.
  - by apply String.eqb_eq.
Qed.

Lemma barcode_taken_by_other_free (m : gmap Z Tube) (id : Z) (b : string) :
  barcode_taken_by_other m id b = false →
  ∀ i t, m !! i = Some t → i ≠ id → barcode t ≠ b.
Proof.
  unfold barcode_taken_by_other. intros Hnone i t Ht Hne Hb.
  assert (existsb (λ kt : Z * Tube, negb (kt.1 =? id) && String.eqb (barcode kt.2) b)
            (map_to_list m) = true) as Hex; [|congruence].
  apply existsb_exists. exists (i, t). split.
  - by apply list_elem_of_In, elem_of_map_to_list.
  - simpl. apply andb_true_iff. split.
    + by apply negb_true_iff, Z.eqb_neq.
    + by apply String.eqb_eq.
Qed.

(** A row of the store of an import run is a tube of the run, at the
    place of its creation. *)
Lemma store_of_lookup (r : Reimport.Imported) (k : Z) (t : Tube) :
  tubes (Reimport.store_of r) !! k = Some t →
  ∃ n : nat, Reimport.new_tubes (Reimport.imported_loop r) !! n = Some t
             ∧ k = 1 + Z.of_nat n.
Proof.
  unfold Reimport.store_of. simpl. intros Hk.
  apply elem_of_list_to_map_2, list_elem_of_lookup in Hk as [n Hn].
  apply lookup_zip_with_Some in Hn as (k' & t' & Heq & Hk' & Ht').
  simplify_eq. apply lookup_seqZ in Hk' as [-> _]. by exists n.
Qed.

Lemma run_keeps_barcodes_unique (op : Op) (s : Store) :
  barcodes_unique s → barcodes_unique (run op s).
Proof.
  intros Hok i j t1 t2 Hi Hj Hb.
  destruct op as [data|id data|id|data|id data|id|today data]; simpl in *.
  - unfold create_tube in *.
    destruct (tube_data_fits data); simpl in *;
      [|by repeat case_match; eapply Hok].
    destruct (get (d_barcode data)) as [b|] eqn:Hdb; simpl in *;
      [|by eapply Hok].
    destruct (barcode_in_use (tubes s) b) eqn:Huse; simpl in *; [by eapply Hok|].
    pose proof (barcode_in_use_free _ _ Huse) as Hfree.
    apply lookup_insert_Some in Hi as [[<- <-]|[Hni Hi]];
      apply lookup_insert_Some in Hj as [[<- <-]|[Hnj Hj]]; simpl in *;
      try done.
    + exfalso. by apply (Hfree _ _ Hj).
    + exfalso. by apply (Hfree _ _ Hi).
    + by eapply Hok.
  - unfold update_tube in *.
    destruct (tubes s !! id) as [t|] eqn:Ht; simpl in *; [|by eapply Hok].
    destruct (tube_data_fits data); simpl in *; [|by eapply Hok].
    destruct (set_if_present (d_barcode data) (Some (barcode t))) as [b|] eqn:Hdb;
      simpl in *; [|by eapply Hok].
    destruct (negb (String.eqb b (barcode t))
              && barcode_taken_by_other (tubes s) id b) eqn:Hchk;
      simpl in *; [by eapply Hok|].
    assert (∀ k t', tubes s !! k = Some t' → k ≠ id → barcode t' ≠ b) as Hfree.
    { apply andb_false_iff in Hchk as [Hsame|Hother].
      - apply negb_false_iff, String.eqb_eq in Hsame. subst b.
        intros k t' Hk Hne Heq. apply Hne. by eapply Hok.
      - by apply barcode_taken_by_other_free. }
    apply lookup_insert_Some in Hi as [[<- <-]|[Hni Hi]];
      apply lookup_insert_Some in Hj as [[<- <-]|[Hnj Hj]]; simpl in *;
      try done.
    + exfalso. by apply (Hfree _ _ Hj).
    + exfalso. by apply (Hfree _ _ Hi).
    + by eapply Hok.
  - unfold delete_tube in *. repeat case_match; simpl in *; try (by eapply Hok).
    apply lookup_delete_Some in Hi as [_ Hi].
    apply lookup_delete_Some in Hj as [_ Hj]. by eapply Hok.
  - by eapply Hok.
  - unfold update_box in *. repeat case_match; simpl in *; by eapply Hok.
  - unfold delete_box in *. repeat case_match; simpl in *; by eapply Hok.
  - assert (∀ k t', tubes (create_usage today s data).1 !! k = Some t' →
                    ∃ t0, tubes s !! k = Some t0 ∧ barcode t0 = barcode t') as Hsame.
    { intros k t' Hk. unfold create_usage in Hk.
      repeat case_match; simplify_eq; simpl in Hk; try (by eexists).
      all: apply lookup_insert_Some in Hk as [[<- <-]|[_ Hk]]; [|by eexists].
      all: match goal with
           | H : _ ≫= _ = Some _ |- _ =>
               apply bind_Some in H as (k0 & Hk0 & Hlook);
               apply fmap_Some in Hlook as (t0 & Hlook & Heq); simplify_eq;
               by eexists
           end. }
    apply Hsame in Hi as (t1' & Hi & E1). apply Hsame in Hj as (t2' & Hj & E2).
    eapply Hok; [exact Hi|exact Hj|congruence].
Qed.

(** In every store that the requests and the import produce from the
    empty one, no two tubes carry the same barcode: creation looks the
    barcode up before it inserts, the commit of an update refuses the
    barcode of another tube, and the import keeps the first row of each
    barcode. *)
Theorem barcodes_always_unique (s : Store) :
  reachable s → barcodes_unique s.
Proof.
  induction 1 as [|op s _ IH|py_float individuals samples lines s _ _].
  - intros i j t1 t2 Hi. unfold empty_store in Hi. simpl in Hi.
    by rewrite lookup_empty in Hi.
  - by apply run_keeps_barcodes_unique.
  - intros i j t1 t2 Hi Hj Hb.
    apply store_of_lookup in Hi as (n1 & Hn1 & ->).
    apply store_of_lookup in Hj as (n2 & Hn2 & ->).
    pose proof (dedup_inv_loop py_float (Reimport.load_individuals individuals)
                  (Reimport.create_boxes
                     (Reimport.collect_boxes (Reimport.read_rows lines) [])).2
                  samples (Reimport.read_rows lines)) as (_ & Hnd & _).
    assert (n1 = n2) as ->; [|done].
    eapply NoDup_lookup; [exact Hnd| |].
    + rewrite list_lookup_fmap. unfold Reimport.main in Hn1. simpl in Hn1.
      rewrite Hn1. reflexivity.
    + rewrite list_lookup_fmap. unfold Reimport.main in Hn2. simpl in Hn2.
      rewrite Hn2. simpl. by rewrite Hb.
Qed.
(** ** What a usage request leaves behind *)

(** What a usage request does to the store: nothing when it is refused;
    when it is accepted the usage is recorded, and the tube table is as
    before (no amount, no tube, or a tube without volume), or the tube
    named by the request has lost the amount, which was positive and at
    most its volume, or, the amount being not-a-number, that tube has no
    volume any more. *)
Lemma create_usage_outcomes today s data :
  (∃ e, create_usage today s data = (s, Fail e))
  ∨ (∃ uid u tubes',
       create_usage today s data =
         ({| tubes := tubes'; boxes := boxes s;
             usages := <[uid := u]> (usages s) |}, Ok (uid, u))
       ∧ usage_tube_id u = u_tube_id data
       ∧ (tubes' = tubes s
          ∨ (∃ id t cv q,
               u_tube_id data = Some id ∧ id ≠ 0 ∧ tubes s !! id = Some t
               ∧ current_volume t = Some cv ∧ volume_taken u = Some q
               ∧ (0 < q)%Q ∧ (q <= cv)%Q
               ∧ tubes' = <[id := set_current_volume t (Some (cv - q)%Q)]> (tubes s))
          ∨ (∃ id t cv,
               u_tube_id data = Some id ∧ id ≠ 0 ∧ tubes s !! id = Some t
               ∧ current_volume t = Some cv ∧ volume_taken u = None
               ∧ u_volume_taken data = VolumeNaN
               ∧ tubes' = <[id := set_current_volume t None]> (tubes s)))).
Proof.
  unfold create_usage.
  destruct (u_volume_taken data) as [|q| |] eqn:Hvol; [| | |left; eauto].
  - (* no amount *)
    destruct (Py.truthy_Z (u_tube_id data)) eqn:Htr.
    + destruct (u_tube_id data ≫= _) as [[id t]|] eqn:Hlook; [|left; eauto].
      destruct (u_date_out data); [| |left; eauto].
      all: right; eexists _, _, _; split; [reflexivity|]; simpl.
      all: split; [reflexivity|]; by left.
    + destruct (u_date_out data); [| |left; eauto].
      all: right; eexists _, _, _; split; [reflexivity|]; simpl.
      all: split; [reflexivity|]; by left.
  - (* an amount *)
    destruct (Qle_bool q 0) eqn:Hq0; [left; eauto|].
    assert ((0 < q)%Q) as Hpos by (by apply Qle_bool_false_iff).
    destruct (Py.truthy_Z (u_tube_id data)) eqn:Htr.
    + destruct (u_tube_id data ≫= _) as [[id t]|] eqn:Hlook; [|left; eauto].
      apply bind_Some in Hlook as (id' & Hid & Hlook).
      apply fmap_Some in Hlook as (t' & Hlook & Heq). simplify_eq.
      simpl.
      assert (negb (Qeq_bool q 0) = true) as -> by apply (truthy_Q_pos q Hpos).
      destruct (current_volume t') as [cv|] eqn:Hcv.
      * destruct (Qlt_bool cv q) eqn:Hlt; [left; eauto|].
        apply Qlt_bool_false_iff in Hlt.
        assert (id' ≠ 0) as Hnz.
        { rewrite Hid in Htr. simpl in Htr.
          by apply negb_true_iff, Z.eqb_neq in Htr. }
        destruct (u_date_out data); [| |left; eauto].
        all: right; eexists _, _, _; split; [reflexivity|]; simpl.
        all: split; [reflexivity|]; right; left.
        all: exists id', t', cv, q; split_and!; done.
      * destruct (u_date_out data); [| |left; eauto].
        all: right; eexists _, _, _; split; [reflexivity|]; simpl.
        all: split; [reflexivity|]; by left.
    + simpl.
      destruct (u_date_out data); [| |left; eauto].
      all: right; eexists _, _, _; split; [reflexivity|]; simpl.
      all: split; [reflexivity|]; by left.
  - (* not-a-number *)
    destruct (Py.truthy_Z (u_tube_id data)) eqn:Htr.
    + destruct (u_tube_id data ≫= _) as [[id t]|] eqn:Hlook; [|left; eauto].
      apply bind_Some in Hlook as (id' & Hid & Hlook).
      apply fmap_Some in Hlook as (t' & Hlook & Heq). simplify_eq.
      simpl.
      assert (id' ≠ 0) as Hnz.
      { rewrite Hid in Htr. simpl in Htr.
        by apply negb_true_iff, Z.eqb_neq in Htr. }
      destruct (current_volume t') as [cv|] eqn:Hcv.
      * destruct (u_date_out data); [| |left; eauto].
        all: right; eexists _, _, _; split; [reflexivity|]; simpl.
        all: split; [reflexivity|]; right; right.
        all: exists id', t', cv; split_and!; done.
      * destruct (u_date_out data); [| |left; eauto].
        all: right; eexists _, _, _; split; [reflexivity|]; simpl.
        all: split; [reflexivity|]; by left.
    + simpl.
      destruct (u_date_out data); [| |left; eauto].
      all: right; eexists _, _, _; split; [reflexivity|]; simpl.
      all: split; [reflexivity|]; by left.
Qed.

(** ** Status and withdrawals *)

(** With the same initial volume, less volume never gives a better
    status. *)
Lemma get_status_monotone (t1 t2 : Tube) (cv1 cv2 : Q) :
  initial_volume t1 = initial_volume t2 →
  current_volume t1 = Some cv1 → current_volume t2 = Some cv2 →
  (cv1 <= cv2)%Q →
  status_rank (get_status t1) ≤ status_rank (get_status t2).
Proof.
  intros Hiv H1 H2 Hle. unfold get_status, Py.truthy_Q.
  rewrite H1, H2, Hiv.
  destruct (initial_volume t2) as [iv|];
    destruct (Qle_bool cv1 0) eqn:A1, (Qle_bool cv2 0) eqn:A2;
    destruct (Qlt_bool cv1 10) eqn:B1, (Qlt_bool cv2 10) eqn:B2;
    try destruct (Qeq_bool iv 0) eqn:Cz;
    try destruct (Qlt_bool cv1 (iv * (1 # 4))) eqn:D1;
    try destruct (Qlt_bool cv2 (iv * (1 # 4))) eqn:D2;
    simpl; try lia; reflect_Q; exfalso; lra.
Qed.

(** A usage request never gives a tube a better status: after the
    request, accepted or refused, the status of every tube is the one it
    had or an emptier one. *)
Theorem usage_never_improves_status today s data id t t' :
  tubes s !! id = Some t →
  tubes (create_usage today s data).1 !! id = Some t' →
  status_rank (get_status t') ≤ status_rank (get_status t).
Proof.
  intros Ht Ht'.
  destruct (create_usage_outcomes today s data)
    as [[e E]
       |(uid & u & tubes' & E & Hu
         & [->
           |[(id0 & t0 & cv0 & q & Hid & _ & Ht0 & Hcv0 & Hq & Hpos & Hle & ->)
            |(id0 & t0 & cv0 & Hid & _ & Ht0 & Hcv0 & _ & _ & ->)]])];
    rewrite E in Ht'; simpl in Ht'.
  - simplify_eq. lia.
  - simplify_eq. lia.
  - destruct (decide (id0 = id)) as [->|Hne].
    + rewrite lookup_insert_eq in Ht'. simplify_eq.
      apply (get_status_monotone _ _ (cv0 - q)%Q cv0); try done. lra.
    + rewrite lookup_insert_ne in Ht' by done. simplify_eq. lia.
  - destruct (decide (id0 = id)) as [->|Hne].
    + rewrite lookup_insert_eq in Ht'. simplify_eq.
      change (get_status (set_current_volume t None)) with Empty.
      destruct (get_status t); simpl; lia.
    + rewrite lookup_insert_ne in Ht' by done. simplify_eq. lia.
Qed.

Lemma usage_never_improves_status_witness :
  status_rank
    (get_status (set_current_volume (tube_of_volumes (Some 100%Q) (Some 30%Q))
                   (Some (30 - 12)%Q)))
  ≤ status_rank (get_status (tube_of_volumes (Some 100%Q) (Some 30%Q))).
Proof.
  apply (usage_never_improves_status 0
           (store_of_tube (tube_of_volumes (Some 100%Q) (Some 30%Q)))
           (usage_request 12%Q) 1);
    reflexivity.
Defined.

(** ** Requests that are sent twice, and requests that undo each other *)

Lemma set_if_present_twice {A} (f : Field A) (old : option A) :
  set_if_present f (set_if_present f old) = set_if_present f old.
Proof. by destruct f. Qed.

Lemma apply_tube_data_twice (t : Tube) (b : string) (data : TubeData) :
  apply_tube_data (apply_tube_data t b data) b data = apply_tube_data t b data.
Proof.
  unfold apply_tube_data. simpl. by rewrite !set_if_present_twice.
Qed.

(** A tube update is idempotent: the same request sent again to the store
    that the first one left gets the same response and changes nothing. *)
Theorem update_tube_idempotent (s : Store) (id : Z) (data : TubeData) :
  update_tube (update_tube s id data).1 id data
  = ((update_tube s id data).1, (update_tube s id data).2).
Proof.
  unfold update_tube.
  destruct (tubes s !! id) as [t|] eqn:Ht; simpl; [|by rewrite Ht].
  destruct (tube_data_fits data) eqn:Hfits; simpl; [|by rewrite Ht].
  destruct (set_if_present (d_barcode data) (Some (barcode t))) as [b|] eqn:Hb;
    simpl; [|by rewrite Ht, Hb].
  destruct (negb (String.eqb b (barcode t))
            && barcode_taken_by_other (tubes s) id b) eqn:Hchk;
    simpl; [by rewrite Ht, Hb, Hchk|].
  pose proof (apply_tube_data_twice t b data) as Htwice.
  assert (barcode (apply_tube_data t b data) = b) as Hbar by reflexivity.
  remember (apply_tube_data t b data) as t' eqn:Et'.
  rewrite lookup_insert_eq. simpl. rewrite Hbar.
  assert (set_if_present (d_barcode data) (Some b) = Some b) as ->.
  { destruct (d_barcode data) as [v|]; simpl in *; congruence. }
  rewrite String.eqb_refl. simpl.
  rewrite Htwice, insert_insert_eq. reflexivity.
Qed.

Lemma next_id_positive {A} (m : gmap Z A) : 1 ≤ next_id m.
Proof.
  unfold next_id.
  assert (0 ≤ foldr Z.max 0 (map_to_list m).*1); [|lia].
  induction ((map_to_list m).*1) as [|k l IH]; simpl; lia.
Qed.

(** Creating a tube twice: once a request has created a tube, the same
    request is refused as a duplicate barcode and changes nothing. *)
Theorem create_tube_twice_refused (s s1 : Store) (data : TubeData) (id : Z) (t : Tube) :
  create_tube s data = (s1, Ok (id, t)) →
  create_tube s1 data = (s1, Fail BarcodeExists).
Proof.
  unfold create_tube. intros Hrun.
  destruct (get (d_barcode data)) as [b|] eqn:Hb;
    [|destruct (tube_data_fits data); discriminate].
  destruct (barcode_in_use (tubes s) b) eqn:Huse; [discriminate|].
  destruct (tube_data_fits data); [|discriminate].
  simpl in Hrun. injection Hrun as <- _. simpl.
  match goal with
  | |- context [barcode_in_use ?m b] => assert (barcode_in_use m b = true) as ->
  end; [|reflexivity].
  unfold barcode_in_use. apply existsb_exists.
  eexists (next_id (tubes s), _). split.
  - apply list_elem_of_In, elem_of_map_to_list, lookup_insert_eq.
  - simpl. apply String.eqb_refl.
Qed.

Lemma create_tube_twice_refused_witness :
  create_tube (run (CreateTube (placement (Some "T2") 1 1)) ten_of_hundred)
    (placement (Some "T2") 1 1)
  = (run (CreateTube (placement (Some "T2") 1 1)) ten_of_hundred, Fail BarcodeExists).
Proof.
  eapply (create_tube_twice_refused ten_of_hundred _ (placement (Some "T2") 1 1)).
  reflexivity.
Defined.

(** Deleting the tube that was just created gives the store back, when
    the usages of the store name tubes that exist. *)
Theorem create_then_delete_tube (s s1 : Store) (data : TubeData) (id : Z) (t : Tube) :
  usages_refer_to_tubes s →
  create_tube s data = (s1, Ok (id, t)) →
  delete_tube s1 id = (s, Ok ()).
Proof.
  intros Hrefs Hrun. unfold create_tube in Hrun.
  destruct (get (d_barcode data)) as [b|] eqn:Hb;
    [|destruct (tube_data_fits data); discriminate].
  destruct (barcode_in_use (tubes s) b); [discriminate|].
  destruct (tube_data_fits data); [|discriminate].
  simpl in Hrun. injection Hrun as <- Hanswer.
  assert (id = next_id (tubes s)) as ->.
  { unfold tube_answer in Hanswer.
    destruct (get_position_display _); by simplify_eq. }
  unfold delete_tube. simpl. rewrite lookup_insert_eq.
  assert (tube_has_usages (usages s) (next_id (tubes s)) = false) as ->.
  { apply tube_has_usages_false. intros uid u Hu Hid.
    pose proof (next_id_positive (tubes s)) as Hpos.
    destruct (Hrefs uid u _ Hu Hid) as [t' Ht']; [lia|].
    by rewrite next_id_fresh in Ht'. }
  rewrite delete_insert_id by apply next_id_fresh.
  by destruct s.
Qed.

Lemma create_then_delete_tube_witness :
  delete_tube (run (CreateTube (placement (Some "T2") 1 1)) ten_of_hundred) 2
  = (ten_of_hundred, Ok ()).
Proof.
  apply (create_then_delete_tube ten_of_hundred _ (placement (Some "T2") 1 1) 2
           (apply_tube_data (tube_at 1 1) "T2" no_volumes)).
  - intros uid u id Hu. unfold ten_of_hundred, store_of_tube in Hu. simpl in Hu.
    by rewrite lookup_empty in Hu.
  - reflexivity.
Defined.

(** ** The displayed position at the edges *)

(** A tube has no displayed position exactly when its row or its column
    is unset or 0; the display fails (on [chr]) exactly for a row below
    -64 with a column that is set and not 0; a row above 26 is shown as a
    number. *)
Theorem get_position_display_edges (t : Tube) :
  (get_position_display t = NoPosition
   ↔ position_row t = None ∨ position_row t = Some 0
     ∨ position_col t = None ∨ position_col t = Some 0)
  ∧ (get_position_display t = ChrValueError
     ↔ ∃ r c, position_row t = Some r ∧ position_col t = Some c
              ∧ c ≠ 0 ∧ r < -64)
  ∧ (∀ r c, position_row t = Some r → position_col t = Some c →
            c ≠ 0 → 26 < r →
            get_position_display t = Shown (Py.str r +:+ Py.str c)).
Proof.
  unfold get_position_display, Py.truthy_Z, Py.chr.
  destruct (position_row t) as [r|], (position_col t) as [c|];
    simpl; rewrite ?andb_false_r.
  2-4: split_and!; [split; [intros _; auto|reflexivity]
                   |split; [discriminate|intros (? & ? & ? & ?); intuition discriminate]
                   |intros; discriminate].
  destruct (Z.eqb_spec r 0) as [->|Hr], (Z.eqb_spec c 0) as [->|Hc]; simpl.
  1-3: split_and!;
    [split; [intros _; auto|reflexivity]
    |split; [discriminate|intros (? & ? & ? & ? & ? & ?); simplify_eq; lia]
    |intros ? ? ? ? ? ?; simplify_eq; lia].
  destruct (Z.leb_spec r 26) as [Hle|Hgt].
  - destruct (Z.leb_spec 0 (64 + r)) as [Hlo|Hlo]; simpl.
    + assert ((64 + r <? 128) = true) as -> by lia.
      split_and!.
      * split; [discriminate|]. intros [?|[?|[?|?]]]; simplify_eq.
      * split; [discriminate|]. intros (? & ? & ? & ? & ? & ?); simplify_eq; lia.
      * intros ? ? ? ? ? ?; simplify_eq; lia.
    + split_and!.
      * split; [discriminate|]. intros [?|[?|[?|?]]]; simplify_eq.
      * split; [|reflexivity]. intros _. exists r, c. split_and!; try done. lia.
      * intros ? ? ? ? ? ?; simplify_eq; lia.
  - split_and!.
    + split; [discriminate|]. intros [?|[?|[?|?]]]; simplify_eq.
    + split; [discriminate|]. intros (? & ? & ? & ? & ? & ?); simplify_eq; lia.
    + intros ? ? ? ? ? ?. by simplify_eq.
Qed.

(** * Further properties of the import *)

(** ** Counters and provenance of the tubes *)

Section TubeLoopAccounts.

Variable py_float : string → option Q.
Variables individual_map box_name_to_id : gmap string Z.

Local Abbreviation step := (Reimport.tube_step py_float individual_map box_name_to_id).
Local Abbreviation loop := (Reimport.tube_loop py_float individual_map box_name_to_id).

(** The sample lookup counts the tube once, as linked or as not linked,
    and a linked tube once, as a sample made or as a sample used again;
    the sample table grows by the sample made. *)
Lemma link_sample_counts st code_principal code_alias tissus :
  let st' := (Reimport.link_sample individual_map st code_principal code_alias tissus).1 in
  let '(linked, unlinked, made, reused) := link_counts st in
  (link_counts st' = (linked + 1, unlinked, made, reused + 1)
   ∧ Reimport.sample_table st' = Reimport.sample_table st)
  ∨ (link_counts st' = (linked + 1, unlinked, made + 1, reused)
     ∧ length (Reimport.sample_table st') = S (length (Reimport.sample_table st)))
  ∨ (link_counts st' = (linked, unlinked + 1, made, reused)
     ∧ Reimport.sample_table st' = Reimport.sample_table st).
Proof.
  unfold Reimport.link_sample, link_counts.
  repeat case_match; simplify_eq; simpl.
  all: first
         [ left; split; [repeat f_equal; lia|done]
         | right; left; split;
           [repeat f_equal; lia|rewrite length_app; simpl; lia]
         | right; right; split; [repeat f_equal; lia|done] ].
Qed.

(** One turn keeps the accounts. *)
Lemma accounts_inv_step base rows st row :
  accounts_inv box_name_to_id base rows st →
  accounts_inv box_name_to_id base (rows ++ [row]) (step st row).
Proof.
  unfold accounts_inv.
  destruct (dedup_counts st) as [[[c db] dp] nb] eqn:Hc.
  destruct (link_counts st) as [[[linked unlinked] made] reused] eqn:Hl.
  intros ((Hrows & Hlink & Hmade & Htable) & Hfrom).
  assert (∀ t, t ∈ Reimport.new_tubes st →
               ∃ row0, row0 ∈ rows ++ [row] ∧ tube_comes_from box_name_to_id row0 t)
    as Hfrom'.
  { intros t Ht. destruct (Hfrom t Ht) as (row0 & Hin & Hcome).
    exists row0. split; [|done]. apply elem_of_app. by left. }
  rewrite length_app. simpl.
  unfold Reimport.tube_step.
  destruct (Py.truthy_str (Py.strip (Reimport.col row 0))); simpl.
  2:{ unfold dedup_counts, link_counts in *. simpl. simplify_eq.
      split; [split_and!; try done; lia|done]. }
  case_bool_decide; simpl.
  { unfold dedup_counts, link_counts in *. simpl. simplify_eq.
    split; [split_and!; try done; lia|done]. }
  assert (∀ st2,
            dedup_counts st2 = dedup_counts st →
            link_counts st2 = link_counts st →
            Reimport.sample_table st2 = Reimport.sample_table st →
            Reimport.new_tubes st2 = Reimport.new_tubes st →
            ∀ t, tube_comes_from box_name_to_id row t →
            let st3 := (Reimport.link_sample individual_map st2
                          (Py.strip (Reimport.col row 1))
                          (Py.strip (Reimport.col row 2))
                          (Py.strip (Reimport.col row 14))).1 in
            ∀ sets1 sets2 by_ind by_code,
            let st' := Reimport.mkLoop (Reimport.bump_created (Reimport.counters st3))
                         sets1 sets2 by_ind by_code (Reimport.sample_table st3)
                         (Reimport.new_tubes st3 ++ [t]) in
            (let '(c, db, dp, nb) := dedup_counts st' in
             let '(linked, unlinked, made, reused) := link_counts st' in
             c + db + dp + nb = Z.of_nat (length rows + 1)
             ∧ linked + unlinked = c
             ∧ made + reused = linked
             ∧ Z.of_nat (length (Reimport.sample_table st')) = Z.of_nat base + made)
            ∧ ∀ t', t' ∈ Reimport.new_tubes st' →
                    ∃ row0, row0 ∈ rows ++ [row]
                            ∧ tube_comes_from box_name_to_id row0 t') as Hmake.
  { intros st2 E1 E2 E3 E4 t Hcome st3 sets1 sets2 by_ind by_code st'.
    pose proof (link_sample_frame individual_map st2
                  (Py.strip (Reimport.col row 1)) (Py.strip (Reimport.col row 2))
                  (Py.strip (Reimport.col row 14))) as (_ & _ & F3 & F4).
    pose proof (link_sample_counts st2
                  (Py.strip (Reimport.col row 1)) (Py.strip (Reimport.col row 2))
                  (Py.strip (Reimport.col row 14))) as Hcounts.
    fold st3 in F3, F4, Hcounts.
    rewrite E2, Hl in Hcounts. rewrite E1, Hc in F4.
    subst st'. unfold dedup_counts, link_counts in *. simpl in *.
    rewrite F3, E4. simplify_eq.
    split.
    - destruct Hcounts as [[Hk Ht]|[[Hk Ht]|[Hk Ht]]]; simplify_eq;
        rewrite ?Ht, ?E3; split_and!; lia.
    - intros t' Ht'. apply elem_of_app in Ht' as [Ht'|Ht']; [by apply Hfrom'|].
      apply list_elem_of_singleton in Ht'. subst t'.
      exists row. split; [|done]. apply elem_of_app. right.
      by apply list_elem_of_singleton. }
  destruct (Py.truthy_str (Py.strip (Reimport.col row 9))
            && Py.truthy_str (Py.strip (Reimport.col row 4))
            && Py.truthy_str (Py.strip (Reimport.col row 5))); simpl.
  - case_bool_decide; simpl.
    { unfold dedup_counts, link_counts in *. simpl. simplify_eq.
      split; [split_and!; try done; lia|done]. }
    match goal with
    | |- context [Reimport.link_sample ?m ?s ?a ?b ?c] =>
        destruct (Reimport.link_sample m s a b c) as [st3 sid] eqn:Hls;
        pose proof (Hmake s eq_refl eq_refl eq_refl eq_refl) as Hm;
        rewrite Hls in Hm
    end.
    apply Hm. done.
  - match goal with
    | |- context [Reimport.link_sample ?m ?s ?a ?b ?c] =>
        destruct (Reimport.link_sample m s a b c) as [st3 sid] eqn:Hls;
        pose proof (Hmake s eq_refl eq_refl eq_refl eq_refl) as Hm;
        rewrite Hls in Hm
    end.
    apply Hm. done.
Qed.

(** The accounts hold after every prefix of the rows. *)
Lemma accounts_inv_loop samples rows :
  accounts_inv box_name_to_id (length samples) rows
    (loop (Reimport.initial_loop samples) rows).
Proof.
  induction rows as [|row rows IH] using rev_ind.
  - unfold accounts_inv. simpl. split; [split_and!; lia|].
    intros t Ht. by apply elem_of_nil in Ht.
  - rewrite tube_loop_snoc. by apply accounts_inv_step.
Qed.

End TubeLoopAccounts.

(** ** The boxes of the import *)

Lemma create_boxes_fold (box_info : list (string * Reimport.BoxInfo)) :
  Reimport.create_boxes box_info = foldl add_box (∅, ∅) box_info.
Proof. reflexivity. Qed.



(** A name that the list does not hold keeps its key and its box. *)
Lemma foldl_add_box_keeps l acc name id box :
  name ∉ l.*1 → acc.2 !! name = Some id → acc.1 !! id = Some box →
  (foldl add_box acc l).2 !! name = Some id
  ∧ (foldl add_box acc l).1 !! id = Some box.
Proof.
  revert acc. induction l as [|ni l IH]; intros acc Hnot Hname Hbox; simpl; [done|].
  rewrite fmap_cons in Hnot. apply not_elem_of_cons in Hnot as [Hne Hnot].
  apply IH; [done| |]; unfold add_box; simpl.
  - by rewrite lookup_insert_ne.
  - rewrite lookup_insert_ne; [done|].
    intros <-. by rewrite next_id_fresh in Hbox.
Qed.

(** With names that are all different, each entry of the list gets a key
    and the box made from it. *)
Lemma foldl_add_box_makes l acc name info :
  NoDup l.*1 → (name, info) ∈ l →
  ∃ id,
    (foldl add_box acc l).2 !! name = Some id
    ∧ (foldl add_box acc l).1 !! id
      = Some {| box_name := Some name;
                box_type := Some (Reimport.info_box_type info);
                box_freezer := Reimport.info_freezer info;
                box_notes :=
                  if Py.truthy_str (Reimport.info_numero info)
                  then Some ("N° boîte: " +:+ Reimport.info_numero info)
                  else None |}.
Proof.
  revert acc. induction l as [|ni l IH]; intros acc Hnd Hin; simpl.
  { by apply elem_of_nil in Hin. }
  rewrite fmap_cons in Hnd. apply NoDup_cons in Hnd as [Hnot Hnd].
  apply elem_of_cons in Hin as [<-|Hin]; [|by apply IH].
  exists (next_id acc.1).
  apply foldl_add_box_keeps; [done| |]; unfold add_box; simpl;
    apply lookup_insert_eq.
Qed.

Lemma foldl_add_box_dom l acc name :
  is_Some ((foldl add_box acc l).2 !! name) → is_Some (acc.2 !! name) ∨ name ∈ l.*1.
Proof.
  revert acc. induction l as [|ni l IH]; intros acc Hsome; simpl in *; [by left|].
  destruct (IH _ Hsome) as [Hacc|Hin].
  - unfold add_box in Hacc. simpl in Hacc.
    apply lookup_insert_is_Some in Hacc as [<-|[_ Hacc]].
    + right. rewrite ?fmap_cons. apply elem_of_cons. by left.
    + by left.
  - right. rewrite ?fmap_cons. apply elem_of_cons. by right.
Qed.

(** What [collect_boxes] returns: the entries it was given, in front. *)
Lemma collect_boxes_keeps rows acc : acc `prefix_of` Reimport.collect_boxes rows acc.
Proof.
  revert acc. induction rows as [|row rows IH]; intros acc; simpl; [done|].
  destruct (negb (Py.truthy_str (Py.strip (Reimport.col row 9)))); [by apply IH|].
  case_bool_decide; [by apply IH|].
  etrans; [|apply IH]. by apply prefix_app_r.
Qed.

Lemma collect_boxes_nodup rows acc :
  NoDup acc.*1 → NoDup (Reimport.collect_boxes rows acc).*1.
Proof.
  revert acc. induction rows as [|row rows IH]; intros acc Hnd; simpl; [done|].
  destruct (negb (Py.truthy_str (Py.strip (Reimport.col row 9)))); [by apply IH|].
  case_bool_decide as Hin; [by apply IH|].
  apply IH. rewrite fmap_app. simpl. apply NoDup_app. split_and!; [done| |].
  - intros x Hx Hx'. apply list_elem_of_singleton in Hx'. by subst.
  - apply NoDup_singleton.
Qed.

Lemma collect_boxes_names rows acc name :
  name ∈ (Reimport.collect_boxes rows acc).*1 →
  name ∈ acc.*1 ∨ (name ≠ EmptyString ∧ ∃ row, row ∈ rows ∧ row_box_name row = name).
Proof.
  revert acc. induction rows as [|row rows IH]; intros acc Hin; simpl in *; [by left|].
  destruct (Py.truthy_str (Py.strip (Reimport.col row 9))) eqn:Hname; simpl in Hin.
  2:{ destruct (IH _ Hin) as [?|(Hne & row0 & Hrow0 & Heq)]; [by left|right].
      split; [done|]. exists row0. split; [|done]. apply elem_of_cons. by right. }
  case_bool_decide as Hold.
  { destruct (IH _ Hin) as [?|(Hne & row0 & Hrow0 & Heq)]; [by left|right].
    split; [done|]. exists row0. split; [|done]. apply elem_of_cons. by right. }
  destruct (IH _ Hin) as [Hacc|(Hne & row0 & Hrow0 & Heq)].
  - rewrite fmap_app in Hacc. apply elem_of_app in Hacc as [?|Hnew]; [by left|].
    simpl in Hnew. apply list_elem_of_singleton in Hnew. right.
    split; [subst; by apply truthy_str_true|].
    exists row. split; [apply elem_of_cons; by left|done].
  - right. split; [done|]. exists row0. split; [|done]. apply elem_of_cons. by right.
Qed.


Lemma collect_boxes_has rows acc row :
  row ∈ rows → row_box_name row ≠ EmptyString →
  row_box_name row ∈ (Reimport.collect_boxes rows acc).*1.
Proof.
  intros Hin Hne. revert acc.
  induction rows as [|row0 rows IH]; intros acc; [by apply elem_of_nil in Hin|].
  apply elem_of_cons in Hin as [<-|Hin]; simpl; [|repeat case_match; by apply IH].
  fold (row_box_name row). apply truthy_str_true in Hne. rewrite Hne. simpl.
  case_bool_decide as Hold.
  - destruct (collect_boxes_keeps rows acc) as [k Hk].
    rewrite Hk, fmap_app. apply elem_of_app. by left.
  - match goal with
    | |- _ ∈ (Reimport.collect_boxes rows ?acc').*1 =>
        destruct (collect_boxes_keeps rows acc') as [k Hk]
    end.
    rewrite Hk, !fmap_app. apply elem_of_app. left. apply elem_of_app. right.
    by apply list_elem_of_singleton.
Qed.

(** The letter parser answers with a row of the grid or with nothing. *)
Lemma parse_position_v_in_grid (letter : string) (r : Z) :
  Reimport.parse_position_v letter = Some r → 1 ≤ r ≤ 9.
Proof.
  unfold Reimport.parse_position_v.
  destruct (negb (Py.truthy_str letter) || String.eqb (Py.strip letter) EmptyString);
    [discriminate|].
  destruct (Py.upper (Py.strip letter)) as [|a [|b rest]]; try discriminate.
  - destruct a as [[] [] [] [] [] [] [] []]; intros H; vm_compute in H;
      try discriminate; simplify_eq; lia.
  - unfold Py.len.
    assert ((Z.of_nat (String.length (String a (String b rest))) =? 1) = false) as ->.
    { apply Z.eqb_neq. cbn [String.length]. lia. }
    discriminate.
Qed.

(** ** What an import run leaves *)

(** Every row of the file is counted once: as a tube, a duplicate barcode,
    a duplicate position or a missing barcode.  Every tube is counted
    once, as linked to an individual or not, and every linked tube once,
    as a sample made or a sample used again; the sample table grows by
    the samples made. *)
Theorem import_accounts_balance py_float individuals samples lines :
  let final := Reimport.imported_loop (Reimport.main py_float individuals samples lines) in
  let c := Reimport.counters final in
  Reimport.created c + Reimport.skipped_dup_barcode c
  + Reimport.skipped_dup_position c + Reimport.skipped_no_barcode c
  = Z.of_nat (length (Reimport.read_rows lines))
  ∧ Reimport.linked_to_individual c + Reimport.not_linked c = Reimport.created c
  ∧ Reimport.samples_created c + Reimport.samples_reused c
    = Reimport.linked_to_individual c
  ∧ Z.of_nat (length (Reimport.sample_table final))
    = Z.of_nat (length samples) + Reimport.samples_created c.
Proof.
  intros final c.
  pose proof (accounts_inv_loop py_float (Reimport.load_individuals individuals)
                (Reimport.create_boxes
                   (Reimport.collect_boxes (Reimport.read_rows lines) [])).2
                samples (Reimport.read_rows lines)) as [Hcounts _].
  exact Hcounts.
Qed.

Lemma no_box_for_empty_name (rows : list (list string)) :
  (Reimport.create_boxes (Reimport.collect_boxes rows [])).2 !! EmptyString = None.
Proof.
  rewrite create_boxes_fold. apply eq_None_not_Some. intros Hsome.
  apply foldl_add_box_dom in Hsome as [Hsome|Hin].
  - simpl in Hsome. rewrite lookup_empty in Hsome. by destruct Hsome.
  - apply collect_boxes_names in Hin as [Hin|[Hne _]]; [|done].
    simpl in Hin. by apply elem_of_nil in Hin.
Qed.



(** Every tube of an import run comes from a row of the file: it carries
    the barcode of the row; it is in no box when the row names none, and
    otherwise in the box that bears the name of the row, which exists; its
    row, when it has one, is between 1 and 9. *)
Theorem import_tubes_placed py_float individuals samples lines t :
  let run := Reimport.main py_float individuals samples lines in
  t ∈ Reimport.new_tubes (Reimport.imported_loop run) →
  ∃ row,
    row ∈ Reimport.read_rows lines
    ∧ barcode t = row_barcode row
    ∧ ((row_box_name row = EmptyString ∧ box_id t = None)
       ∨ ∃ id box, box_id t = Some id
                   ∧ Reimport.imported_boxes run !! id = Some box
                   ∧ box_name box = Some (row_box_name row))
    ∧ (position_row t = None ∨ ∃ r, position_row t = Some r ∧ 1 ≤ r ≤ 9).
Proof.
  intros run Ht. subst run.
  pose proof (accounts_inv_loop py_float (Reimport.load_individuals individuals)
                (Reimport.create_boxes
                   (Reimport.collect_boxes (Reimport.read_rows lines) [])).2
                samples (Reimport.read_rows lines)) as [_ Hfrom].
  destruct (Hfrom t Ht) as (row & Hrow & Hbar & Hbox & Hr & _).
  exists row. split_and!; try done.
  - pose proof (no_box_for_empty_name (Reimport.read_rows lines)) as Hnone.
    fold (row_box_name row) in Hbox.
    destruct (decide (row_box_name row = EmptyString)) as [Hempty|Hne].
    + left. split; [done|]. by rewrite Hbox, Hempty.
    + right. rewrite create_boxes_fold in Hbox.
      assert (NoDup (Reimport.collect_boxes (Reimport.read_rows lines) []).*1) as Hnd
        by (apply collect_boxes_nodup, NoDup_nil_2).
      pose proof (collect_boxes_has (Reimport.read_rows lines) [] row Hrow Hne) as Hin.
      apply list_elem_of_fmap in Hin as ([name info] & Hname & Hin). simpl in Hname.
      subst name.
      destruct (foldl_add_box_makes _ (∅, ∅) _ _ Hnd Hin) as (id & Hid & Hmade).
      eexists id, _. split_and!; [by rewrite Hbox|exact Hmade|reflexivity].
  - destruct (position_row t) as [r|] eqn:Hpos; [right|by left].
    exists r. split; [done|]. symmetry in Hr. by apply parse_position_v_in_grid in Hr.
Qed.

Lemma import_tubes_placed_witness :
  ∃ row,
    row ∈ Reimport.read_rows two_rows_of_a_box
    ∧ barcode first_boxed_tube = row_barcode row
    ∧ ((row_box_name row = EmptyString ∧ box_id first_boxed_tube = None)
       ∨ ∃ id box, box_id first_boxed_tube = Some id
                   ∧ Reimport.imported_boxes
                       (Reimport.main no_float [] [] two_rows_of_a_box) !! id = Some box
                   ∧ box_name box = Some (row_box_name row))
    ∧ (position_row first_boxed_tube = None
       ∨ ∃ r, position_row first_boxed_tube = Some r ∧ 1 ≤ r ≤ 9).
Proof.
  apply (import_tubes_placed no_float [] [] two_rows_of_a_box first_boxed_tube).
  vm_compute. left.
Defined.

(** ** Samples of the import *)

Lemma free_sample_code_shape (fuel : nat) (codes : gmap string Z)
    (clean cand : string) (k0 : Z) :
  Reimport.free_sample_code fuel codes clean cand k0 = cand
  ∨ ∃ k, k0 ≤ k
         ∧ Reimport.free_sample_code fuel codes clean cand k0
           = clean +:+ "_T" +:+ Py.str k
         ∧ is_Some (codes !! cand)
         ∧ ∀ j, k0 ≤ j < k → is_Some (codes !! (clean +:+ "_T" +:+ Py.str j)).
Proof.
  revert cand k0. induction fuel as [|fuel IH]; intros cand k0; simpl; [by left|].
  case_bool_decide as Hin; [|by left]. right.
  destruct (IH (clean +:+ "_T" +:+ Py.str k0) (k0 + 1)) as [Heq|(k & Hk & Heq & Hk0 & Hlow)].
  - exists k0. split_and!; [lia|done|done|intros j Hj; lia].
  - exists k. split_and!; [lia|done|done|].
    intros j Hj. destruct (decide (j = k0)) as [->|Hne]; [done|].
    apply Hlow. lia.
Qed.

(** The code of a new sample.  The search of [main] ends with a code that
    no sample known to the run carries: the code of the individual when
    it is free, and otherwise the code followed by [_T] and the first
    number from 1 that gives a free code. *)
Theorem new_sample_code_is_new (codes : gmap string Z) (clean : string) :
  let code := Reimport.free_sample_code (S (size codes)) codes clean clean 1 in
  codes !! code = None
  ∧ (codes !! clean = None → code = clean)
  ∧ (is_Some (codes !! clean) →
     ∃ k, 1 ≤ k ∧ code = clean +:+ "_T" +:+ Py.str k
          ∧ ∀ j, 1 ≤ j < k → is_Some (codes !! (clean +:+ "_T" +:+ Py.str j))).
Proof.
  intros code. subst code.
  pose proof (free_sample_code_is_free codes clean) as Hfree.
  split_and!; [done| |].
  - intros Hclean. simpl. rewrite bool_decide_eq_false_2; [done|].
    rewrite Hclean. by intros [? ?].
  - intros Htaken.
    destruct (free_sample_code_shape (S (size codes)) codes clean clean 1)
      as [Heq|(k & Hk & Heq & _ & Hlow)].
    + rewrite Heq in Hfree. rewrite Hfree in Htaken. by destruct Htaken.
    + by exists k.
Qed.

Lemma new_sample_code_is_new_witness :
  ∃ k, 1 ≤ k
       ∧ Reimport.free_sample_code (S (size taken_codes)) taken_codes "C1" "C1" 1
         = "C1" +:+ "_T" +:+ Py.str k
       ∧ ∀ j, 1 ≤ j < k → is_Some (taken_codes !! ("C1" +:+ "_T" +:+ Py.str j)).
Proof.
  apply (proj2 (proj2 (new_sample_code_is_new taken_codes "C1"))).
  vm_compute. by eexists.
Defined.

Section SamplesOfRun.

Variable py_float : string → option Q.
Variables individual_map box_name_to_id : gmap string Z.

Local Abbreviation step := (Reimport.tube_step py_float individual_map box_name_to_id).
Local Abbreviation loop := (Reimport.tube_loop py_float individual_map box_name_to_id).

(** The sample lookup keeps every entry of the dictionary of the samples
    by individual, leaves the tubes alone, and returns the entry of the
    individual that the code names, which is there afterwards. *)
Lemma link_sample_entry st code_principal code_alias tissus :
  let r := Reimport.link_sample individual_map st code_principal code_alias tissus in
  (∀ ind sid, Reimport.sample_by_individual st !! ind = Some sid →
              Reimport.sample_by_individual r.1 !! ind = Some sid)
  ∧ Reimport.new_tubes r.1 = Reimport.new_tubes st
  ∧ match
      (if Py.truthy_str code_principal then
         if Py.truthy_Z (individual_map !! Py.strip (Py.rstrip_seq "†" code_principal))
         then individual_map !! Py.strip (Py.rstrip_seq "†" code_principal)
         else None
       else None)
    with
    | Some ind => is_Some r.2 ∧ r.2 = Reimport.sample_by_individual r.1 !! ind
    | None => r.2 = None
    end.
Proof.
  unfold Reimport.link_sample.
  destruct (Py.truthy_str code_principal); [|done].
  destruct (individual_map !! Py.strip (Py.rstrip_seq "†" code_principal))
    as [ind|] eqn:Hind; [|done].
  destruct (Py.truthy_Z (Some ind)); [|done].
  destruct (Reimport.sample_by_individual st !! ind) as [sid|] eqn:Hsid; simpl.
  - split_and!; first [done | by eexists].
  - split_and!;
      first [ done
            | by eexists
            | by rewrite lookup_insert_eq
            | intros ind' sid' Hlook; rewrite lookup_insert_ne; [done|congruence] ].
Qed.

(** One turn of the loop keeps the entries of the dictionary, and the
    tube it makes, if any, carries the sample of the individual of its
    row. *)
Lemma tube_step_sample st row :
  (∀ ind sid, Reimport.sample_by_individual st !! ind = Some sid →
              Reimport.sample_by_individual (step st row) !! ind = Some sid)
  ∧ (Reimport.new_tubes (step st row) = Reimport.new_tubes st
     ∨ ∃ t, Reimport.new_tubes (step st row) = Reimport.new_tubes st ++ [t]
            ∧ sample_comes_from individual_map
                (Reimport.sample_by_individual (step st row)) row t).
Proof.
  unfold Reimport.tube_step.
  destruct (Py.truthy_str (Py.strip (Reimport.col row 0))); simpl; [|by split; [|left]].
  case_bool_decide; simpl; [by split; [|left]|].
  match goal with
  | |- context [if ?c then _ else _] => destruct c
  end; simpl; [by split; [|left]|].
  match goal with
  | |- context [Reimport.link_sample ?m ?s ?a ?b ?c] =>
      pose proof (link_sample_entry s a b c) as (Hkeep & Htubes & Hres);
      destruct (Reimport.link_sample m s a b c) as [st3 sid] eqn:Hlink
  end.
  simpl in *. split; [done|]. right.
  eexists. split; [by rewrite Htubes|].
  unfold sample_comes_from, row_individual, row_barcode. simpl. split; [done|].
  exact Hres.
Qed.

(** What the loop keeps true of the tubes it has made. *)
Lemma samples_of_loop st rows :
  Reimport.new_tubes st = [] →
  (∀ ind sid, Reimport.sample_by_individual st !! ind = Some sid →
              Reimport.sample_by_individual (loop st rows) !! ind = Some sid)
  ∧ ∀ t, t ∈ Reimport.new_tubes (loop st rows) →
         ∃ row, row ∈ rows
                ∧ sample_comes_from individual_map
                    (Reimport.sample_by_individual (loop st rows)) row t.
Proof.
  intros Hnone. induction rows as [|row rows IH] using rev_ind.
  - split; [done|]. simpl. rewrite Hnone. by intros t Ht%elem_of_nil.
  - destruct IH as [Hkeep Hmade].
    unfold Reimport.tube_loop in *. rewrite foldl_snoc.
    set (st1 := foldl step st rows) in *.
    destruct (tube_step_sample st1 row) as [Hkeep1 Hnew].
    split; [by intros ind sid Hlook; apply Hkeep1, Hkeep|].
    assert (∀ t, t ∈ Reimport.new_tubes st1 →
                 ∃ row0, row0 ∈ rows ++ [row]
                         ∧ sample_comes_from individual_map
                             (Reimport.sample_by_individual (step st1 row)) row0 t)
      as Hold.
    { intros t Ht. destruct (Hmade t Ht) as (row0 & Hin & Hb & Hs).
      exists row0. split; [apply elem_of_app; by left|]. split; [done|].
      destruct (row_individual individual_map row0) as [ind|]; [|done].
      destruct Hs as [[sid Hsid] Heq]. split; [by eexists|].
      rewrite Hsid in Heq. symmetry in Heq. apply Hkeep1 in Heq. congruence. }
    destruct Hnew as [->|(t0 & -> & Ht0)]; [done|].
    intros t [Ht|Ht%list_elem_of_singleton]%elem_of_app; [by apply Hold|].
    subst t. exists row. split; [|done]. apply elem_of_app. right. by constructor.
Qed.

End SamplesOfRun.

(** One sample for an individual in a run.  Every tube of a run was made
    from a row of the file; when the row names an individual, the tube
    carries the sample that the run holds for this individual at its
    end, and when it names none the tube has no sample.  So two tubes of
    a run whose rows name the same individual carry the same sample,
    whatever the alias and the tissue of their rows and whatever rows
    lie between them. *)
Theorem one_sample_per_individual py_float individuals samples lines :
  let final :=
    Reimport.imported_loop (Reimport.main py_float individuals samples lines) in
  (∀ t, t ∈ Reimport.new_tubes final →
        ∃ row, row ∈ Reimport.read_rows lines
               ∧ sample_comes_from (Reimport.load_individuals individuals)
                   (Reimport.sample_by_individual final) row t)
  ∧ ∀ t1 t2 row1 row2 ind,
      sample_comes_from (Reimport.load_individuals individuals)
        (Reimport.sample_by_individual final) row1 t1 →
      sample_comes_from (Reimport.load_individuals individuals)
        (Reimport.sample_by_individual final) row2 t2 →
      row_individual (Reimport.load_individuals individuals) row1 = Some ind →
      row_individual (Reimport.load_individuals individuals) row2 = Some ind →
      is_Some (sample_id t1) ∧ sample_id t1 = sample_id t2.
Proof.
  intros final. split.
  - apply (samples_of_loop py_float). reflexivity.
  - intros t1 t2 row1 row2 ind [_ H1] [_ H2] Hr1 Hr2.
    rewrite Hr1 in H1. rewrite Hr2 in H2.
    destruct H1 as [Hsome H1], H2 as [_ H2]. split; [done|congruence].
Qed.

Lemma one_sample_per_individual_witness :
  ∃ t1 t2 t3,
    Reimport.new_tubes
      (Reimport.imported_loop (Reimport.main no_float [(7, "C1")] [] lines_of_c1))
    = [t1; t2; t3]
    ∧ is_Some (sample_id t1) ∧ sample_id t1 = sample_id t3 ∧ sample_id t2 = None.
Proof.
  eexists _, _, _. split; [vm_compute; reflexivity|].
  split; [|split; [|reflexivity]].
  - by eexists.
  - refine (proj2 (proj2 (one_sample_per_individual no_float [(7, "C1")] [] lines_of_c1)
                     _ _ (sampled_line "X1" "C1" "a" "blood")
                     (sampled_line "X3" "C1" "b" "saliva") 7 _ _ _ _)).
    + split; [reflexivity|]. vm_compute. split; [by eexists|reflexivity].
    + split; [reflexivity|]. vm_compute. split; [by eexists|reflexivity].
    + reflexivity.
    + reflexivity.
Defined.

(** * Integers and their decimal text *)

Lemma rev_app_chars (s1 s2 : string) :
  String.list_ascii_of_string (String.rev_app s1 s2)
  = List.rev (String.list_ascii_of_string s1) ++ String.list_ascii_of_string s2.
Proof.
  revert s2. induction s1 as [|a s1 IH]; intros s2; simpl; [done|].
  rewrite IH. simpl. by rewrite <- app_assoc.
Qed.

Lemma rev_chars (s : string) :
  String.list_ascii_of_string (String.rev s) = List.rev (String.list_ascii_of_string s).
Proof. unfold String.rev. rewrite rev_app_chars. simpl. by rewrite app_nil_r. Qed.

Lemma chars_inj (s1 s2 : string) :
  String.list_ascii_of_string s1 = String.list_ascii_of_string s2 → s1 = s2.
Proof.
  intros H. rewrite <- (String.string_of_list_ascii_of_string s1),
    <- (String.string_of_list_ascii_of_string s2). by rewrite H.
Qed.

Lemma lstrip_no_space (s : string) :
  Forall (λ a, Py.is_space a = false) (String.list_ascii_of_string s) →
  Py.lstrip s = s.
Proof.
  destruct s as [|a s]; simpl; [done|].
  intros H. apply Forall_cons in H as [-> _]. reflexivity.
Qed.

(** A string without white space is its own [strip]. *)
Lemma strip_no_space (s : string) :
  Forall (λ a, Py.is_space a = false) (String.list_ascii_of_string s) →
  Py.strip s = s.
Proof.
  intros H. unfold Py.strip, Py.rstrip.
  rewrite (lstrip_no_space s H).
  rewrite lstrip_no_space.
  - apply chars_inj. by rewrite !rev_chars, rev_involutive.
  - rewrite rev_chars. apply Forall_forall. intros a Ha.
    rewrite Forall_forall in H. apply H.
    apply list_elem_of_In. apply list_elem_of_In, in_rev in Ha. done.
Qed.

Lemma pretty_N_char_digit (d : N) :
  (d < 10)%N →
  Py.digit_of (pretty_N_char d) = Some (Z.of_N d)
  ∧ Py.is_space (pretty_N_char d) = false.
Proof.
  intros Hd.
  assert (d = 0 ∨ d = 1 ∨ d = 2 ∨ d = 3 ∨ d = 4 ∨ d = 5 ∨ d = 6 ∨ d = 7
          ∨ d = 8 ∨ d = 9)%N as Hcases by lia.
  repeat destruct Hcases as [->|Hcases]; try subst d; by vm_compute.
Qed.

(** The digits that [str] writes in front of [s] for a positive number:
    they begin with a digit, hold no white space, and [int] reads the
    number from them. *)
Lemma pretty_N_go_digits (x : N) (s : string) :
  (0 < x)%N →
  ∃ a rest,
    pretty_N_go x s = String a rest
    ∧ is_Some (Py.digit_of a)
    ∧ (Forall (λ a, Py.is_space a = false) (String.list_ascii_of_string s) →
       Forall (λ a, Py.is_space a = false)
         (String.list_ascii_of_string (String a rest)))
    ∧ ∀ flag, Py.int_digits (String a rest) 0 flag = Py.int_digits s (Z.of_N x) true.
Proof.
  revert s. induction (N.lt_wf_0 x) as [x _ IH]; intros s Hpos.
  rewrite pretty_N_go_step by done.
  destruct (pretty_N_char_digit (x `mod` 10)%N) as [Hdigit Hspace];
    [by apply N.mod_lt|].
  assert (Z.of_N x = 10 * Z.of_N (x `div` 10) + Z.of_N (x `mod` 10)) as Hx.
  { rewrite (N.div_mod x 10) at 1 by done. lia. }
  destruct (decide (x `div` 10 = 0)%N) as [Hzero|Hmore].
  - rewrite Hzero, pretty_N_go_0. eexists _, _. split_and!; [done| | |].
    + by rewrite Hdigit.
    + intros Hs. simpl. by apply Forall_cons.
    + intros flag. simpl. rewrite Hdigit. f_equal. rewrite Hx, Hzero. lia.
  - destruct (IH (x `div` 10)%N) with (s := String (pretty_N_char (x `mod` 10)) s)
      as (a & rest & Heq & Hhead & Hsp & Hint).
    { by apply N.div_lt. }
    { by apply N.neq_0_lt_0. }
    exists a, rest. split_and!; [done|done| |].
    + intros Hs. apply Hsp. simpl. by apply Forall_cons.
    + intros flag. rewrite Hint. simpl. rewrite Hdigit. f_equal. lia.
Qed.

Lemma int_of_digits (a : ascii) (rest : string) :
  is_Some (Py.digit_of a) →
  Py.strip (String a rest) = String a rest →
  Py.int (String a rest) = Py.int_digits (String a rest) 0 false.
Proof.
  intros [d Hd] Hstrip. unfold Py.int. rewrite Hstrip.
  destruct a as [[] [] [] [] [] [] [] []]; vm_compute in Hd; try discriminate;
    reflexivity.
Qed.

(** [int(str(n)) == n], on the integers that [Py.str] stands for. *)
Lemma int_str (n : Z) : Py.int (Py.str n) = Some n.
Proof.
  unfold Py.str, pretty, pretty_Z.
  destruct n as [|p|p].
  - reflexivity.
  - unfold pretty, pretty_positive, pretty, pretty_N.
    rewrite decide_False by done.
    destruct (pretty_N_go_digits (N.pos p) EmptyString) as (a & rest & -> & Hhead & Hsp & Hint);
      [lia|].
    rewrite int_of_digits; [|done|].
    + rewrite Hint. reflexivity.
    + apply strip_no_space, Hsp. simpl. constructor.
  - unfold pretty, pretty_positive, pretty, pretty_N.
    rewrite decide_False by done.
    destruct (pretty_N_go_digits (N.pos p) EmptyString) as (a & rest & Heq & Hhead & Hsp & Hint);
      [lia|].
    rewrite Heq. unfold Py.int.
    rewrite strip_no_space.
    + change ("-" +:+ String a rest) with (String "-" (String a rest)).
      cbv iota beta. rewrite Hint. reflexivity.
    + change ("-" +:+ String a rest) with (String "-" (String a rest)).
      simpl. apply Forall_cons. split; [reflexivity|]. apply Hsp. constructor.
Qed.

Lemma str_not_blank (n : Z) :
  Py.truthy_str (Py.str n) = true ∧ Py.strip (Py.str n) = Py.str n
  ∧ Py.str n ≠ EmptyString.
Proof.
  assert (Py.strip (Py.str n) = Py.str n ∧ Py.str n ≠ EmptyString) as [Hs Hne].
  { unfold Py.str, pretty, pretty_Z.
    destruct n as [|p|p].
    - split; [reflexivity|discriminate].
    - unfold pretty, pretty_positive, pretty, pretty_N.
      rewrite decide_False by done.
      destruct (pretty_N_go_digits (N.pos p) EmptyString)
        as (a & rest & -> & Hhead & Hsp & Hint); [lia|].
      split; [|discriminate]. apply strip_no_space, Hsp. constructor.
    - unfold pretty, pretty_positive, pretty, pretty_N.
      rewrite decide_False by done.
      destruct (pretty_N_go_digits (N.pos p) EmptyString)
        as (a & rest & -> & Hhead & Hsp & Hint); [lia|].
      split; [|discriminate]. apply strip_no_space.
      change ("-" +:+ String a rest) with (String "-" (String a rest)).
      simpl. apply Forall_cons. split; [reflexivity|]. apply Hsp. constructor. }
  split_and!; try done. by apply truthy_str_true.
Qed.

(** The column parser reads the decimal text of an integer back, on the
    integers that [Py.str] stands for. *)
Lemma parse_position_h_of_str (n : Z) :
  Reimport.parse_position_h (Py.str n) = Some n.
Proof.
  unfold Reimport.parse_position_h.
  destruct (str_not_blank n) as (Htruthy & Hstrip & Hne).
  rewrite Htruthy, Hstrip. simpl.
  assert (String.eqb (Py.str n) EmptyString = false) as ->
    by (by apply String.eqb_neq).
  apply int_str.
Qed.

(** ** Displayed positions, for every column *)

Lemma parse_position_v_of_letter (r : Z) :
  1 ≤ r ≤ 9 →
  Reimport.parse_position_v (String (ascii_of_N (Z.to_N (64 + r))) EmptyString) = Some r.
Proof.
  intros Hr.
  assert (r = 1 ∨ r = 2 ∨ r = 3 ∨ r = 4 ∨ r = 5 ∨ r = 6 ∨ r = 7 ∨ r = 8 ∨ r = 9)
    as Hcases by lia.
  repeat destruct Hcases as [->|Hcases]; try subst r; by vm_compute.
Qed.

(** For a row from 1 to 9 and a column of the table, which is an
    integer of 64 bits, that is not 0, the displayed position of a tube,
    cut after its letter, is read back by the two parsers of the import
    as the row and the column of the tube. *)
Theorem position_read_back (t : Tube) (r c : Z) :
  position_row t = Some r → position_col t = Some c →
  1 ≤ r ≤ 9 → c ≠ 0 → fits_int64 (Some c) = true →
  parse_display (get_position_display t) = Some (r, c).
Proof.
  intros Hr Hc Hrow Hcol _.
  assert (get_position_display t
          = Shown (String (ascii_of_N (Z.to_N (64 + r))) EmptyString +:+ Py.str c))
    as ->.
  { unfold get_position_display, Py.chr. rewrite Hr, Hc. simpl.
    assert ((r =? 0) = false) as -> by lia.
    assert ((c =? 0) = false) as -> by lia.
    assert ((r <=? 26) = true) as -> by lia.
    assert ((0 <=? 64 + r) = true) as -> by lia.
    assert ((64 + r <? 128) = true) as -> by lia.
    reflexivity. }
  unfold parse_display.
  change (split_display
            (String (ascii_of_N (Z.to_N (64 + r))) EmptyString +:+ Py.str c))
    with (String (ascii_of_N (Z.to_N (64 + r))) EmptyString, Py.str c).
  unfold parse_position. cbn [fst snd].
  rewrite (parse_position_v_of_letter r Hrow), parse_position_h_of_str.
  reflexivity.
Qed.

Lemma position_read_back_witness :
  parse_display (get_position_display (tube_at 3 1204)) = Some (3, 1204).
Proof.
  apply (position_read_back (tube_at 3 1204) 3 1204);
    [reflexivity | reflexivity | lia | lia | reflexivity].
Defined.

(** ** Volumes of the import *)

Lemma imported_volumes_equal py_float individuals samples lines t :
  t ∈ Reimport.new_tubes
        (Reimport.imported_loop (Reimport.main py_float individuals samples lines)) →
  initial_volume t = current_volume t.
Proof.
  intros Ht.
  pose proof (dedup_inv_loop py_float (Reimport.load_individuals individuals)
                (Reimport.create_boxes
                   (Reimport.collect_boxes (Reimport.read_rows lines) [])).2
                samples (Reimport.read_rows lines)) as (_ & _ & _ & Hvol & _).
  rewrite Forall_forall in Hvol. by apply Hvol.
Qed.

(** A tube that the import has just made is never Low: its initial volume
    is its current volume, so its status is Empty, Critical or
    Available. *)
Theorem imported_tube_never_low py_float individuals samples lines t :
  t ∈ Reimport.new_tubes
        (Reimport.imported_loop (Reimport.main py_float individuals samples lines)) →
  get_status t ≠ Low.
Proof.
  intros Ht. apply imported_volumes_equal in Ht.
  unfold get_status, Py.truthy_Q. rewrite Ht.
  destruct (current_volume t) as [cv|]; [|discriminate].
  destruct (Qle_bool cv 0) eqn:E0; [discriminate|].
  destruct (Qlt_bool cv 10) eqn:E10; [discriminate|].
  destruct (Qeq_bool cv 0) eqn:Ez; [discriminate|]. simpl.
  destruct (Qlt_bool cv (cv * (1 # 4))) eqn:El; [|discriminate].
  reflect_Q. exfalso. lra.
Qed.

Lemma imported_tube_never_low_witness :
  get_status first_boxed_tube ≠ Low.
Proof.
  apply (imported_tube_never_low no_float [] [] two_rows_of_a_box first_boxed_tube).
  vm_compute. left.
Defined.

(** ** Positions that were seen *)

Section SeenPositions.

Variable py_float : string → option Q.
Variables individual_map box_name_to_id : gmap string Z.

Local Abbreviation step := (Reimport.tube_step py_float individual_map box_name_to_id).
Local Abbreviation loop := (Reimport.tube_loop py_float individual_map box_name_to_id).

Lemma seen_positions_come_from_rows samples rows k :
  k ∈ Reimport.seen_positions (loop (Reimport.initial_loop samples) rows) →
  ∃ row, row ∈ rows ∧ row_position_key row = Some k.
Proof.
  induction rows as [|row rows IH] using rev_ind; intros Hk.
  { simpl in Hk. by apply elem_of_empty in Hk. }
  rewrite tube_loop_snoc in Hk.
  assert (k ∈ Reimport.seen_positions (loop (Reimport.initial_loop samples) rows)
          ∨ row_position_key row = Some k) as [Hold|Hnew].
  { destruct (tube_step_cases py_float individual_map box_name_to_id
                (loop (Reimport.initial_loop samples) rows) row)
      as [(_ & _ & E & _)
         |[(_ & _ & _ & E & _)
          |[(_ & _ & _ & _ & E & _)
           |(_ & _ & _ & _ & E & _)]]];
      rewrite E in Hk; try (by left).
    destruct (row_position_key row) as [k'|]; [|by left].
    apply elem_of_union in Hk as [Hk|Hk]; [|by left].
    apply elem_of_singleton in Hk. right. by subst. }
  - destruct (IH Hold) as (row0 & Hin & Hkey). exists row0.
    split; [|done]. apply elem_of_app. by left.
  - exists row. split; [|done]. apply elem_of_app. right.
    by apply list_elem_of_singleton.
Qed.

End SeenPositions.

(** The positions of an import run, as they are written.  A row whose box
    name, column text and row text are those of a position seen earlier
    in the run creates no tube, whatever its barcode; a row that creates
    a tube has its position, when it has one, seen from then on; and
    every position that is seen is the position of a row read so far. *)
Theorem import_refuses_seen_position py_float individuals samples lines :
  let rows := Reimport.read_rows lines in
  let individual_map := Reimport.load_individuals individuals in
  let box_name_to_id := (Reimport.create_boxes (Reimport.collect_boxes rows [])).2 in
  let after_rows :=
    Reimport.tube_loop py_float individual_map box_name_to_id
      (Reimport.initial_loop samples) in
  (∀ before row k,
     row_position_key row = Some k →
     k ∈ Reimport.seen_positions (after_rows before) →
     Reimport.new_tubes (after_rows (before ++ [row]))
     = Reimport.new_tubes (after_rows before))
  ∧ (∀ before row k,
       row_position_key row = Some k →
       Reimport.new_tubes (after_rows (before ++ [row]))
       ≠ Reimport.new_tubes (after_rows before) →
       k ∈ Reimport.seen_positions (after_rows (before ++ [row])))
  ∧ (∀ before k,
       k ∈ Reimport.seen_positions (after_rows before) →
       ∃ row, row ∈ before ∧ row_position_key row = Some k).
Proof.
  intros rows individual_map box_name_to_id after_rows. subst after_rows.
  split_and!.
  - intros before row k Hkey Hseen. cbv beta. rewrite tube_loop_snoc.
    destruct (tube_step_cases py_float individual_map box_name_to_id
                (Reimport.tube_loop py_float individual_map box_name_to_id
                   (Reimport.initial_loop samples) before) row)
      as [(_ & _ & _ & E & _)
         |[(_ & _ & _ & _ & E & _)
          |[(_ & _ & _ & _ & _ & E & _)
           |(_ & _ & Hfree & _)]]]; try done.
    by destruct (Hfree k Hkey).
  - intros before row k Hkey Hgrew. cbv beta in *. rewrite tube_loop_snoc in *.
    destruct (tube_step_cases py_float individual_map box_name_to_id
                (Reimport.tube_loop py_float individual_map box_name_to_id
                   (Reimport.initial_loop samples) before) row)
      as [(_ & _ & _ & E & _)
         |[(_ & _ & _ & _ & E & _)
          |[(_ & _ & _ & _ & _ & E & _)
           |(_ & _ & _ & _ & E & _)]]]; try done.
    rewrite E, Hkey. apply elem_of_union. left. by apply elem_of_singleton.
  - intros before k. apply seen_positions_come_from_rows.
Qed.

Lemma import_refuses_seen_position_witness :
  Reimport.new_tubes
    (Reimport.tube_loop no_float (Reimport.load_individuals [])
       (Reimport.create_boxes
          (Reimport.collect_boxes (Reimport.read_rows two_tubes_one_position) [])).2
       (Reimport.initial_loop [])
       ([line "X1" "1" "A" "B1"] ++ [line "X2" "1" "A" "B1"]))
  = Reimport.new_tubes
      (Reimport.tube_loop no_float (Reimport.load_individuals [])
         (Reimport.create_boxes
            (Reimport.collect_boxes (Reimport.read_rows two_tubes_one_position) [])).2
         (Reimport.initial_loop [])
         [line "X1" "1" "A" "B1"]).
Proof.
  apply (proj1 (import_refuses_seen_position no_float [] [] two_tubes_one_position)
           [line "X1" "1" "A" "B1"] (line "X2" "1" "A" "B1") ("B1", "1", "A")).
  - vm_compute. reflexivity.
  - vm_compute. reflexivity.
Defined.

(** ** Decimal commas *)

Section DecimalComma.

Local Abbreviation dot := (Py.replace_char "," ".").

Lemma dot_lstrip (s : string) : Py.lstrip (dot s) = dot (Py.lstrip s).
Proof.
  induction s as [|a s IH]; simpl; [done|].
  destruct (Ascii.eqb_spec a ",") as [->|Hne]; simpl; [reflexivity|].
  destruct (Py.is_space a); [exact IH|]. simpl.
  by destruct (Ascii.eqb_spec a ",").
Qed.

Lemma dot_rev_app (s1 s2 : string) :
  String.rev_app (dot s1) (dot s2) = dot (String.rev_app s1 s2).
Proof.
  revert s2. induction s1 as [|a s1 IH]; intros s2; simpl; [done|].
  by rewrite <- IH.
Qed.

Lemma dot_strip (s : string) : Py.strip (dot s) = dot (Py.strip s).
Proof.
  unfold Py.strip, Py.rstrip, String.rev.
  rewrite dot_lstrip.
  change EmptyString with (dot EmptyString) at 1 2.
  rewrite dot_rev_app, dot_lstrip, dot_rev_app. reflexivity.
Qed.

Lemma dot_twice (s : string) : dot (dot s) = dot s.
Proof.
  induction s as [|a s IH]; simpl; [done|]. rewrite IH. f_equal.
  destruct (Ascii.eqb_spec a ",") as [->|Hne]; [reflexivity|].
  by destruct (Ascii.eqb_spec a ",").
Qed.

Lemma dot_lstrip_char (s : string) :
  Py.lstrip_char "<" (dot s) = dot (Py.lstrip_char "<" s).
Proof.
  induction s as [|a s IH]; simpl; [done|].
  destruct (Ascii.eqb_spec a ",") as [->|Hne]; simpl; [reflexivity|].
  destruct (Ascii.eqb_spec a "<") as [->|Hlt]; [exact IH|]. simpl.
  by destruct (Ascii.eqb_spec a ",").
Qed.

Lemma dot_blank (s : string) :
  Py.truthy_str (dot s) = Py.truthy_str s
  ∧ String.eqb (dot s) EmptyString = String.eqb s EmptyString.
Proof. by destruct s. Qed.

(** A comma is read as the decimal point: a volume and a concentration
    written with commas are parsed as the same texts written with
    points, whatever [float] makes of them. *)
Theorem parse_volume_decimal_comma (py_float : string → option Q) (value : string) :
  Reimport.parse_volume py_float (dot value) = Reimport.parse_volume py_float value
  ∧ Reimport.parse_concentration py_float (dot value)
    = Reimport.parse_concentration py_float value.
Proof.
  unfold Reimport.parse_volume, Reimport.parse_concentration.
  rewrite !dot_strip.
  destruct (dot_blank value) as [-> _].
  destruct (dot_blank (Py.strip value)) as [_ ->].
  rewrite dot_lstrip_char, !dot_twice. done.
Qed.

End DecimalComma.

(** ** Examples for the statements on reachable stores *)

Lemma usages_always_refer_to_tubes_witness : usages_refer_to_tubes used_store.
Proof.
  apply (usages_always_refer_to_tubes used_store).
  apply reach_run, reach_run, reach_empty.
Defined.

Lemma barcodes_always_unique_witness : barcodes_unique used_store.
Proof.
  apply (barcodes_always_unique used_store).
  apply reach_run, reach_run, reach_empty.
Defined.

Lemma get_position_display_edges_witness :
  get_position_display (tube_at 27 3) = Shown (Py.str 27 +:+ Py.str 3).
Proof.
  apply (proj2 (proj2 (get_position_display_edges (tube_at 27 3))) 27 3);
    [reflexivity | reflexivity | lia | lia].
Defined.

(** ** Individuals and samples *)

Lemma existsb_map_to_list_false {A} (f : Z * A → bool) (m : gmap Z A) :
  existsb f (map_to_list m) = false ↔ ∀ k v, m !! k = Some v → f (k, v) = false.
Proof.
  split.
  - intros Hnone k v Hk. apply not_true_is_false. intros Hf.
    assert (existsb f (map_to_list m) = true) as Hex; [|congruence].
    apply existsb_exists. exists (k, v). split; [|done].
    by apply list_elem_of_In, elem_of_map_to_list.
  - intros Hnone. apply not_true_is_false. intros Hex.
    apply existsb_exists in Hex as ([k v] & Hin & Hf).
    apply list_elem_of_In, elem_of_map_to_list in Hin.
    rewrite (Hnone _ _ Hin) in Hf. done.
Qed.

Lemma existsb_map_to_list_true {A} (f : Z * A → bool) (m : gmap Z A) k v :
  m !! k = Some v → f (k, v) = true → existsb f (map_to_list m) = true.
Proof.
  intros Hk Hf. apply existsb_exists. exists (k, v). split; [|done].
  by apply list_elem_of_In, elem_of_map_to_list.
Qed.

Lemma individual_id_in_use_free (m : gmap Z Individual) (code : string) :
  individual_id_in_use m code = false → ∀ k i, m !! k = Some i → individual_id i ≠ code.
Proof.
  intros Hnone k i Hk Heq.
  apply (proj1 (existsb_map_to_list_false _ _) Hnone) in Hk. simpl in Hk.
  apply String.eqb_neq in Hk. done.
Qed.

Lemma sample_id_in_use_free (m : gmap Z SampleRow) (code : string) :
  sample_id_in_use m code = false → ∀ k s, m !! k = Some s → row_sample_id s ≠ code.
Proof.
  intros Hnone k s Hk Heq.
  apply (proj1 (existsb_map_to_list_false _ _) Hnone) in Hk. simpl in Hk.
  apply String.eqb_neq in Hk. done.
Qed.

Lemma individual_id_taken_by_other_free (m : gmap Z Individual) (id : Z) (code : string) :
  individual_id_taken_by_other m id code = false →
  ∀ k i, m !! k = Some i → k ≠ id → individual_id i ≠ code.
Proof.
  intros Hnone k i Hk Hne Heq.
  apply (proj1 (existsb_map_to_list_false _ _) Hnone) in Hk. simpl in Hk.
  apply andb_false_iff in Hk as [Hk|Hk].
  - apply negb_false_iff, Z.eqb_eq in Hk. done.
  - apply String.eqb_neq in Hk. done.
Qed.

Lemma sample_id_taken_by_other_free (m : gmap Z SampleRow) (id : Z) (code : string) :
  sample_id_taken_by_other m id code = false →
  ∀ k s, m !! k = Some s → k ≠ id → row_sample_id s ≠ code.
Proof.
  intros Hnone k s Hk Hne Heq.
  apply (proj1 (existsb_map_to_list_false _ _) Hnone) in Hk. simpl in Hk.
  apply andb_false_iff in Hk as [Hk|Hk].
  - apply negb_false_iff, Z.eqb_eq in Hk. done.
  - apply String.eqb_neq in Hk. done.
Qed.

Lemma individual_has_samples_false (m : gmap Z SampleRow) (id : Z) :
  individual_has_samples m id = false →
  ∀ k s, m !! k = Some s → row_individual_id s ≠ Some id.
Proof.
  intros Hnone k s Hk Heq.
  apply (proj1 (existsb_map_to_list_false _ _) Hnone) in Hk. simpl in Hk.
  apply bool_decide_eq_false in Hk. done.
Qed.

Lemma sample_has_tubes_false (m : gmap Z Tube) (id : Z) :
  sample_has_tubes m id = false → ∀ k t, m !! k = Some t → sample_id t ≠ Some id.
Proof.
  intros Hnone k t Hk Heq.
  apply (proj1 (existsb_map_to_list_false _ _) Hnone) in Hk. simpl in Hk.
  apply bool_decide_eq_false in Hk. done.
Qed.

(** Inserting a row whose code no other row carries keeps the codes of a
    table apart. *)
Lemma insert_keeps_codes_apart {A} (code : A → string) (m : gmap Z A) (id : Z) (a : A) :
  (∀ i j x y, m !! i = Some x → m !! j = Some y → code x = code y → i = j) →
  (∀ k x, m !! k = Some x → k ≠ id → code x ≠ code a) →
  ∀ i j x y, <[id := a]> m !! i = Some x → <[id := a]> m !! j = Some y →
             code x = code y → i = j.
Proof.
  intros Hok Hfree i j x y Hi Hj Hc.
  apply lookup_insert_Some in Hi as [[<- <-]|[Hni Hi]];
    apply lookup_insert_Some in Hj as [[<- <-]|[Hnj Hj]]; try done.
  - exfalso. by apply (Hfree _ _ Hj).
  - exfalso. by apply (Hfree _ _ Hi).
  - by eapply Hok.
Qed.

Lemma delete_keeps_codes_apart {A} (code : A → string) (m : gmap Z A) (id : Z) :
  (∀ i j x y, m !! i = Some x → m !! j = Some y → code x = code y → i = j) →
  ∀ i j x y, delete id m !! i = Some x → delete id m !! j = Some y →
             code x = code y → i = j.
Proof.
  intros Hok i j x y Hi Hj Hc.
  apply lookup_delete_Some in Hi as [_ Hi].
  apply lookup_delete_Some in Hj as [_ Hj]. by eapply Hok.
Qed.

Lemma reg_run_keeps_codes_unique (op : RegOp) (reg : Registry) :
  codes_unique reg → codes_unique (reg_run op reg).
Proof.
  intros [Hind Hsam].
  destruct op as [data|id data|id|data|id data|id|id data|op]; simpl.
  - unfold create_individual.
    destruct (get (d_individual_id data)) as [code|] eqn:Hcode; [|done].
    destruct (individual_id_in_use (individuals reg) code) eqn:Huse; [done|].
    split; [|done]. simpl.
    apply (insert_keeps_codes_apart individual_id); [done|].
    intros k x Hk _. simpl. by eapply individual_id_in_use_free.
  - unfold update_individual.
    destruct (individuals reg !! id) as [i0|] eqn:Hi0; [|done].
    destruct (set_if_present (d_individual_id data) (Some (individual_id i0)))
      as [code|] eqn:Hcode; [|done].
    destruct (negb (String.eqb code (individual_id i0))
              && individual_id_taken_by_other (individuals reg) id code) eqn:Hchk;
      [done|].
    split; [|done]. simpl.
    apply (insert_keeps_codes_apart individual_id); [done|].
    intros k x Hk Hne. simpl.
    apply andb_false_iff in Hchk as [Hsame|Hother].
    + apply negb_false_iff, String.eqb_eq in Hsame. subst code.
      intros Heq. apply Hne. by eapply Hind.
    + by eapply individual_id_taken_by_other_free.
  - unfold delete_individual.
    destruct (individuals reg !! id) as [i0|]; [|done].
    destruct (individual_has_samples (samples reg) id); [done|].
    split; [|done]. simpl. by apply (delete_keeps_codes_apart individual_id).
  - unfold create_sample.
    destruct (py_or (get (d_sample_code data)) (get (d_sample_sample_id data)))
      as [code|] eqn:Hcode.
    2: { by destruct (d_arrival_date data). }
    destruct (sample_id_in_use (samples reg) code) eqn:Huse; [done|].
    destruct (d_arrival_date data); [| |done].
    all: split; [done|]; simpl.
    all: apply (insert_keeps_codes_apart row_sample_id); [done|].
    all: intros k x Hk _; simpl; by eapply sample_id_in_use_free.
  - unfold update_sample.
    destruct (samples reg !! id) as [s0|] eqn:Hs0; [|done].
    destruct (set_if_present (d_sample_sample_id data)
                (set_if_present (d_sample_code data) (Some (row_sample_id s0))))
      as [code|] eqn:Hcode.
    2: { by destruct (d_arrival_date data). }
    destruct (negb (String.eqb code (row_sample_id s0))
              && sample_id_taken_by_other (samples reg) id code) eqn:Hchk.
    { by destruct (d_arrival_date data). }
    assert (∀ k x, samples reg !! k = Some x → k ≠ id → row_sample_id x ≠ code)
      as Hfree.
    { intros k x Hk Hne.
      apply andb_false_iff in Hchk as [Hsame|Hother].
      - apply negb_false_iff, String.eqb_eq in Hsame. subst code.
        intros Heq. apply Hne. by eapply Hsam.
      - by eapply sample_id_taken_by_other_free. }
    destruct (d_arrival_date data); [| |done].
    all: split; [done|]; simpl.
    all: by apply (insert_keeps_codes_apart row_sample_id).
  - unfold delete_sample.
    destruct (samples reg !! id) as [s0|]; [|done].
    destruct (sample_has_tubes (tubes (lab reg)) id); [done|].
    split; [done|]. simpl. by apply (delete_keeps_codes_apart row_sample_id).
  - unfold add_sample_to_sujet.
    destruct (individuals reg !! id) as [i0|]; [|done].
    destruct (get (d_sample_sample_id data)) as [code|] eqn:Hcode; [|done].
    destruct (sample_id_in_use (samples reg) code) eqn:Huse; [done|].
    split; [done|]. simpl.
    apply (insert_keeps_codes_apart row_sample_id); [done|].
    intros k x Hk _. simpl. by eapply sample_id_in_use_free.
  - done.
Qed.

(** Whatever requests are served, two individuals never come to share a
    code and two samples never do: the creations look the code up before
    they insert, and the commit of an update refuses the code of another
    row. *)
Theorem codes_stay_unique (reg : Registry) (ops : list RegOp) :
  codes_unique reg → codes_unique (foldl (λ r op, reg_run op r) reg ops).
Proof.
  revert reg. induction ops as [|op ops IH]; intros reg Hok; [done|].
  simpl. apply IH. by apply reg_run_keeps_codes_unique.
Qed.

Lemma codes_stay_unique_witness :
  codes_unique one_individual
  ∧ codes_unique
      (foldl (λ r op, reg_run op r) one_individual
         [ CreateIndividual (individual_request "C1");
           CreateSample (sample_request "S1");
           AddSampleToSujet 1 (sample_request "S1");
           UpdateSample 1 (two_codes_request "S2" "S3") ]).
Proof.
  assert (codes_unique one_individual) as Hok.
  { split; intros i j a b Hi Hj _; simpl in Hi, Hj.
    - apply lookup_singleton_Some in Hi as [<- _].
      apply lookup_singleton_Some in Hj as [<- _]. done.
    - by rewrite lookup_empty in Hi. }
  split; [exact Hok|]. apply (codes_stay_unique one_individual). exact Hok.
Defined.

(** ** References between the tables *)

Lemma create_usage_keeps_sample_ids today s data k t' :
  tubes (create_usage today s data).1 !! k = Some t' →
  ∃ t0, tubes s !! k = Some t0 ∧ sample_id t0 = sample_id t'.
Proof.
  intros Hk. unfold create_usage in Hk.
  repeat case_match; simplify_eq; simpl in Hk; try (by eexists).
  all: apply lookup_insert_Some in Hk as [[<- <-]|[_ Hk]]; [|by eexists].
  all: match goal with
       | H : _ ≫= _ = Some _ |- _ =>
           apply bind_Some in H as (k0 & Hk0 & Hlook);
           apply fmap_Some in Hlook as (t0 & Hlook & Heq); simplify_eq;
           by eexists
       end.
Qed.

Lemma reg_run_keeps_references (op : RegOp) (reg : Registry) :
  checks_references op = true → references_hold reg → references_hold (reg_run op reg).
Proof.
  intros Hop [Hsam Htub].
  destruct op as [data|id data|id|data|id data|id|id data|op]; simpl in Hop;
    try discriminate; simpl.
  - unfold create_individual.
    destruct (get (d_individual_id data)) as [code|]; [|done].
    destruct (individual_id_in_use (individuals reg) code); [done|].
    split; [|done]. simpl. intros k s id Hk Hid.
    apply lookup_insert_is_Some'. right. by eapply Hsam.
  - unfold update_individual.
    destruct (individuals reg !! id) as [i0|]; [|done].
    destruct (set_if_present (d_individual_id data) (Some (individual_id i0)))
      as [code|]; [|done].
    destruct (negb (String.eqb code (individual_id i0))
              && individual_id_taken_by_other (individuals reg) id code); [done|].
    split; [|done]. simpl. intros k s id' Hk Hid.
    apply lookup_insert_is_Some'. right. by eapply Hsam.
  - unfold delete_individual.
    destruct (individuals reg !! id) as [i0|]; [|done].
    destruct (individual_has_samples (samples reg) id) eqn:Hhas; [done|].
    split; [|done]. simpl. intros k s id' Hk Hid.
    rewrite lookup_delete_ne; [by eapply Hsam|].
    intros ->. by eapply individual_has_samples_false.
  - unfold delete_sample.
    destruct (samples reg !! id) as [s0|]; [|done].
    destruct (sample_has_tubes (tubes (lab reg)) id) eqn:Hhas; [done|].
    split; simpl.
    + intros k s id' Hk Hid. apply lookup_delete_Some in Hk as [_ Hk].
      by eapply Hsam.
    + intros k t id' Hk Hid.
      rewrite lookup_delete_ne; [by eapply Htub|].
      intros ->. by eapply sample_has_tubes_false.
  - unfold add_sample_to_sujet.
    destruct (individuals reg !! id) as [i0|] eqn:Hi0; [|done].
    destruct (get (d_sample_sample_id data)) as [code|]; [|done].
    destruct (sample_id_in_use (samples reg) code); [done|].
    split; simpl.
    + intros k s id' Hk Hid.
      apply lookup_insert_Some in Hk as [[<- <-]|[_ Hk]]; [|by eapply Hsam].
      simpl in Hid. simplify_eq. by eexists.
    + intros k t id' Hk Hid.
      apply lookup_insert_is_Some'. right. by eapply Htub.
  - split; [done|]. simpl.
    destruct op as [data|id data|id|data|id data|id|today data]; simpl in *;
      try discriminate.
    + unfold delete_tube.
      destruct (tubes (lab reg) !! id) as [t0|]; [|done].
      destruct (tube_has_usages (usages (lab reg)) id); [done|]. simpl.
      intros k t id' Hk Hid. apply lookup_delete_Some in Hk as [_ Hk].
      by eapply Htub.
    + done.
    + unfold update_box. repeat case_match; simpl; done.
    + unfold delete_box. repeat case_match; simpl; done.
    + intros k t id' Hk Hid.
      apply create_usage_keeps_sample_ids in Hk as (t0 & Hk & Heq).
      eapply Htub; [exact Hk|congruence].
Qed.

(** The requests that check the row they refer to keep the references
    whole: as long as no sample is created or updated through
    [/api/samples] and no tube through [/api/tubes], every sample that
    names an individual names one that exists, and every tube that names
    a sample names one that exists.  The guards of the two deletions are
    what keeps it so. *)
Theorem checked_requests_keep_references (reg : Registry) (ops : list RegOp) :
  references_hold reg →
  forallb checks_references ops = true →
  references_hold (foldl (λ r op, reg_run op r) reg ops).
Proof.
  revert reg. induction ops as [|op ops IH]; intros reg Hok Hops; [done|].
  simpl in *. apply andb_true_iff in Hops as [Hop Hops].
  apply IH; [|done]. by apply reg_run_keeps_references.
Qed.

Lemma checked_requests_keep_references_witness :
  references_hold one_individual
  ∧ references_hold (foldl (λ r op, reg_run op r) one_individual checked_session).
Proof.
  assert (references_hold one_individual) as Hok.
  { split; intros k s id Hk; simpl in Hk; by rewrite lookup_empty in Hk. }
  split; [exact Hok|].
  apply (checked_requests_keep_references one_individual checked_session);
    [exact Hok|reflexivity].
Defined.

(** [create_sample] does not look the individual up.  Where
    [add_sample_to_sujet] answers that the individual is missing,
    [create_sample] stores a sample that names it, and the references of
    the registry no longer hold. *)
Theorem create_sample_unchecked_individual
    (reg : Registry) (data : SampleData) (code : string) (id : Z) :
  individuals reg !! id = None →
  py_or (get (d_sample_code data)) (get (d_sample_sample_id data)) = Some code →
  sample_id_in_use (samples reg) code = false →
  d_arrival_date data ≠ DateMalformed →
  get (d_sample_individual_id data) = Some id →
  add_sample_to_sujet reg id data = (reg, Refused Missing)
  ∧ ∃ sid s,
      (create_sample reg data).2 = Done (sid, s)
      ∧ samples (create_sample reg data).1 !! sid = Some s
      ∧ row_sample_id s = code
      ∧ row_individual_id s = Some id
      ∧ individuals (create_sample reg data).1 !! id = None
      ∧ ¬ references_hold (create_sample reg data).1.
Proof.
  intros Hid Hcode Hfree Hdate Hind. split.
  { unfold add_sample_to_sujet. by rewrite Hid. }
  unfold create_sample. rewrite Hcode, Hfree, Hind.
  destruct (d_arrival_date data) as [|d|] eqn:Hd; [| |done].
  all: eexists _, _; simpl.
  all: split; [reflexivity|].
  all: split; [apply lookup_insert_eq|].
  all: split; [reflexivity|].
  all: split; [reflexivity|].
  all: split; [done|].
  all: intros [Hsam _]; simpl in Hsam.
  all: specialize (Hsam _ _ id (lookup_insert_eq _ _ _) eq_refl).
  all: rewrite Hid in Hsam; by destruct Hsam.
Qed.

Lemma create_sample_unchecked_individual_witness :
  add_sample_to_sujet one_individual 7 (sample_of_request "S1" 7)
    = (one_individual, Refused Missing)
  ∧ ∃ sid s,
      (create_sample one_individual (sample_of_request "S1" 7)).2 = Done (sid, s)
      ∧ samples (create_sample one_individual (sample_of_request "S1" 7)).1 !! sid = Some s
      ∧ row_sample_id s = "S1"
      ∧ row_individual_id s = Some 7
      ∧ individuals (create_sample one_individual (sample_of_request "S1" 7)).1 !! 7 = None
      ∧ ¬ references_hold (create_sample one_individual (sample_of_request "S1" 7)).1.
Proof.
  apply (create_sample_unchecked_individual one_individual (sample_of_request "S1" 7) "S1" 7).
  - reflexivity.
  - reflexivity.
  - reflexivity.
  - discriminate.
  - reflexivity.
Defined.

(** An individual who was given a sample cannot be deleted: the request
    is refused and the registry stays as it is. *)
Theorem sample_blocks_delete_individual
    (reg reg1 : Registry) (id sid : Z) (data : SampleData) (s : SampleRow) :
  add_sample_to_sujet reg id data = (reg1, Done (sid, s)) →
  delete_individual reg1 id = (reg1, Refused IndividualHasSamples).
Proof.
  unfold add_sample_to_sujet. intros Hadd.
  destruct (individuals reg !! id) as [i0|] eqn:Hi0; [|done].
  destruct (get (d_sample_sample_id data)) as [code|]; [|done].
  destruct (sample_id_in_use (samples reg) code); [done|].
  simplify_eq. unfold delete_individual. simpl. rewrite Hi0.
  unfold individual_has_samples.
  erewrite existsb_map_to_list_true; [done|apply lookup_insert_eq|].
  simpl. by apply bool_decide_eq_true.
Qed.

Lemma sample_blocks_delete_individual_witness :
  ∃ reg1 sid s,
    add_sample_to_sujet one_individual 1 (sample_request "S1") = (reg1, Done (sid, s))
    ∧ delete_individual reg1 1 = (reg1, Refused IndividualHasSamples).
Proof.
  eexists _, _, _. split; [reflexivity|].
  eapply (sample_blocks_delete_individual one_individual _ 1 _ (sample_request "S1")).
  reflexivity.
Defined.

(** [update_sample] cannot take the arrival date away: whatever the
    request holds, a sample that has a date still has one afterwards. *)
Theorem update_sample_keeps_arrival_date
    (reg : Registry) (id : Z) (data : SampleData) (s : SampleRow) (d : Date) :
  samples reg !! id = Some s →
  row_arrival_date s = Some d →
  ∃ s1 d1, samples (update_sample reg id data).1 !! id = Some s1
           ∧ row_arrival_date s1 = Some d1.
Proof.
  intros Hs Hd. unfold update_sample. rewrite Hs.
  destruct (d_arrival_date data) as [|d'|];
    repeat case_match; simpl; try (by eexists _, _).
  all: eexists _, _; split; [apply lookup_insert_eq|]; simpl; done.
Qed.

Lemma update_sample_keeps_arrival_date_witness :
  ∃ s1 d1, samples (update_sample (one_sample 20240115) 1 clear_date_request).1 !! 1
             = Some s1
           ∧ row_arrival_date s1 = Some d1.
Proof.
  apply (update_sample_keeps_arrival_date (one_sample 20240115) 1 clear_date_request
           (mkSampleRow "S1" (Some 1) None (Some 20240115) None) 20240115).
  - reflexivity.
  - reflexivity.
Defined.

(** A request that gives both [sample_code] and [sample_id] is read in
    two ways: [create_sample] stores the sample under [sample_code],
    [update_sample] stores it under [sample_id]. *)
Theorem sample_code_precedence
    (reg : Registry) (id : Z) (data : SampleData) (code1 code2 : string) :
  d_sample_code data = Some (Some code1) →
  d_sample_sample_id data = Some (Some code2) →
  code1 ≠ EmptyString →
  (∀ reg1 sid s, create_sample reg data = (reg1, Done (sid, s)) → row_sample_id s = code1)
  ∧ (∀ reg1 s, update_sample reg id data = (reg1, Done s) → row_sample_id s = code2).
Proof.
  intros H1 H2 Hne. split.
  - intros reg1 sid s. unfold create_sample. rewrite H1, H2. simpl.
    rewrite (proj2 (truthy_str_true code1) Hne).
    repeat case_match; intros ?; by simplify_eq.
  - intros reg1 s. unfold update_sample. rewrite H1, H2. simpl.
    repeat case_match; intros ?; by simplify_eq.
Qed.

Lemma sample_code_precedence_witness :
  (∃ reg1 sid s,
     create_sample (one_sample 20240115) (two_codes_request "S2" "S3")
       = (reg1, Done (sid, s))
     ∧ row_sample_id s = "S2")
  ∧ (∃ reg1 s,
       update_sample (one_sample 20240115) 1 (two_codes_request "S2" "S3")
         = (reg1, Done s)
       ∧ row_sample_id s = "S3").
Proof.
  destruct (sample_code_precedence (one_sample 20240115) 1 (two_codes_request "S2" "S3")
              "S2" "S3" eq_refl eq_refl ltac:(discriminate)) as [Hc Hu].
  split.
  - eexists _, _, _. split; [reflexivity|]. eapply Hc. reflexivity.
  - eexists _, _. split; [reflexivity|]. eapply Hu. reflexivity.
Defined.

(** ** Views of the registry *)

Lemma length_append (a b : string) :
  String.length (a +:+ b) = (String.length a + String.length b)%nat.
Proof. induction a as [|x a IH]; simpl; [done|]. by rewrite IH. Qed.

Lemma str_negative_length (r : Z) : r < 0 → (2 ≤ String.length (Py.str r))%nat.
Proof.
  intros Hr. destruct r as [|p|p]; [done|done|]. clear Hr.
  change (Py.str (Z.neg p)) with (String "-" (Py.str (Z.pos p))).
  destruct (str_not_blank (Z.pos p)) as (_ & _ & Hne).
  destruct (Py.str (Z.pos p)) as [|a rest]; [done|]. simpl. lia.
Qed.

Lemma chr_length (n : Z) (s : string) : Py.chr n = Some s → String.length s = 1%nat.
Proof. unfold Py.chr. case_match; intros ?; by simplify_eq. Qed.

(** The details of an individual and the list of tubes show a position
    in the same way whenever the row is not negative, the empty text
    standing for no display; the details never fail.  For a negative row
    the two differ: the details show the number, the list of tubes a
    character or an error. *)
Theorem sujet_display_agrees (t : Tube) :
  (∃ s, sujet_position_display t = Some s)
  ∧ ((∀ r, position_row t = Some r → 0 ≤ r) →
     sujet_position_display t
     = Some (match get_position_display t with Shown s => s | _ => EmptyString end)
     ∧ get_position_display t ≠ ChrValueError)
  ∧ (∀ r c, position_row t = Some r → position_col t = Some c → r < 0 → c ≠ 0 →
       sujet_position_display t = Some (Py.str r +:+ Py.str c)
       ∧ get_position_display t ≠ Shown (Py.str r +:+ Py.str c)).
Proof.
  unfold sujet_position_display, get_position_display.
  change (Py.ord "A") with (Some 65).
  destruct (position_row t) as [r|], (position_col t) as [c|]; simpl;
    rewrite ?andb_false_r.
  2-4: split_and!; [by eexists | intros; split; [reflexivity|discriminate] | intros; simplify_eq].
  destruct (Z.eqb_spec r 0) as [->|Hr], (Z.eqb_spec c 0) as [->|Hc]; simpl.
  1-3: split_and!; [by eexists | intros; split; [reflexivity|discriminate] | intros; simplify_eq; lia].
  destruct (Z.leb_spec 1 r) as [H1|H1], (Z.leb_spec r 26) as [H26|H26]; simpl.
  - replace (65 + r - 1) with (64 + r) by lia.
    unfold Py.chr.
    assert ((0 <=? 64 + r) && (64 + r <? 128) = true) as -> by lia.
    simpl. split_and!; [by eexists | intros; split; [reflexivity|discriminate] | intros; simplify_eq; lia].
  - split_and!; [by eexists | intros; split; [reflexivity|discriminate] | intros; simplify_eq; lia].
  - split_and!; [by eexists | intros Hpos; specialize (Hpos r eq_refl); lia |].
    intros r' c' ? ? Hneg _. simplify_eq. split; [done|].
    destruct (Py.chr (64 + r')) as [row|] eqn:Hrow; [|done].
    intros Heq. injection Heq as Heq.
    apply (f_equal String.length) in Heq. rewrite !length_append in Heq.
    rewrite (chr_length _ _ Hrow) in Heq.
    pose proof (str_negative_length r' Hneg). lia.
  - lia.
Qed.

Lemma sujet_display_agrees_witness :
  sujet_position_display (tube_at (-3) 5) = Some "-35"
  ∧ get_position_display (tube_at (-3) 5) ≠ Shown "-35".
Proof.
  apply (proj2 (proj2 (sujet_display_agrees (tube_at (-3) 5))) (-3) 5);
    [reflexivity | reflexivity | lia | lia].
Defined.

(** The length of a filtered product, row by row. *)
Lemma join_count (id : Z) (l1 : list (Z * SampleRow)) (l2 : list (Z * Tube)) :
  length
    (filter (λ p : (Z * SampleRow) * (Z * Tube),
               row_individual_id p.1.2 = Some id ∧ sample_id p.2.2 = Some p.1.1)
       (list_prod l1 l2))
  = sum_list ((λ ks : Z * SampleRow,
                 length (filter (λ kt : Z * Tube, sample_id kt.2 = Some ks.1) l2))
                <$> filter (λ ks : Z * SampleRow, row_individual_id ks.2 = Some id) l1).
Proof.
  induction l1 as [|x l1 IH]; [done|].
  simpl. rewrite filter_app, length_app, IH. clear IH.
  rewrite filter_cons.
  destruct (decide (row_individual_id x.2 = Some id)) as [Hx|Hx].
  - rewrite fmap_cons. simpl. f_equal.
    induction l2 as [|y l2 IH2]; [done|].
    simpl. rewrite !filter_cons. simpl.
    destruct (decide (sample_id y.2 = Some x.1)) as [Hy|Hy].
    + rewrite decide_True by done. simpl. by rewrite IH2.
    + rewrite decide_False by (by intros [_ ?]). done.
  - replace (length _) with 0%nat; [done|].
    induction l2 as [|y l2 IH2]; [done|].
    simpl. rewrite filter_cons. simpl.
    rewrite decide_False by (by intros [? _]). done.
Qed.

(** What the list of individuals shows as [sample_count] is what the
    details of the individual show as [tube_count]: the number of tubes of
    the samples of the individual, not the number of samples. *)
Theorem sujets_sample_count_counts_tubes (reg : Registry) (id : Z) :
  sujets_sample_count reg id = sujet_tube_count reg id
  ∧ ((∀ k t, tubes (lab reg) !! k = Some t → sample_id t = None) →
     sujets_sample_count reg id = 0%nat).
Proof.
  assert (sujets_sample_count reg id = sujet_tube_count reg id) as Heq.
  { unfold sujets_sample_count, sujet_tube_count, sujet_sample_rows, sujet_tube_rows.
    apply join_count. }
  split; [done|]. intros Hnone. rewrite Heq.
  assert (∀ sid, sujet_tube_rows reg sid = []) as Hnil.
  { intros sid. unfold sujet_tube_rows.
    assert (Forall (λ kt : Z * Tube, sample_id kt.2 = None)
              (map_to_list (tubes (lab reg)))) as Hall.
    { apply Forall_forall. intros [k t] Hin%elem_of_map_to_list.
      by apply (Hnone k). }
    induction Hall as [|kt l Hkt _ IH]; [done|].
    rewrite filter_cons, decide_False; [done|]. by rewrite Hkt. }
  unfold sujet_tube_count.
  induction (sujet_sample_rows reg id) as [|ks l IH]; [done|].
  rewrite fmap_cons. simpl. by rewrite IH, Hnil.
Qed.

Lemma sujets_sample_count_counts_tubes_witness :
  sujets_sample_count small_registry 1 = 2%nat
  ∧ sujet_tube_count small_registry 1 = 2%nat
  ∧ sujet_sample_count small_registry 1 = 1%nat.
Proof.
  rewrite (proj1 (sujets_sample_count_counts_tubes small_registry 1)).
  split_and!; vm_compute; reflexivity.
Defined.

(** Whatever the query string holds as [per_page], the pages of the list
    of individuals are computed without a division by zero, with between
    1 and 100 rows a page; there is at least one page, the pages hold all
    the rows, and the last page is not empty unless there is no row. *)
Theorem sujets_pages_cover (arg : PyValue) (total : Z) :
  0 ≤ total →
  ∃ per_page pages,
    sujets_per_page arg = Some per_page
    ∧ 1 ≤ per_page ≤ 100
    ∧ sujets_total_pages arg total = Some pages
    ∧ 1 ≤ pages
    ∧ total ≤ pages * per_page
    ∧ (pages - 1) * per_page < Z.max total 1.
Proof.
  intros Htotal. unfold sujets_total_pages, sujets_per_page.
  assert (∃ p, safe_int arg (Some 25) (Some 1) (Some 100) = Some p ∧ 1 ≤ p ≤ 100)
    as (p & -> & Hp).
  { unfold safe_int. destruct (int_of_value arg) as [n|]; eexists; split; try done; lia. }
  exists p. rewrite (proj2 (Z.eqb_neq p 0)) by lia.
  eexists. split; [done|]. split; [done|]. split; [done|].
  pose proof (Z.div_mod (total + p - 1) p ltac:(lia)) as Hdiv.
  pose proof (Z.mod_pos_bound (total + p - 1) p ltac:(lia)) as Hmod.
  set (q := (total + p - 1) / p) in *.
  destruct (Z.max_spec 1 q) as [[Hlt ->]|[Hle ->]];
    destruct (Z.max_spec total 1) as [[? ->]|[? ->]]; nia.
Qed.

Lemma sujets_pages_cover_witness :
  ∃ per_page pages,
    sujets_per_page (ValStr "0") = Some per_page
    ∧ 1 ≤ per_page ≤ 100
    ∧ sujets_total_pages (ValStr "0") 7 = Some pages
    ∧ 1 ≤ pages
    ∧ 7 ≤ pages * per_page
    ∧ (pages - 1) * per_page < Z.max 7 1.
Proof. apply (sujets_pages_cover (ValStr "0") 7). lia. Defined.

